(** * Guest-house management application: reconciliation, income and booking API

    A shallow embedding of
    - the Booking.com reconciliation page
      ([src/app/(dashboard)/bookingcom-check/page.tsx]): the matcher
      ([rows]) and the per-property aggregation ([grouped]);
    - the stored-record schema ([src/models/Booking.ts]);
    - the income summary reduction ([src/app/api/income/route.ts]);
    - the create and update handlers ([src/app/api/bookings/route.ts]).

    Conventions.
    - On the reconciliation page a JavaScript [number] is what it is at
      run time, an IEEE 754 double ([float], the kernel's binary64
      numbers, with [NaN], the infinities, signed zeros and rounding):
      the ledger net comes out of [Number(...)], which yields [NaN] on
      text it cannot read, and the status of a row hangs on one
      comparison of doubles.
    - In the income summary and on the income-by-platform page, which
      only add up stored amounts, an amount is an exact rational ([Qc]):
      stored amounts are finite, and the sums are the code's up to the
      rounding of each addition.
    - A JavaScript string is a [string]; [undefined] fields are [option]s.
    - A JavaScript [Set] is the list of its elements in insertion order.
    - A call that raises is a [Throws] outcome.
    - The plain object used as a dictionary by the aggregation is the
      finite map ([gmap]) of its own properties under the keys every
      object inherits; the document collection of the store is a finite
      map from object ids to documents. *)

From Stdlib Require Import Floats QArith Qcanon Qcabs.
From stdpp Require Import base option list strings gmap fin_maps pretty.


(** ** JavaScript primitives used by the sources *)

Module Js.

(** [s.startsWith(t)], used to define [includes]. *)
Fixpoint startsWith (s t : string) {struct t} : bool :=
  match t, s with
  | EmptyString, _ => true
  | String c t', String d s' => if Ascii.eqb c d then startsWith s' t' else false
  | String _ _, EmptyString => false
  end.

(** [s.includes(t)]: [t] occurs in [s] at some position. *)
Fixpoint includes (s t : string) : bool :=
  if startsWith s t then true
  else match s with
       | EmptyString => false
       | String _ s' => includes s' t
       end.

(** [x || 0] on an optional number: [undefined] and [0] are falsy. *)
Definition orZero (x : option Qc) : Qc :=
  match x with
  | Some q => if decide (q = 0)%Qc then 0%Qc else q
  | None => 0%Qc
  end.

(** [x || d] on an optional string: [undefined] and [""] are falsy. *)
Definition orString (x : option string) (d : string) : string :=
  match x with
  | Some s => if decide (s = "") then d else s
  | None => d
  end.

(** The truthy value of an optional string, if any ([!x] is its
    absence). *)
Definition truthy (x : option string) : option string :=
  match x with
  | Some s => if decide (s = "") then None else Some s
  | None => None
  end.

(** [set.add(x)] on a [Set] kept in insertion order. *)
Definition Set_add (s : list string) (x : string) : list string :=
  if decide (x ∈ s) then s else s ++ [x].

(** [new Set(l)]. *)
Definition new_Set (l : list string) : list string :=
  fold_left Set_add l [].

(** [x || 0] on an optional double: [undefined], [NaN] and both zeros
    are falsy. *)
Definition numberOrZero (x : option float) : float :=
  match x with
  | Some q => if PrimFloat.is_nan q || PrimFloat.is_zero q then 0%float else q
  | None => 0%float
  end.

(** [l.reduce((s, x) => s + x, a)] and, from [0], the sum of [l] added
    up from left to right. *)
Definition sumFrom (a : float) (l : list float) : float :=
  fold_left PrimFloat.add l a.
Definition sum (l : list float) : float := sumFrom 0%float l.

(** The literal [0.01]: the double nearest to 1/100. *)
Definition tolerance : float := 0x1.47ae147ae147bp-7%float.

(** [Math.abs(a - b) > 0.01]: false when the difference is [NaN]. *)
Definition differs (a b : float) : bool :=
  PrimFloat.ltb tolerance (PrimFloat.abs (PrimFloat.sub a b)).

(** What a call comes to: a value, or an exception. *)
Inductive Outcome (A : Type) : Type :=
| Returns (a : A)
| Throws (error : string).
Arguments Returns {A} a.
Arguments Throws {A} error.

Definition bind {A B : Type} (m : Outcome A) (f : A → Outcome B) : Outcome B :=
  match m with
  | Returns a => f a
  | Throws e => Throws e
  end.

(** [x?.m]: [undefined] when [x] is. *)
Definition optMember {A B : Type} (x : option A) (m : A → B) : Outcome (option B) :=
  Returns (m <$> x).

(** [l.filter(p)], [l.map(f)] and a [for ... of] loop over [l], for
    callbacks and bodies that may raise. *)
Fixpoint filterM {A : Type} (p : A → Outcome bool) (l : list A) : Outcome (list A) :=
  match l with
  | [] => Returns []
  | x :: l' =>
    bind (p x) (λ keep,
    bind (filterM p l') (λ rest, Returns (if keep then x :: rest else rest)))
  end.

Fixpoint mapM {A B : Type} (f : A → Outcome B) (l : list A) : Outcome (list B) :=
  match l with
  | [] => Returns []
  | x :: l' => bind (f x) (λ y, bind (mapM f l') (λ rest, Returns (y :: rest)))
  end.

Fixpoint foldM {A B : Type} (f : A → B → Outcome A) (l : list B) (a : A) : Outcome A :=
  match l with
  | [] => Returns a
  | x :: l' => bind (f a x) (foldM f l')
  end.

(** The property names every plain object inherits from
    [Object.prototype]; each of the inherited values is truthy, and
    none of them has a property [rows]. *)
Definition objectPrototypeKeys : list string :=
  ["constructor"; "__defineGetter__"; "__defineSetter__"; "hasOwnProperty";
   "__lookupGetter__"; "__lookupSetter__"; "isPrototypeOf";
   "propertyIsEnumerable"; "toString"; "valueOf"; "__proto__"; "toLocaleString"].

(** A hexadecimal digit. *)
Definition isHexDigit (c : Ascii.ascii) : bool :=
  existsb (Ascii.eqb c) (String.list_ascii_of_string "0123456789abcdefABCDEF").

(** The strings mongoose casts to an [ObjectId]: 24 hexadecimal
    digits.  Any other string, the empty one included, is a
    [CastError]. *)
Definition isObjectId (s : string) : bool :=
  bool_decide (String.length s = 24%nat)
  && forallb isHexDigit (String.list_ascii_of_string s).

(** The cast of an optional path: an absent value is left alone. *)
Definition castObjectId (x : option string) : bool :=
  match x with
  | Some s => isObjectId s
  | None => true
  end.

End Js.

(** ** The reconciliation page *)

Module Csv.
(** [interface CsvRow]. *)
Record Row : Type := mkRow {
  reference : string;
  guest : string;
  net : float
}.
End Csv.

Module Matcher.

(** [interface Property]. *)
Record Property : Type := mkProperty {
  prop_id : string;
  name : string
}.

(** [interface Booking] of the page.  [reservationId] is read with [?.]
    and is optional in the stored schema, hence an [option]. *)
Record Booking : Type := mkBooking {
  _id : string;
  guestName : string;
  reservationId : option string;
  propertyId : option Property;
  amount : float;
  expectedPayment : option float;
  platform : string
}.

(** [type Status]. *)
Inductive Status : Type :=
| OK
| MISSING_IN_DB
| MISSING_IN_CSV
| AMOUNT_MISMATCH
| DUPLICATE_DB_REFERENCE
| MULTI_PROPERTY_REFERENCE.

#[global] Instance Status_eq_dec : EqDecision Status.
Proof. solve_decision. Defined.

(** [interface ReconciliationRow].  [reference] is an [option]: the
    rows built from a stored booking copy its optional
    [reservationId]. *)
Record ReconciliationRow : Type := mkReconciliationRow {
  property : string;
  reference : option string;
  csvGuest : option string;
  dbGuests : list string;
  dbRecords : option (list Booking);
  csvNet : option float;
  dbTotal : option float;
  dbCount : nat;
  status : Status
}.

(** The output vocabulary, as the union type lists it. *)
Definition vocabulary : list Status :=
  [OK; MISSING_IN_DB; MISSING_IN_CSV; AMOUNT_MISMATCH;
   DUPLICATE_DB_REFERENCE; MULTI_PROPERTY_REFERENCE].

(** The string each tag stands for at run time. *)
Definition status_tag (s : Status) : string :=
  match s with
  | OK => "OK"
  | MISSING_IN_DB => "MISSING_IN_DB"
  | MISSING_IN_CSV => "MISSING_IN_CSV"
  | AMOUNT_MISMATCH => "AMOUNT_MISMATCH"
  | DUPLICATE_DB_REFERENCE => "DUPLICATE_DB_REFERENCE"
  | MULTI_PROPERTY_REFERENCE => "MULTI_PROPERTY_REFERENCE"
  end.

Definition UNMATCHED_CSV : string := "Unmatched CSV".
Definition CROSS_PROPERTY : string := "⚠ Cross-Property Issue".
Definition UNKNOWN_PROPERTY : string := "Unknown Property".

(** [allBookings.filter((b) => b.platform === "Booking.com")]: the
    stored bookings handed to the matcher. *)
Definition dbBookingsOf (allBookings : list Booking) : list Booking :=
  List.filter (λ b, bool_decide (platform b = "Booking.com")) allBookings.

(** [b.reservationId?.includes(csv.reference)], as a filter predicate
    ([undefined] is falsy). *)
Definition matches (csv : Csv.Row) (b : Booking) : bool :=
  match reservationId b with
  | Some rid => Js.includes rid (Csv.reference csv)
  | None => false
  end.

(** [b.propertyId?.name || "Unknown Property"]. *)
Definition propertyLabel (b : Booking) : string :=
  Js.orString (name <$> propertyId b) UNKNOWN_PROPERTY.

(** [b.expectedPayment ?? b.amount]. *)
Definition comparedAmount (b : Booking) : float :=
  match expectedPayment b with
  | Some e => e
  | None => amount b
  end.

(** [dbBookings.filter(...)] for one ledger row. *)
Definition matchedOf (dbBookings : list Booking) (csv : Csv.Row) : list Booking :=
  List.filter (matches csv) dbBookings.

(** [matched.reduce((s, b) => s + (b.expectedPayment ?? b.amount), 0)]. *)
Definition dbTotalOf (matched : list Booking) : float :=
  fold_left (λ s b, s + comparedAmount b)%float matched 0%float.

(** The [if / else if / else if] chain assigning [status]. *)
Definition classify (properties : list string) (matched : list Booking)
    (total : float) (csv : Csv.Row) : Status :=
  if decide (1 < length properties)%nat then MULTI_PROPERTY_REFERENCE
  else if decide (1 < length matched)%nat then DUPLICATE_DB_REFERENCE
  else if Js.differs total (Csv.net csv) then AMOUNT_MISMATCH
  else OK.

(** The row pushed when [matched.length === 0]. *)
Definition missingInDbRow (csv : Csv.Row) : ReconciliationRow :=
  {| property := UNMATCHED_CSV;
     reference := Some (Csv.reference csv);
     csvGuest := Some (Csv.guest csv);
     dbGuests := [];
     dbRecords := None;
     csvNet := Some (Csv.net csv);
     dbTotal := None;
     dbCount := 0;
     status := MISSING_IN_DB |}.

(** The row pushed for a ledger row with at least one match, given the
    labels [matched.map((b) => b.propertyId?.name || "Unknown Property")]. *)
Definition matchedRowOf (csv : Csv.Row) (matched : list Booking)
    (labels : list string) : ReconciliationRow :=
  let properties := Js.new_Set labels in
  let total := dbTotalOf matched in
  {| property :=
       (* properties.size === 1 ? [...properties][0] : CROSS_PROPERTY *)
       match properties with
       | p :: nil => p
       | _ => CROSS_PROPERTY
       end;
     reference := Some (Csv.reference csv);
     csvGuest := Some (Csv.guest csv);
     dbGuests := map guestName matched;
     dbRecords := Some matched;
     csvNet := Some (Csv.net csv);
     dbTotal := Some total;
     dbCount := length matched;
     status := classify properties matched total csv |}.

Definition matchedRow (csv : Csv.Row) (matched : list Booking) : ReconciliationRow :=
  matchedRowOf csv matched (map propertyLabel matched).

(** The row pushed by one iteration of the first loop. *)
Definition csvRowResult (dbBookings : list Booking) (csv : Csv.Row) : ReconciliationRow :=
  let matched := matchedOf dbBookings csv in
  match matched with
  | [] => missingInDbRow csv
  | _ :: _ => matchedRow csv matched
  end.

(** [matched.forEach((b) => usedDbIds.add(b._id))]. *)
Definition markUsed (usedDbIds : gset string) (matched : list Booking) : gset string :=
  fold_left (λ s b, {[ _id b ]} ∪ s) matched usedDbIds.

(** One iteration of [for (const csv of csvRows)] on the loop state
    [(output, usedDbIds)]. *)
Definition csvStep (dbBookings : list Booking)
    (st : list ReconciliationRow * gset string) (csv : Csv.Row)
    : list ReconciliationRow * gset string :=
  let matched := matchedOf dbBookings csv in
  match matched with
  | [] => (st.1 ++ [missingInDbRow csv], st.2)
  | _ :: _ => (st.1 ++ [matchedRow csv matched], markUsed st.2 matched)
  end.

(** The row pushed for a stored booking no ledger row touched, given
    its label. *)
Definition missingInCsvRowOf (b : Booking) (label : string) : ReconciliationRow :=
  {| property := label;
     reference := reservationId b;
     csvGuest := None;
     dbGuests := [guestName b];
     dbRecords := Some [b];
     csvNet := None;
     dbTotal := Some (comparedAmount b);
     dbCount := 1;
     status := MISSING_IN_CSV |}.

Definition missingInCsvRow (b : Booking) : ReconciliationRow :=
  missingInCsvRowOf b (propertyLabel b).

(** One iteration of [for (const b of dbBookings)]. *)
Definition dbStep (usedDbIds : gset string)
    (output : list ReconciliationRow) (b : Booking) : list ReconciliationRow :=
  if decide (_id b ∈ usedDbIds) then output else output ++ [missingInCsvRow b].

(** The [rows] memo: the whole matcher. *)
Definition rows (dbBookings : list Booking) (csvRows : list Csv.Row)
    : list ReconciliationRow :=
  let st := fold_left (csvStep dbBookings) csvRows ([], ∅) in
  fold_left (dbStep st.2) dbBookings st.1.

(** *** The matcher with the accesses that may raise

    The same loops with each access to a value that may be [undefined]
    spelt out: the code reads [reservationId] and [propertyId] through
    [?.] only. *)

(** [b.reservationId?.includes(csv.reference)], the callback of
    [filter]: [undefined] is falsy. *)
Definition matchesJs (csv : Csv.Row) (b : Booking) : Js.Outcome bool :=
  Js.bind
    (Js.optMember (reservationId b) (λ rid, Js.includes rid (Csv.reference csv)))
    (λ found, Js.Returns (default false found)).

(** [b.propertyId?.name || "Unknown Property"]. *)
Definition propertyLabelJs (b : Booking) : Js.Outcome string :=
  Js.bind (Js.optMember (propertyId b) name)
    (λ n, Js.Returns (Js.orString n UNKNOWN_PROPERTY)).

Definition csvStepJs (dbBookings : list Booking)
    (st : list ReconciliationRow * gset string) (csv : Csv.Row)
    : Js.Outcome (list ReconciliationRow * gset string) :=
  Js.bind (Js.filterM (matchesJs csv) dbBookings) (λ matched,
    match matched with
    | [] => Js.Returns (st.1 ++ [missingInDbRow csv], st.2)
    | _ :: _ =>
      Js.bind (Js.mapM propertyLabelJs matched) (λ labels,
        Js.Returns (st.1 ++ [matchedRowOf csv matched labels], markUsed st.2 matched))
    end).

Definition dbStepJs (usedDbIds : gset string)
    (output : list ReconciliationRow) (b : Booking)
    : Js.Outcome (list ReconciliationRow) :=
  if decide (_id b ∈ usedDbIds) then Js.Returns output
  else Js.bind (propertyLabelJs b)
         (λ label, Js.Returns (output ++ [missingInCsvRowOf b label])).

Definition rowsJs (dbBookings : list Booking) (csvRows : list Csv.Row)
    : Js.Outcome (list ReconciliationRow) :=
  Js.bind (Js.foldM (csvStepJs dbBookings) csvRows ([], ∅))
    (λ st, Js.foldM (dbStepJs st.2) dbBookings st.1).

(** The value type of the [grouped] dictionary. *)
Module Group.
Record t : Type := mk {
  rows : list ReconciliationRow;
  safeTotal : float;
  csvTotal : float;
  dbTotal : float
}.
End Group.

Definition emptyGroup : Group.t :=
  {| Group.rows := []; Group.safeTotal := 0%float;
     Group.csvTotal := 0%float; Group.dbTotal := 0%float |}.

(** [g.rows.push(r)]. *)
Definition pushRow (r : ReconciliationRow) (g : Group.t) : Group.t :=
  {| Group.rows := Group.rows g ++ [r]; Group.safeTotal := Group.safeTotal g;
     Group.csvTotal := Group.csvTotal g; Group.dbTotal := Group.dbTotal g |}.

(** [g.csvTotal += r.csvNet || 0]. *)
Definition addCsvTotal (r : ReconciliationRow) (g : Group.t) : Group.t :=
  {| Group.rows := Group.rows g; Group.safeTotal := Group.safeTotal g;
     Group.csvTotal := (Group.csvTotal g + Js.numberOrZero (csvNet r))%float;
     Group.dbTotal := Group.dbTotal g |}.

(** [g.dbTotal += r.dbTotal || 0]. *)
Definition addDbTotal (r : ReconciliationRow) (g : Group.t) : Group.t :=
  {| Group.rows := Group.rows g; Group.safeTotal := Group.safeTotal g;
     Group.csvTotal := Group.csvTotal g;
     Group.dbTotal := (Group.dbTotal g + Js.numberOrZero (dbTotal r))%float |}.

(** [g.safeTotal += r.csvNet || 0]. *)
Definition addSafeTotal (r : ReconciliationRow) (g : Group.t) : Group.t :=
  {| Group.rows := Group.rows g;
     Group.safeTotal := (Group.safeTotal g + Js.numberOrZero (csvNet r))%float;
     Group.csvTotal := Group.csvTotal g; Group.dbTotal := Group.dbTotal g |}.

(** The body of [for (const r of rows)] on the own properties [map] of
    the dictionary, for a label the dictionary does not inherit. *)
Definition addToGroup (map : gmap string Group.t) (r : ReconciliationRow)
    : gmap string Group.t :=
  let k := property r in
  let map1 := match map !! k with
              | Some _ => map
              | None => <[k := emptyGroup]> map
              end in
  let map2 := alter (pushRow r) k map1 in
  let map3 := alter (addCsvTotal r) k map2 in
  let map4 := alter (addDbTotal r) k map3 in
  if decide (status r = OK) then alter (addSafeTotal r) k map4 else map4.

(** One iteration of [for (const r of rows)].  The dictionary is a
    plain object: under a label it inherits, [map[r.property]] is the
    inherited value, which is truthy, so that no group is created, and
    whose [rows] is [undefined], so that [.rows.push(r)] raises.  No
    own property is ever created under such a label. *)
Definition groupStep (map : gmap string Group.t) (r : ReconciliationRow)
    : Js.Outcome (gmap string Group.t) :=
  if decide (property r ∈ Js.objectPrototypeKeys) then Js.Throws "TypeError"
  else Js.Returns (addToGroup map r).

(** The [grouped] memo. *)
Definition grouped (rs : list ReconciliationRow)
    : Js.Outcome (gmap string Group.t) :=
  Js.foldM groupStep rs ∅.

End Matcher.

(** ** The stored-record schema ([src/models/Booking.ts]) *)

Module Model.

(** [interface IBooking]; every field may be absent from a request body
    or a stored document, hence the [option]s.  An object id is the
    string a request carries, which mongoose casts ([Js.isObjectId]);
    dates are milliseconds since the epoch. *)
Record IBooking : Type := mkIBooking {
  guestName : option string;
  email : option string;
  phone : option string;
  idNumber : option string;
  reservationId : option string;
  unitType : option string;
  propertyId : option string;
  roomId : option string;
  platform : option string;
  paymentMethod : option string;
  amount : option Qc;
  expectedPayment : option Qc;
  paymentDate : option Z;
  checkInDate : option Z;
  checkOutDate : option Z;
  status : option string
}.

(** The [enum] lists of [BookingSchema]. *)
Definition platformEnum : list string :=
  ["Booking.com"; "Agoda"; "Airbnb"; "Expedia"; "Direct"].
Definition paymentMethodEnum : list string :=
  ["online"; "bank"; "cash"; "card"].
Definition statusEnum : list string :=
  ["booked"; "checkin"; "checkout"; "cancel"].

(** [required: true] on a [String] path: present and not empty. *)
Definition requiredString (x : option string) : bool :=
  match x with
  | Some s => negb (bool_decide (s = ""))
  | None => false
  end.

(** [required: true] on any other path. *)
Definition required {A : Type} (x : option A) : bool :=
  match x with Some _ => true | None => false end.

(** [enum: l]: an absent value passes, a present one must be listed. *)
Definition inEnum (l : list string) (x : option string) : bool :=
  match x with
  | Some s => bool_decide (s ∈ l)
  | None => true
  end.

(** Document validation against [BookingSchema], run on [create]:
    the required paths, the enumerations, and the cast of the two
    [ObjectId] paths. *)
Definition validate (d : IBooking) : bool :=
  requiredString (guestName d)
  && required (propertyId d) && Js.castObjectId (propertyId d)
  && Js.castObjectId (roomId d)
  && requiredString (platform d) && inEnum platformEnum (platform d)
  && requiredString (paymentMethod d) && inEnum paymentMethodEnum (paymentMethod d)
  && required (amount d)
  && required (checkInDate d)
  && required (checkOutDate d)
  && inEnum statusEnum (status d).

(** [default: "booked"] on [status]. *)
Definition applyDefaults (d : IBooking) : IBooking :=
  match status d with
  | Some _ => d
  | None =>
    mkIBooking (guestName d) (email d) (phone d) (idNumber d) (reservationId d)
      (unitType d) (propertyId d) (roomId d) (platform d) (paymentMethod d)
      (amount d) (expectedPayment d) (paymentDate d) (checkInDate d)
      (checkOutDate d) (Some "booked")
  end.

(** The invariant the schema declares for [status]. *)
Definition statusDeclared (d : IBooking) : Prop :=
  ∃ s, status d = Some s ∧ s ∈ statusEnum.

End Model.

(** ** The income summary ([src/app/api/income/route.ts]) *)

Module Income.

(** The [totals] object. *)
Record Totals : Type := mkTotals {
  booking : Qc;
  agoda : Qc;
  airbnb : Qc;
  expedia : Qc;
  directBank : Qc;
  directCash : Qc;
  netTotal : Qc
}.

Definition zeroTotals : Totals :=
  mkTotals 0%Qc 0%Qc 0%Qc 0%Qc 0%Qc 0%Qc 0%Qc.

(** [b.amount || 0]. *)
Definition amountOf (b : Model.IBooking) : Qc := Js.orZero (Model.amount b).

(** [b.platform === p] and [b.paymentMethod === m]. *)
Definition platformIs (p : string) (b : Model.IBooking) : bool :=
  bool_decide (Model.platform b = Some p).
Definition methodIs (m : string) (b : Model.IBooking) : bool :=
  bool_decide (Model.paymentMethod b = Some m).

(** The side effect of the [records.map] callback on [totals]:
    [totals.netTotal += amount], then the [switch (b.platform)]. *)
Definition addRecord (t : Totals) (b : Model.IBooking) : Totals :=
  let amount := amountOf b in
  let t := mkTotals (booking t) (agoda t) (airbnb t) (expedia t)
             (directBank t) (directCash t) (netTotal t + amount)%Qc in
  if platformIs "Booking.com" b then
    mkTotals (booking t + amount)%Qc (agoda t) (airbnb t) (expedia t)
      (directBank t) (directCash t) (netTotal t)
  else if platformIs "Agoda" b then
    mkTotals (booking t) (agoda t + amount)%Qc (airbnb t) (expedia t)
      (directBank t) (directCash t) (netTotal t)
  else if platformIs "Airbnb" b then
    mkTotals (booking t) (agoda t) (airbnb t + amount)%Qc (expedia t)
      (directBank t) (directCash t) (netTotal t)
  else if platformIs "Expedia" b then
    mkTotals (booking t) (agoda t) (airbnb t) (expedia t + amount)%Qc
      (directBank t) (directCash t) (netTotal t)
  else if platformIs "Direct" b then
    let t := if methodIs "bank" b then
               mkTotals (booking t) (agoda t) (airbnb t) (expedia t)
                 (directBank t + amount)%Qc (directCash t) (netTotal t)
             else t in
    if methodIs "cash" b then
      mkTotals (booking t) (agoda t) (airbnb t) (expedia t)
        (directBank t) (directCash t + amount)%Qc (netTotal t)
    else t
  else t.

(** [totals] after the pass over [records]. *)
Definition totals (records : list Model.IBooking) : Totals :=
  fold_left addRecord records zeroTotals.


(** The names of the six buckets, and the bucket a name denotes. *)
Inductive Bucket : Type :=
| Booking | Agoda | Airbnb | Expedia | DirectBank | DirectCash.

Definition bucket (k : Bucket) (t : Totals) : Qc :=
  match k with
  | Booking => booking t
  | Agoda => agoda t
  | Airbnb => airbnb t
  | Expedia => expedia t
  | DirectBank => directBank t
  | DirectCash => directCash t
  end.

(** The records a bucket is said to sum: those of a platform, and for
    the two Direct buckets those of a payment method. *)
Definition inBucket (k : Bucket) (b : Model.IBooking) : bool :=
  match k with
  | Booking => platformIs "Booking.com" b
  | Agoda => platformIs "Agoda" b
  | Airbnb => platformIs "Airbnb" b
  | Expedia => platformIs "Expedia" b
  | DirectBank => platformIs "Direct" b && methodIs "bank" b
  | DirectCash => platformIs "Direct" b && methodIs "cash" b
  end.

(** A Direct record paid neither by bank nor in cash. *)
Definition directOther (b : Model.IBooking) : bool :=
  platformIs "Direct" b && negb (methodIs "bank" b) && negb (methodIs "cash" b).


End Income.

(** ** The booking handlers ([src/app/api/bookings/route.ts]) *)

Module BookingsApi.

(** The collection: documents by [_id].  Its keys are object ids: an
    identifier under which a document is stored is well formed. *)
Abbreviation Store := (gmap string Model.IBooking).

(** What a handler passes to [NextResponse.json]: an object or [null].
    [undefined] has no JSON text, and [NextResponse.json(undefined)]
    raises a [TypeError]. *)
Inductive Body : Type :=
| ErrorBody (error : string)
| BookingBody (_id : string) (doc : Model.IBooking)
| NullBody.

(** [NextResponse.json(body, { status })]; the status is 200 when the
    handler gives none. *)
Record Response : Type := json {
  body : Body;
  code : nat
}.

(** A document that is not soft-deleted: [status: { $ne: "cancel" }]. *)
Definition active (d : Model.IBooking) : bool :=
  negb (bool_decide (Model.status d = Some "cancel")).

Definition hasReservation (rid : string) (d : Model.IBooking) : bool :=
  bool_decide (Model.reservationId d = Some rid).

(** [Booking.findOne({ reservationId, status: { $ne: "cancel" } })],
    as the handler uses it: only whether a document was found. *)
Definition findOneActive (store : Store) (rid : string) : bool :=
  existsb (λ kv, hasReservation rid kv.2 && active kv.2) (map_to_list store).

(** The unique index declared by [reservationId: { unique: true }]:
    whether some stored document, cancelled or not, carries [rid]. *)
Definition indexHas (store : Store) (rid : option string) : bool :=
  existsb (λ kv, bool_decide (Model.reservationId kv.2 = rid)) (map_to_list store).

(** [Booking.create(doc)] with the fresh object id [oid] the driver
    draws: defaults, validation, unique indexes, insertion.  [None] is
    a thrown error. *)
Definition Booking_create (store : Store) (oid : string) (doc : Model.IBooking)
    : option (Model.IBooking * Store) :=
  let d := Model.applyDefaults doc in
  if negb (Model.validate d) then None
  else if indexHas store (Model.reservationId d) then None
  else match store !! oid with
       | Some _ => None
       | None => Some (d, <[oid := d]> store)
       end.

(** [`AUTO-${Date.now()}-${Math.floor(Math.random() * 1000)}`], given
    the clock reading [now] and the drawn integer [rnd]. *)
Definition autoReservationId (now rnd : N) : string :=
  "AUTO-" +:+ pretty now +:+ "-" +:+ pretty rnd.

(** [let reservationId = data.reservationId; if (!reservationId) ...]. *)
Definition reservationIdFor (data : Model.IBooking) (now rnd : N) : string :=
  Js.orString (Model.reservationId data) (autoReservationId now rnd).

(** [{ ...data, reservationId, status: data.status || "booked" }]. *)
Definition newDocument (data : Model.IBooking) (rid : string) : Model.IBooking :=
  Model.mkIBooking (Model.guestName data) (Model.email data) (Model.phone data)
    (Model.idNumber data) (Some rid) (Model.unitType data)
    (Model.propertyId data) (Model.roomId data) (Model.platform data)
    (Model.paymentMethod data) (Model.amount data) (Model.expectedPayment data)
    (Model.paymentDate data) (Model.checkInDate data) (Model.checkOutDate data)
    (Some (Js.orString (Model.status data) "booked")).

(** The [POST] handler on a store: the response and the store after
    it.  [now], [rnd] and [oid] are what the clock, the random source
    and the driver supply.  The [catch] branch is taken when
    [Booking.create] throws. *)
Definition POST (store : Store) (data : Model.IBooking) (now rnd : N) (oid : string)
    : Response * Store :=
  let reservationId := reservationIdFor data now rnd in
  if findOneActive store reservationId then
    (json (ErrorBody "Reservation ID already exists") 409, store)
  else
    match Booking_create store oid (newDocument data reservationId) with
    | Some (booking, store') => (json (BookingBody oid booking) 200, store')
    | None => (json (ErrorBody "Failed to create booking") 500, store)
    end.

(** [Booking.findByIdAndUpdate(id, update, { new: true })]: the
    identifier and the values of the update are cast to their paths
    ([castable] is whether the update casts), and a value that does not
    cast raises a [CastError]; the update is then applied without
    validation, and the call returns the updated document, or [null]
    when no document has the identifier.  The keys of the store are
    the object ids of its documents, so that an identifier under which
    the store holds a document casts; only for an identifier that is
    not a key does the cast decide. *)
Definition findByIdAndUpdate (store : Store) (id : string) (castable : bool)
    (update : Model.IBooking → Model.IBooking) : Js.Outcome (Body * Store) :=
  match store !! id with
  | Some d =>
    if castable
    then Js.Returns (BookingBody id (update d), <[id := update d]> store)
    else Js.Throws "CastError"
  | None =>
    if Js.isObjectId id && castable then Js.Returns (NullBody, store)
    else Js.Throws "CastError"
  end.

(** The answer of a handler whose [try] block came to [r]: the value
    it passes to [NextResponse.json], or, from the [catch] branch, the
    error [failure] with HTTP 500 and the store as it was. *)
Definition answer (r : Js.Outcome (Body * Store)) (store : Store) (failure : string)
    : Response * Store :=
  match r with
  | Js.Returns (booking, store') => (json booking 200, store')
  | Js.Throws _ => (json (ErrorBody failure) 500, store)
  end.

(** The update [{ status: s }]. *)
Definition setStatus (s : string) (d : Model.IBooking) : Model.IBooking :=
  Model.mkIBooking (Model.guestName d) (Model.email d) (Model.phone d)
    (Model.idNumber d) (Model.reservationId d) (Model.unitType d)
    (Model.propertyId d) (Model.roomId d) (Model.platform d)
    (Model.paymentMethod d) (Model.amount d) (Model.expectedPayment d)
    (Model.paymentDate d) (Model.checkInDate d) (Model.checkOutDate d)
    (Some s).

(** The update [{ roomId }]; an [undefined] room leaves the path as it
    is. *)
Definition setRoom (r : option string) (d : Model.IBooking) : Model.IBooking :=
  Model.mkIBooking (Model.guestName d) (Model.email d) (Model.phone d)
    (Model.idNumber d) (Model.reservationId d) (Model.unitType d)
    (Model.propertyId d)
    (match r with Some _ => r | None => Model.roomId d end)
    (Model.platform d)
    (Model.paymentMethod d) (Model.amount d) (Model.expectedPayment d)
    (Model.paymentDate d) (Model.checkInDate d) (Model.checkOutDate d)
    (Model.status d).

(** The [PATCH] handler: [bookingId], [action] and [roomId] are the
    fields of the request body.  Under any other action [booking]
    stays [undefined], and [NextResponse.json(booking)] raises. *)
Definition PATCH (store : Store) (bookingId : option string) (action : string)
    (roomId : option string) : Response * Store :=
  match Js.truthy bookingId with
  | None => (json (ErrorBody "bookingId required") 400, store)
  | Some id =>
    answer
      (if decide (action = "assign") then
         findByIdAndUpdate store id (Js.castObjectId roomId) (setRoom roomId)
       else if decide (action = "checkin") then
         findByIdAndUpdate store id true (setStatus "checked_in")
       else if decide (action = "checkout") then
         findByIdAndUpdate store id true (setStatus "checked_out")
       else Js.Throws "TypeError")
      store "Failed to update booking"
  end.

(** Every stored booking has a status of the declared enumeration. *)
Definition statusInvariant (store : Store) : Prop :=
  ∀ id d, store !! id = Some d → Model.statusDeclared d.

End BookingsApi.

(** ** The matcher, read off its loops *)

(** The identifiers in [usedDbIds] when the first loop ends. *)
Definition usedDbIdsOf (dbBookings : list Matcher.Booking) (csvRows : list Csv.Row)
    : gset string :=
  (fold_left (Matcher.csvStep dbBookings) csvRows ([], ∅)).2.

(** Some ledger row matches the stored booking [b]. *)
Definition matchedBySome (csvRows : list Csv.Row) (b : Matcher.Booking) : bool :=
  existsb (λ csv, Matcher.matches csv b) csvRows.

(** The stored bookings matched by no ledger row. *)
Definition unmatched (dbBookings : list Matcher.Booking) (csvRows : list Csv.Row)
    : list Matcher.Booking :=
  List.filter (λ b, negb (matchedBySome csvRows b)) dbBookings.

(** ** The aggregation, read off its loop *)

(** The rows of [rs] labelled [k], in order: the members of group [k]. *)
Definition rowsOf (k : string) (rs : list Matcher.ReconciliationRow)
    : list Matcher.ReconciliationRow :=
  List.filter (λ r, bool_decide (Matcher.property r = k)) rs.

(** What the totals add for a row: its ledger net and its stored
    total, an absent one, [NaN] and zero counting for [0]. *)
Definition csvNetOf (r : Matcher.ReconciliationRow) : float :=
  Js.numberOrZero (Matcher.csvNet r).

Definition storedTotalOf (r : Matcher.ReconciliationRow) : float :=
  Js.numberOrZero (Matcher.dbTotal r).

Definition isOK (r : Matcher.ReconciliationRow) : bool :=
  bool_decide (Matcher.status r = Matcher.OK).

(** What one loop iteration does to the group of its row. *)
Definition addRow (g : Matcher.Group.t) (r : Matcher.ReconciliationRow)
    : Matcher.Group.t :=
  let g3 := Matcher.addDbTotal r (Matcher.addCsvTotal r (Matcher.pushRow r g)) in
  if decide (Matcher.status r = Matcher.OK) then Matcher.addSafeTotal r g3 else g3.

(** The own properties of the dictionary when no iteration raises. *)
Definition groupedOwn (rs : list Matcher.ReconciliationRow)
    : gmap string Matcher.Group.t :=
  fold_left Matcher.addToGroup rs ∅.

(** Some row carries a label that every plain object inherits. *)
Definition inheritedLabel (rs : list Matcher.ReconciliationRow) : Prop :=
  ∃ r, r ∈ rs ∧ Matcher.property r ∈ Js.objectPrototypeKeys.

(** The sum of [csvNet] over the rows of status OK. *)
Definition okNetSum (rs : list Matcher.ReconciliationRow) : float :=
  Js.sum (omap Matcher.csvNet (List.filter isOK rs)).

(** ** The classification, as the specification words it *)

(** The name a stored booking's property is displayed under: the name
    of the property, and "Unknown Property" for a booking without a
    property or with a property without a name. *)
Definition displayName (b : Matcher.Booking) : string :=
  match Matcher.propertyId b with
  | Some p => if decide (Matcher.name p = "") then "Unknown Property" else Matcher.name p
  | None => "Unknown Property"
  end.

(** The number of distinct display names among the matches. *)
Definition distinctProperties (matched : list Matcher.Booking) : nat :=
  length (remove_dups (map displayName matched)).

(** The test of the amounts in double arithmetic: the absolute value
    of the difference is greater than the double nearest to 0.01.  It
    is false when either amount is [NaN]. *)
Definition moreThanACentApart (a b : float) : bool :=
  PrimFloat.ltb 0x1.47ae147ae147bp-7%float (PrimFloat.abs (PrimFloat.sub a b)).

(** The amount compared for a single match: the reduction
    [0 + (b.expectedPayment ?? b.amount)]. *)
Definition storedAmount (b : Matcher.Booking) : float :=
  PrimFloat.add 0%float
    (match Matcher.expectedPayment b with
     | Some e => e
     | None => Matcher.amount b
     end).

(** First applicable case wins: no match; more than one distinct
    display name; more than one match; one match whose compared amount
    tests as more than 0.01 away from the ledger net; otherwise fine. *)
Definition specStatus (matched : list Matcher.Booking) (net : float) : Matcher.Status :=
  match matched with
  | [] => Matcher.MISSING_IN_DB
  | b :: rest =>
    if decide (1 < distinctProperties matched)%nat then Matcher.MULTI_PROPERTY_REFERENCE
    else match rest with
         | _ :: _ => Matcher.DUPLICATE_DB_REFERENCE
         | [] =>
           if moreThanACentApart (storedAmount b) net
           then Matcher.AMOUNT_MISMATCH
           else Matcher.OK
         end
  end.

(** ** Sample data *)

Module Examples.

(** Object ids: of two properties, of stored bookings, of a booking
    to be created, and of a room. *)
Definition p1 : string := "64b7f0c2a1d3e4f5a6b7c8d1".
Definition p2 : string := "64b7f0c2a1d3e4f5a6b7c8d2".
Definition oid1 : string := "65a1b2c3d4e5f60718293a41".
Definition oid2 : string := "65a1b2c3d4e5f60718293a42".
Definition oid3 : string := "65a1b2c3d4e5f60718293a43".
Definition oid9 : string := "65a1b2c3d4e5f60718293a49".
Definition room7 : string := "66c0ffee00112233445566a7".

Definition beachHouse : Matcher.Property := Matcher.mkProperty p1 "Beach House".
Definition cityLoft : Matcher.Property := Matcher.mkProperty p2 "City Loft".

(** Collected 200, expected payout 150. *)
Definition b1001 : Matcher.Booking :=
  Matcher.mkBooking "id1" "Ann" (Some "BDC-1001-A") (Some beachHouse)
    200%float (Some 150%float) "Booking.com".

Definition b2002 : Matcher.Booking :=
  Matcher.mkBooking "id2" "Bob" (Some "BDC-2002") (Some cityLoft)
    90%float None "Booking.com".

(** A second booking carrying reference 1001, in another property. *)
Definition b1001loft : Matcher.Booking :=
  Matcher.mkBooking "id3" "Cy" (Some "X-1001") (Some cityLoft)
    150%float None "Booking.com".

Definition dbBookings : list Matcher.Booking := [b1001; b2002].

Definition row1001 : Csv.Row := Csv.mkRow "1001" "Ann" 150%float.
Definition row1001low : Csv.Row := Csv.mkRow "1001" "Ann" 140%float.
Definition rowBDC1001 : Csv.Row := Csv.mkRow "BDC-1001" "Ann" 150%float.
Definition row9999 : Csv.Row := Csv.mkRow "9999" "Zed" 10%float.

Definition csvRows : list Csv.Row := [row1001; row9999].

(** A property with an identifier of its own and the name of
    [beachHouse], and a booking in it carrying reference 1001. *)
Definition beachHouseAnnex : Matcher.Property := Matcher.mkProperty p2 "Beach House".
Definition b1001annex : Matcher.Booking :=
  Matcher.mkBooking "id5" "Cy" (Some "X-1001") (Some beachHouseAnnex)
    150%float None "Booking.com".

(** The ledger row of reference 1001 with a Net column that
    [Number] cannot read. *)
Definition row1001nan : Csv.Row := Csv.mkRow "1001" "Ann" PrimFloat.nan.

(** A booking of 100.01 (the double nearest to it, as [JSON.parse]
    gives it) and its ledger row, of 100. *)
Definition b3003 : Matcher.Booking :=
  Matcher.mkBooking "id4" "Dan" (Some "BDC-3003") (Some beachHouse)
    0x1.900a3d70a3d71p+6%float None "Booking.com".
Definition row3003 : Csv.Row := Csv.mkRow "3003" "Dan" 100%float.

(** A property named as the label of the unmatched ledger rows, and a
    booking in it. *)
Definition unmatchedVilla : Matcher.Property := Matcher.mkProperty p2 "Unmatched CSV".
Definition b4004 : Matcher.Booking :=
  Matcher.mkBooking "id6" "Eli" (Some "BDC-4004") (Some unmatchedVilla)
    75%float None "Booking.com".

(** A property named as a key every plain object inherits, and a
    booking in it. *)
Definition constructorHouse : Matcher.Property := Matcher.mkProperty p2 "constructor".
Definition b5005 : Matcher.Booking :=
  Matcher.mkBooking "id7" "Flo" (Some "BDC-5005") (Some constructorHouse)
    60%float None "Booking.com".

(** Stored documents. *)
Definition directCard : Model.IBooking :=
  Model.mkIBooking (Some "Dee") None None None (Some "D-1") None (Some p1) None
    (Some "Direct") (Some "card") (Some (Q2Qc 100)) None (Some 1700000000000%Z)
    (Some 1700000000000%Z) (Some 1700086400000%Z) (Some "booked").

Definition directBankDoc : Model.IBooking :=
  Model.mkIBooking (Some "Eve") None None None (Some "D-2") None (Some p1) None
    (Some "Direct") (Some "bank") (Some (Q2Qc 80)) None (Some 1700000000000%Z)
    (Some 1700000000000%Z) (Some 1700086400000%Z) (Some "booked").

Definition agodaDoc : Model.IBooking :=
  Model.mkIBooking (Some "Fay") None None None (Some "AG-3") None (Some p2) None
    (Some "Agoda") (Some "online") (Some (Q2Qc 60)) (Some (Q2Qc 50)) None
    (Some 1700000000000%Z) (Some 1700086400000%Z) (Some "booked").

Definition records : list Model.IBooking := [directCard; directBankDoc; agodaDoc].

(** A request body for a new Agoda booking, without a reference or a
    status. *)
Definition newAgoda : Model.IBooking :=
  Model.mkIBooking (Some "Gus") None None None None None (Some p2) None
    (Some "Agoda") (Some "online") (Some (Q2Qc 70)) None None
    (Some 1700000000000%Z) (Some 1700086400000%Z) None.

(** The same body without the guest name. *)
Definition newAnonymous : Model.IBooking :=
  Model.mkIBooking None None None None None None (Some p2) None
    (Some "Agoda") (Some "online") (Some (Q2Qc 70)) None None
    (Some 1700000000000%Z) (Some 1700086400000%Z) None.

Definition store : gmap string Model.IBooking :=
  {[ oid1 := directBankDoc; oid2 := agodaDoc ]}.

End Examples.

(** ** Sums, as the specification words them *)

(** The sum of a list of amounts. *)
Definition sumQc (l : list Qc) : Qc := foldr Qcplus 0%Qc l.

(** The sum of [f] over the elements of [l] that satisfy [p]. *)
Definition sumOver {A : Type} (p : A → bool) (f : A → Qc) (l : list A) : Qc :=
  sumQc (map f (List.filter p l)).

(** * More of the sources *)

(** ** The ledger upload ([handleCsvUpload] of the reconciliation page) *)

Module Upload.

(** One object of [res.data]: with [header: true] the parser gives a
    string per header, or nothing where the line is short. *)
Record RawRow : Type := mkRawRow {
  referenceNumber : option string;
  guestName : option string;
  guestsName : option string;
  Net : option string
}.

(** One iteration of [for (const r of res.data)]: [continue] on a
    falsy reference, else [rows.push].  [trim] and [Number] are the
    built-ins [String.prototype.trim] and [Number]; the latter gives
    [NaN] on an absent column and on text that is not a number. *)
Definition step (trim : string → string) (Number : option string → float)
    (rows : list Csv.Row) (r : RawRow) : list Csv.Row :=
  match Js.truthy (referenceNumber r) with
  | None => rows
  | Some reference =>
    rows ++ [Csv.mkRow (trim reference)
               (Js.orString (guestName r) (Js.orString (guestsName r) ""))
               (Number (Net r))]
  end.

(** The [complete] callback: the rows handed to [setCsvRows]. *)
Definition handleCsvUpload (trim : string → string) (Number : option string → float)
    (data : list RawRow) : list Csv.Row :=
  fold_left (step trim Number) data [].

(** The [rows] memo on what the page holds: the loaded bookings and the
    uploaded ledger. *)
Definition pageRows (allBookings : list Matcher.Booking) (csvRows : list Csv.Row)
    : list Matcher.ReconciliationRow :=
  Matcher.rows (Matcher.dbBookingsOf allBookings) csvRows.

End Upload.

(** ** The query of the income summary ([GET] of [src/app/api/income/route.ts]) *)

Module IncomeQuery.

(** The [query] object, beside [status: { $ne: "cancel" }] which every
    query carries: equality on three paths and a closed range on
    [paymentDate]. *)
Record Query : Type := mkQuery {
  propertyId : option string;
  platform : option string;
  paymentMethod : option string;
  paymentDate : option (Z * Z)
}.

(** [x && x.trim() !== ""]: the parameter, when it is given and not
    blank. *)
Definition given (trim : string → string) (x : option string) : option string :=
  match Js.truthy x with
  | Some s => if decide (trim s = "") then None else Some s
  | None => None
  end.

(** The query built from the [propertyId] and [platform] parameters
    and from the window [(start, end)] the date parameters give, if
    any. *)
Definition query (trim : string → string) (propertyIdParam platformParam : option string)
    (window : option (Z * Z)) : Query :=
  let q1 := mkQuery (given trim propertyIdParam) None None None in
  let q2 :=
    match given trim platformParam with
    | Some p =>
      if decide (p = "directBank") then
        mkQuery (propertyId q1) (Some "Direct") (Some "bank") None
      else if decide (p = "directCash") then
        mkQuery (propertyId q1) (Some "Direct") (Some "cash") None
      else mkQuery (propertyId q1) (Some p) None None
    | None => q1
    end in
  mkQuery (propertyId q2) (platform q2) (paymentMethod q2) window.

(** Equality on an optional path of the query. *)
Definition pathIs (wanted : option string) (actual : option string) : bool :=
  match wanted with
  | Some w => bool_decide (actual = Some w)
  | None => true
  end.

(** [{ $gte: start, $lte: end }] on a date path: a document without
    the path is not selected. *)
Definition within (window : option (Z * Z)) (t : option Z) : bool :=
  match window, t with
  | Some (lo, hi), Some t => (lo <=? t)%Z && (t <=? hi)%Z
  | Some _, None => false
  | None, _ => true
  end.

(** Whether [Booking.find(query)] returns the document. *)
Definition selects (q : Query) (d : Model.IBooking) : bool :=
  BookingsApi.active d
  && pathIs (propertyId q) (Model.propertyId d)
  && pathIs (platform q) (Model.platform d)
  && pathIs (paymentMethod q) (Model.paymentMethod d)
  && within (paymentDate q) (Model.paymentDate d).

End IncomeQuery.

(** ** The other booking handlers ([GET] and [DELETE] of
    [src/app/api/bookings/route.ts]) *)

Module BookingsRoute.

(** What [DELETE] answers: the body a handler of the route passes to
    [NextResponse.json], or [{ success: true, message }]. *)
Inductive Answer : Type :=
| Plain (response : BookingsApi.Response)
| Success (message : string).

(** The [DELETE] handler: [permanent] is whether the [permanent]
    search parameter is ["true"], [bookingId] the field of the request
    body.  An identifier that does not cast makes the query raise, which
    the [catch] branch answers with HTTP 500. *)
Definition DELETE (store : gmap string Model.IBooking) (permanent : bool)
    (bookingId : option string) : Answer * gmap string Model.IBooking :=
  match Js.truthy bookingId with
  | None =>
    (Plain (BookingsApi.json (BookingsApi.ErrorBody "bookingId required") 400), store)
  | Some id =>
    if permanent then
      (* Booking.findByIdAndDelete(bookingId) *)
      match store !! id with
      | None =>
        if Js.isObjectId id then
          (Plain (BookingsApi.json (BookingsApi.ErrorBody "Booking not found") 404),
           store)
        else
          (Plain (BookingsApi.json (BookingsApi.ErrorBody "Failed to delete booking") 500),
           store)
      | Some _ => (Success "Booking permanently deleted", delete id store)
      end
    else
      let '(response, store') :=
        BookingsApi.answer
          (BookingsApi.findByIdAndUpdate store id true (BookingsApi.setStatus "cancel"))
          store "Failed to delete booking" in
      (Plain response, store')
  end.

(** [{ $gte: lo, $lte: hi }] on a date path. *)
Definition inDay (lo hi : Z) (t : option Z) : bool :=
  match t with
  | Some t => (lo <=? t)%Z && (t <=? hi)%Z
  | None => false
  end.

(** [{ $lte: hi }] and [{ $gte: lo }] on a date path. *)
Definition atMost (hi : Z) (t : option Z) : bool :=
  match t with Some t => (t <=? hi)%Z | None => false end.
Definition atLeast (lo : Z) (t : option Z) : bool :=
  match t with Some t => (lo <=? t)%Z | None => false end.

(** [if (propertyId) query.propertyId = ...]: the property filter of
    the range and single-date queries. *)
Definition ofProperty (propertyId : option string) (d : Model.IBooking) : bool :=
  match Js.truthy propertyId with
  | Some p => bool_decide (Model.propertyId d = Some p)
  | None => true
  end.

(** The query of [?unassigned=true&date=...], for the day from
    [startOfDay] to [endOfDay]. *)
Definition unassignedQuery (startOfDay endOfDay : Z) (d : Model.IBooking) : bool :=
  bool_decide (Model.roomId d = None)
  && BookingsApi.active d
  && inDay startOfDay endOfDay (Model.checkInDate d).

(** The query of [?start=...&end=...]. *)
Definition rangeQuery (startDate endDate : Z) (propertyId : option string)
    (d : Model.IBooking) : bool :=
  BookingsApi.active d
  && inDay startDate endDate (Model.checkInDate d)
  && ofProperty propertyId d.

(** The query of the single-date branch: the [$or] of its three
    clauses. *)
Definition dateQuery (startOfDay endOfDay : Z) (propertyId : option string)
    (d : Model.IBooking) : bool :=
  BookingsApi.active d
  && (inDay startOfDay endOfDay (Model.checkInDate d)
      || inDay startOfDay endOfDay (Model.checkOutDate d)
      || (atMost endOfDay (Model.checkInDate d)
          && atLeast startOfDay (Model.checkOutDate d)))
  && ofProperty propertyId d.

(** The occupancy query of the by-property route
    ([src/unnamed/part_000]): one overlap clause, on bookings with a
    room. *)
Definition occupancyQuery (startOfDay endOfDay : Z) (d : Model.IBooking) : bool :=
  BookingsApi.active d
  && atMost endOfDay (Model.checkInDate d)
  && atLeast startOfDay (Model.checkOutDate d)
  && negb (bool_decide (Model.roomId d = None)).

(** The [type] tag of the single-date branch.  [setHours0 t] is the
    instant [t] after [setHours(0, 0, 0, 0)]; [selectedDate] is the
    selected day's own midnight. *)
Inductive Tag : Type := checkin | checkout | stay.

Definition typeOf (setHours0 : Z → Z) (selectedDate : Z) (checkInDate checkOutDate : Z)
    : Tag :=
  if decide (setHours0 checkInDate = selectedDate) then checkin
  else if decide (setHours0 checkOutDate = selectedDate) then checkout
  else stay.

End BookingsRoute.

(** ** The income-by-platform pages ([src/app/(dashboard)/incomes/page.tsx]
    and [src/unnamed/part_001]) *)

Module JsMap.

(** [map.set(k, v)] on a [Map] kept as its entries in insertion order:
    a key already present keeps its place and takes the new value. *)
Fixpoint set {V : Type} (m : list (string * V)) (k : string) (v : V)
    : list (string * V) :=
  match m with
  | [] => [(k, v)]
  | (k', v') :: rest =>
    if decide (k' = k) then (k', v) :: rest else (k', v') :: set rest k v
  end.

(** [map.get(k)]. *)
Fixpoint get {V : Type} (m : list (string * V)) (k : string) : option V :=
  match m with
  | [] => None
  | (k', v') :: rest => if decide (k' = k) then Some v' else get rest k
  end.

(** [Array.from(map.values())]. *)
Definition values {V : Type} (m : list (string * V)) : list V := map snd m.

(** [new Map(entries)]. *)
Definition ofEntries {V : Type} (entries : list (string * V)) : list (string * V) :=
  fold_left (λ m kv, set m kv.1 kv.2) entries [].

End JsMap.

Module PlatformPage.

(** [interface Booking] of the page, the fields its logic reads. *)
Record Booking : Type := mkBooking {
  _id : string;
  guestName : string;
  propertyId : option Matcher.Property;
  platform : string;
  paymentMethod : string;
  amount : Qc;
  expectedPayment : option Qc
}.

Definition OTA_PLATFORMS : list string :=
  ["Booking.com"; "Expedia"; "Agoda"; "Airbnb"].

(** The [key]s of [PLATFORMS], in display order. *)
Definition PLATFORMS : list string :=
  ["Direct"; "Booking.com"; "Expedia"; "Agoda"; "Airbnb"].

(** The two loops of the [bookings] memo on the [Map]. *)
Definition addDirect (m : list (string * Booking)) (b : Booking)
    : list (string * Booking) :=
  if decide (platform b = "Direct") then JsMap.set m (_id b) b else m.

Definition addOta (m : list (string * Booking)) (b : Booking)
    : list (string * Booking) :=
  if decide (platform b ∈ OTA_PLATFORMS) then JsMap.set m (_id b) b else m.

(** The [bookings] memo: merge and de-duplication. *)
Definition bookings (directBookings otaBookings : list Booking) : list Booking :=
  JsMap.values (fold_left addOta otaBookings (fold_left addDirect directBookings [])).

(** The [filteredBookings] memo. *)
Definition filteredBookings (bs : list Booking) (selectedProperty : string)
    : list Booking :=
  if decide (selectedProperty = "") then bs
  else List.filter
         (λ b, bool_decide (Matcher.prop_id <$> propertyId b = Some selectedProperty)) bs.

(** One iteration of the [bookingsByPlatform] loop. *)
Definition groupStep (m : gmap string (list Booking)) (b : Booking)
    : gmap string (list Booking) :=
  let m1 := match m !! platform b with
            | Some _ => m
            | None => <[platform b := []]> m
            end in
  alter (λ l, l ++ [b]) (platform b) m1.

(** The [bookingsByPlatform] memo. *)
Definition bookingsByPlatform (bs : list Booking) : gmap string (list Booking) :=
  fold_left groupStep bs ∅.

(** [bookingsByPlatform[p.key] || []]: what a section is given. *)
Definition sectionBookings (bs : list Booking) (key : string) : list Booking :=
  default [] (bookingsByPlatform bs !! key).

(** The reductions of [PlatformSection]. *)
Definition methodTotal (method : string) (bs : list Booking) : Qc :=
  fold_left (λ s b, if decide (paymentMethod b = method) then (s + amount b)%Qc else s)
    bs 0%Qc.

Definition cashTotal (bs : list Booking) : Qc := methodTotal "cash" bs.
Definition bankTotal (bs : list Booking) : Qc := methodTotal "bank" bs.
Definition cardTotal (bs : list Booking) : Qc := methodTotal "card" bs.


(** The value of the [Total] card of a direct section. *)
Definition directTotal (bs : list Booking) : Qc :=
  (cashTotal bs + bankTotal bs + cardTotal bs)%Qc.

End PlatformPage.

(** ** The bulk import page ([BulkBookingCSVPage], in
    [src/app/api/bookingsfordaterange/route.ts]) *)

Module BulkImport.

(** The [status] of an imported row. *)
Inductive RowStatus : Type := pending | saved | error | existing.

#[global] Instance RowStatus_eq_dec : EqDecision RowStatus.
Proof. solve_decision. Defined.

(** [interface ImportedBooking]; [existing] is the status ["exists"].
    A date is an instant, or nothing for an invalid [Date]. *)
Record ImportedBooking : Type := mkImportedBooking {
  rowId : string;
  reservationId : string;
  guestName : string;
  checkInDate : option Z;
  checkOutDate : option Z;
  unitType : string;
  platform : string;
  propertyId : string;
  paymentMethod : string;
  expectedPayment : Qc;
  status : RowStatus;
  errorMessage : option string;
  existingBookingId : option string
}.

(** [interface Booking] of the page: a loaded booking. *)
Record Booking : Type := mkBooking {
  _id : string;
  bookingReservationId : option string
}.

(** [String(x)] on an optional string. *)
Definition String_ (x : option string) : string :=
  match x with Some s => s | None => "undefined" end.

(** [{ ...r, propertyId: p }]. *)
Definition withProperty (r : ImportedBooking) (p : string) : ImportedBooking :=
  mkImportedBooking (rowId r) (reservationId r) (guestName r) (checkInDate r)
    (checkOutDate r) (unitType r) (platform r) p (paymentMethod r)
    (expectedPayment r) (status r) (errorMessage r) (existingBookingId r).

(** [{ ...r, status: "exists", existingBookingId: id }]. *)
Definition markExisting (r : ImportedBooking) (id : string) : ImportedBooking :=
  mkImportedBooking (rowId r) (reservationId r) (guestName r) (checkInDate r)
    (checkOutDate r) (unitType r) (platform r) (propertyId r) (paymentMethod r)
    (expectedPayment r) existing (errorMessage r) (Some id).

(** [applyPropertyToAll], on the rows held. *)
Definition applyPropertyToAll (bulkProperty : string) (rows : list ImportedBooking)
    : list ImportedBooking :=
  if decide (bulkProperty = "") then rows
  else map (λ r, if decide (status r = pending) then withProperty r bulkProperty else r)
         rows.

(** [checkExistingRecords], on the loaded bookings and the rows held. *)
Definition checkExistingRecords (trim : string → string) (bookings : list Booking)
    (rows : list ImportedBooking) : list ImportedBooking :=
  let m := JsMap.ofEntries
             (map (λ b, (trim (String_ (bookingReservationId b)), b)) bookings) in
  map (λ r, match JsMap.get m (reservationId r) with
            | None => r
            | Some found => markExisting r (_id found)
            end) rows.

(** The request body [saveBooking] posts for a row. *)
Definition saveBody (row : ImportedBooking) : Model.IBooking :=
  Model.mkIBooking (Some (guestName row)) None None None (Some (reservationId row))
    (Some (unitType row)) (Some (propertyId row)) None (Some (platform row))
    (Some (paymentMethod row)) (Some 0%Qc) (Some (expectedPayment row)) None
    (checkInDate row) (checkOutDate row) (Some "booked").

End BulkImport.

(** ** More sample data *)

Module Samples.

Definition cancelled : Model.IBooking :=
  Model.mkIBooking (Some "Hal") None None None (Some "D-9") None (Some Examples.p1) None
    (Some "Direct") (Some "cash") (Some (Q2Qc 40)) None (Some 1700000000000%Z)
    (Some 1700000000000%Z) (Some 1700086400000%Z) (Some "cancel").

(** A day, from its first to its last millisecond. *)
Definition startOfDay : Z := 1700000000000.
Definition endOfDay : Z := 1700086399999.

Definition rawRows : list Upload.RawRow :=
  [Upload.mkRawRow (Some "1001") (Some "Ann") None (Some "150");
   Upload.mkRawRow None (Some "Nobody") None (Some "5");
   Upload.mkRawRow (Some " ") None (Some "Zed") (Some "10")].

(** A stand-in for [trim] that knows one blank string. *)
Definition trimBlank (s : string) : string :=
  if decide (s = " ") then "" else s.

Definition cashBooking : PlatformPage.Booking :=
  PlatformPage.mkBooking "d1" "Ann" (Some Examples.beachHouse) "Direct" "cash"
    (Q2Qc 30) None.
Definition onlineBooking : PlatformPage.Booking :=
  PlatformPage.mkBooking "d2" "Bob" (Some Examples.beachHouse) "Direct" "online"
    (Q2Qc 50) None.
Definition otaBooking : PlatformPage.Booking :=
  PlatformPage.mkBooking "o1" "Cy" (Some Examples.cityLoft) "Agoda" "online"
    (Q2Qc 0) (Some (Q2Qc 70)).

Definition importedRow : BulkImport.ImportedBooking :=
  BulkImport.mkImportedBooking "row-1" "V-77" "Ida" (Some 1700000000000%Z)
    (Some 1700086400000%Z) "Deluxe" "Booking.com" Examples.p1 "online" (Q2Qc 120)
    BulkImport.pending None None.

End Samples.

(** ** The upload, read off its loop *)

(** The line has a reference number: [!r["Reference number"]] fails. *)
Definition referenced (r : Upload.RawRow) : bool :=
  bool_decide (is_Some (Js.truthy (Upload.referenceNumber r))).

(** The row pushed for a line with the reference [reference]. *)
Definition uploadedRow (trim : string → string) (Number : option string → float)
    (r : Upload.RawRow) (reference : string) : Csv.Row :=
  Csv.mkRow (trim reference)
    (Js.orString (Upload.guestName r) (Js.orString (Upload.guestsName r) ""))
    (Number (Upload.Net r)).

(** ** The platform parameter of a bucket *)

(** The value of the [platform] parameter under which the income
    summary selects the records of a bucket. *)
Definition platformParamOf (k : Income.Bucket) : string :=
  match k with
  | Income.Booking => "Booking.com"
  | Income.Agoda => "Agoda"
  | Income.Airbnb => "Airbnb"
  | Income.Expedia => "Expedia"
  | Income.DirectBank => "directBank"
  | Income.DirectCash => "directCash"
  end.

(** ** The checkout-range routes *)

(** The query of [src/app/api/by-checkout-range/route.ts] and of [GET]
    in [src/app/api/bookingsfordaterange/route.ts]. *)
Definition checkoutRangeQuery (startDate endDate : Z) (d : Model.IBooking) : bool :=
  BookingsApi.active d && BookingsRoute.inDay startDate endDate (Model.checkOutDate d).

(** ** The booking handlers, read off their branches *)

(** What [PATCH] makes of the document it names: the update of the
    action, and the document as it is under an action it does not know
    or with a room that does not cast. *)
Definition patched (action : string) (roomId : option string) (d : Model.IBooking)
    : Model.IBooking :=
  if decide (action = "assign") then
    if Js.castObjectId roomId then BookingsApi.setRoom roomId d else d
  else if decide (action = "checkin") then BookingsApi.setStatus "checked_in" d
  else if decide (action = "checkout") then BookingsApi.setStatus "checked_out" d
  else d.

(** The record [d] with the room [r] and the status [s]. *)
Definition withRoomAndStatus (d : Model.IBooking) (r s : option string)
    : Model.IBooking :=
  Model.mkIBooking (Model.guestName d) (Model.email d) (Model.phone d)
    (Model.idNumber d) (Model.reservationId d) (Model.unitType d)
    (Model.propertyId d) r (Model.platform d) (Model.paymentMethod d)
    (Model.amount d) (Model.expectedPayment d) (Model.paymentDate d)
    (Model.checkInDate d) (Model.checkOutDate d) s.

(** No two stored bookings carry the same reservation identifier: what
    the unique index of the schema stands for. *)
Definition uniqueReferences (store : gmap string Model.IBooking) : Prop :=
  ∀ id1 id2 d1 d2,
    store !! id1 = Some d1 → store !! id2 = Some d2 →
    Model.reservationId d1 = Model.reservationId d2 → id1 = id2.

(** ** A sample day *)

Module Utc.

(** [setHours(0, 0, 0, 0)] in a time zone without offset. *)
Definition setHours0 (t : Z) : Z := (t / 86400000 * 86400000)%Z.

(** 14 November 2023, from its first to its last millisecond. *)
Definition startOfDay : Z := 1699920000000.
Definition endOfDay : Z := 1700006399999.

End Utc.

(** ** The merge of the income-by-platform page, read off its loops *)

(** The entries of the [Map] are keyed by the identifier of their
    booking. *)
Definition keyed (m : list (string * PlatformPage.Booking)) : Prop :=
  ∀ k b, (k, b) ∈ m → k = PlatformPage._id b.

(** One iteration of a loop that sets the bookings satisfying [p]. *)
Definition setWhen (p : PlatformPage.Booking → bool)
    (m : list (string * PlatformPage.Booking)) (b : PlatformPage.Booking)
    : list (string * PlatformPage.Booking) :=
  if p b then JsMap.set m (PlatformPage._id b) b else m.


(** ** The bulk import, read off its code *)

(** The key [checkExistingRecords] files a loaded booking under. *)
Definition importKey (trim : string → string) (b : BulkImport.Booking) : string :=
  trim (BulkImport.String_ (BulkImport.bookingReservationId b)).

(** The last of the loaded bookings filed under [rid], if any. *)
Definition lastMatch (trim : string → string) (bookings : list BulkImport.Booking)
    (rid : string) : option BulkImport.Booking :=
  last (List.filter (λ b, bool_decide (importKey trim b = rid)) bookings).

(** An imported row that is not pending. *)
Definition settled (r : BulkImport.ImportedBooking) : bool :=
  negb (bool_decide (BulkImport.status r = BulkImport.pending)).

(** ** Proof automation *)

(** Unfolds membership in explicit lists. *)
Ltac list_members := set_unfold.

(** Unfolds the platform and payment-method tests of the income
    reduction and settles the resulting cases. *)
Ltac platform_cases :=
  unfold Income.inBucket, Income.directOther, Income.platformIs,
    Income.methodIs in *;
  repeat case_bool_decide; simplify_eq; simpl;
  rewrite ?Qcplus_0_r, ?Qcplus_0_l; try done.

(** * Properties *)

(** ** Strings and sets *)

Section JsFacts.

Lemma append_cons (c : Ascii.ascii) (t post : string) :
  String c t +:+ post = String c (t +:+ post).
Proof. reflexivity. Qed.

Lemma append_nil (post : string) : "" +:+ post = post.
Proof. reflexivity. Qed.

Lemma startsWith_spec (s t : string) :
  Js.startsWith s t = true ↔ ∃ post, s = t +:+ post.
Proof.
  revert s. induction t as [|c t IH]; intros s; simpl.
  - split; [intros _; by exists s | done].
  - destruct s as [|d s].
    + split; [done | intros [post Hp]; by rewrite append_cons in Hp].
    + destruct (Ascii.eqb_spec c d) as [->|Hne].
      * rewrite IH. split; intros [post Hp]; exists post;
          rewrite append_cons in *; congruence.
      * split; [done | intros [post Hp]; rewrite append_cons in Hp; congruence].
Qed.

Lemma includes_spec (s t : string) :
  Js.includes s t = true ↔ ∃ pre post, s = pre +:+ t +:+ post.
Proof.
  induction s as [|d s IH]; simpl.
  - destruct (Js.startsWith "" t) eqn:Hs.
    + apply startsWith_spec in Hs as [post Hp].
      split; [intros _; by exists "", post | done].
    + split; [done |]. intros ([|c pre] & post & Hp);
        [|by rewrite append_cons in Hp].
      rewrite append_nil in Hp.
      assert (Js.startsWith "" t = true) as Ht
        by (apply startsWith_spec; eauto). congruence.
  - destruct (Js.startsWith (String d s) t) eqn:Hs.
    + apply startsWith_spec in Hs as [post Hp].
      split; [intros _; by exists "", post | done].
    + rewrite IH. split.
      * intros (pre & post & ->). by exists (String d pre), post.
      * intros ([|c pre] & post & Hp).
        -- rewrite append_nil in Hp.
           assert (Js.startsWith (String d s) t = true) as Ht
             by (apply startsWith_spec; eauto). congruence.
        -- rewrite append_cons in Hp. exists pre, post. congruence.
Qed.

Lemma includes_empty (s : string) : Js.includes s "" = true.
Proof. apply includes_spec. by exists "", s. Qed.



Lemma Set_add_elem (s : list string) (x y : string) :
  y ∈ Js.Set_add s x ↔ y ∈ s ∨ y = x.
Proof.
  unfold Js.Set_add. case_decide; list_members; [|tauto].
  split; [tauto | intros [?| ->]; done].
Qed.

Lemma Set_add_NoDup (s : list string) (x : string) :
  NoDup s → NoDup (Js.Set_add s x).
Proof.
  intros Hs. unfold Js.Set_add. case_decide; [done|].
  apply NoDup_app. split_and!; [done | | apply NoDup_singleton].
  intros y Hy. list_members. by intros [-> | []].
Qed.

Lemma fold_Set_add_elem (l s : list string) (y : string) :
  y ∈ fold_left Js.Set_add l s ↔ y ∈ s ∨ y ∈ l.
Proof.
  revert s. induction l as [|x l IH]; intros s; simpl.
  - list_members. tauto.
  - rewrite IH, Set_add_elem. list_members. tauto.
Qed.

Lemma fold_Set_add_NoDup (l s : list string) :
  NoDup s → NoDup (fold_left Js.Set_add l s).
Proof.
  revert s. induction l as [|x l IH]; intros s Hs; simpl; [done|].
  by apply IH, Set_add_NoDup.
Qed.

Lemma new_Set_elem (l : list string) (y : string) : y ∈ Js.new_Set l ↔ y ∈ l.
Proof. unfold Js.new_Set. rewrite fold_Set_add_elem. list_members. tauto. Qed.

Lemma new_Set_NoDup (l : list string) : NoDup (Js.new_Set l).
Proof. apply fold_Set_add_NoDup, NoDup_nil_2. Qed.

(** A set has more than one element exactly when the list it was built
    from holds two different values. *)
Lemma new_Set_size_gt1 (l : list string) :
  (1 < length (Js.new_Set l))%nat ↔ ∃ x y, x ∈ l ∧ y ∈ l ∧ x ≠ y.
Proof.
  pose proof (new_Set_NoDup l) as Hnd.
  split.
  - destruct (Js.new_Set l) as [|x [|y s]] eqn:Hs; simpl; [lia | lia |].
    intros _. exists x, y.
    rewrite <-(new_Set_elem l x), <-(new_Set_elem l y), Hs.
    apply NoDup_cons in Hnd as [Hx _]. list_members.
    split_and!; [tauto | tauto | intros ->; tauto].
  - intros (x & y & Hx & Hy & Hne).
    apply new_Set_elem in Hx, Hy.
    destruct (Js.new_Set l) as [|a [|b s]]; simpl; [| | lia];
      list_members; [tauto|].
    destruct Hx as [->|[]], Hy as [->|[]]. done.
Qed.

End JsFacts.

(** ** Sums *)

Section SumFacts.

Lemma sumQc_app (l1 l2 : list Qc) :
  sumQc (l1 ++ l2) = (sumQc l1 + sumQc l2)%Qc.
Proof.
  induction l1 as [|x l1 IH]; simpl.
  - by rewrite Qcplus_0_l.
  - rewrite IH. by rewrite Qcplus_assoc.
Qed.


Lemma sumOver_cons {A : Type} (p : A → bool) (f : A → Qc) (x : A) (l : list A) :
  sumOver p f (x :: l) = ((if p x then f x else 0) + sumOver p f l)%Qc.
Proof.
  unfold sumOver. simpl. destruct (p x); simpl; [done|].
  by rewrite Qcplus_0_l.
Qed.

End SumFacts.

(** ** Doubles *)

Section FloatFacts.


(** A left-to-right accumulation is the sum added up from its start
    value. *)
Lemma fold_left_sumFrom {A : Type} (f : A → float) (l : list A) (a : float) :
  fold_left (λ s x, s + f x)%float l a = Js.sumFrom a (map f l).
Proof.
  revert a. induction l as [|x l IH]; intros a; [reflexivity|]. apply IH.
Qed.

(** A difference with [NaN] is [NaN], and no comparison with [NaN]
    holds. *)
Lemma sub_nan_r (a : float) : PrimFloat.sub a PrimFloat.nan = PrimFloat.nan.
Proof.
  apply Prim2SF_inj. rewrite FloatAxioms.sub_spec.
  change (Prim2SF PrimFloat.nan) with S754_nan.
  unfold SF64sub, SFsub. destruct (Prim2SF a) as [[]|[]| |[] ? ?]; reflexivity.
Qed.

Lemma differs_nan_r (a : float) : Js.differs a PrimFloat.nan = false.
Proof. unfold Js.differs. rewrite sub_nan_r. reflexivity. Qed.

Lemma numberOrZero_nan : Js.numberOrZero (Some PrimFloat.nan) = 0%float.
Proof. reflexivity. Qed.

End FloatFacts.

(** ** The matcher *)

Section MatcherFacts.

Import Matcher.

Implicit Types (dbBookings matched : list Booking) (csvRows : list Csv.Row).
Implicit Types (b : Booking) (csv : Csv.Row) (usedDbIds : gset string).

Lemma elem_of_List_filter {A : Type} (p : A → bool) (l : list A) (x : A) :
  x ∈ List.filter p l ↔ x ∈ l ∧ p x = true.
Proof. rewrite !list_elem_of_In. apply filter_In. Qed.

Lemma elem_of_matchedOf dbBookings csv b :
  b ∈ matchedOf dbBookings csv ↔ b ∈ dbBookings ∧ matches csv b = true.
Proof. apply elem_of_List_filter. Qed.

Lemma markUsed_elem usedDbIds matched (x : string) :
  x ∈ markUsed usedDbIds matched ↔ x ∈ usedDbIds ∨ ∃ b, b ∈ matched ∧ _id b = x.
Proof.
  unfold markUsed. revert usedDbIds.
  induction matched as [|b matched IH]; intros usedDbIds; simpl.
  - split; [by left | intros [?|(b & Hb & _)]; [done | by apply elem_of_nil in Hb]].
  - rewrite IH, elem_of_union, elem_of_singleton. split.
    + intros [[->|?]|(b' & Hb' & <-)].
      * right. exists b. split; [left | done].
      * by left.
      * right. exists b'. split; [by right | done].
    + intros [?|(b' & Hb' & <-)]; [by left; right|].
      apply elem_of_cons in Hb' as [->|Hb']; [by left; left|].
      right. by exists b'.
Qed.

(** One iteration pushes the row of its ledger row and marks the
    bookings it matched. *)
Lemma csvStep_eq dbBookings (st : list ReconciliationRow * gset string) csv :
  csvStep dbBookings st csv
  = (st.1 ++ [csvRowResult dbBookings csv],
     markUsed st.2 (matchedOf dbBookings csv)).
Proof.
  unfold csvStep, csvRowResult.
  destruct (matchedOf dbBookings csv); reflexivity.
Qed.

(** The first loop pushes one row per ledger row, in order, and
    collects the identifiers of every matched booking. *)
Lemma csvStep_fold dbBookings csvRows (output : list ReconciliationRow) usedDbIds :
  fold_left (csvStep dbBookings) csvRows (output, usedDbIds)
  = (output ++ map (csvRowResult dbBookings) csvRows,
     fold_left markUsed (map (matchedOf dbBookings) csvRows) usedDbIds).
Proof.
  revert output usedDbIds.
  induction csvRows as [|csv csvRows IH]; intros output usedDbIds; simpl.
  - by rewrite app_nil_r.
  - rewrite csvStep_eq, IH, <-app_assoc. reflexivity.
Qed.

Lemma fold_markUsed_elem dbBookings csvRows usedDbIds (x : string) :
  x ∈ fold_left markUsed (map (matchedOf dbBookings) csvRows) usedDbIds
  ↔ x ∈ usedDbIds
    ∨ ∃ csv b, csv ∈ csvRows ∧ b ∈ dbBookings ∧ matches csv b = true ∧ _id b = x.
Proof.
  revert usedDbIds.
  induction csvRows as [|csv csvRows IH]; intros usedDbIds; simpl.
  - split; [by left | intros [?|(c & b & Hc & _)]; [done | by apply elem_of_nil in Hc]].
  - rewrite IH, markUsed_elem. split.
    + intros [[?|(b & Hb & <-)]|(c & b & Hc & Hb & Hm & <-)].
      * by left.
      * apply elem_of_matchedOf in Hb as [Hb Hm].
        right. exists csv, b. split_and!; [left | done..].
      * right. exists c, b. split_and!; [by right | done..].
    + intros [?|(c & b & Hc & Hb & Hm & <-)]; [by left; left|].
      apply elem_of_cons in Hc as [->|Hc].
      * left. right. exists b. split; [|done]. by apply elem_of_matchedOf.
      * right. by exists c, b.
Qed.

(** [usedDbIds] holds exactly the identifiers of the matched bookings. *)
Lemma usedDbIdsOf_elem dbBookings csvRows (x : string) :
  x ∈ usedDbIdsOf dbBookings csvRows
  ↔ ∃ csv b, csv ∈ csvRows ∧ b ∈ dbBookings ∧ matches csv b = true ∧ _id b = x.
Proof.
  unfold usedDbIdsOf. rewrite csvStep_fold. simpl.
  rewrite fold_markUsed_elem. split; [|by right].
  intros [H|H]; [by apply not_elem_of_empty in H | done].
Qed.

(** The second loop pushes one row per stored booking whose identifier
    is not in [usedDbIds]. *)
Lemma dbStep_fold usedDbIds dbBookings (output : list ReconciliationRow) :
  fold_left (dbStep usedDbIds) dbBookings output
  = output ++ map missingInCsvRow
      (List.filter (λ b, bool_decide (_id b ∉ usedDbIds)) dbBookings).
Proof.
  revert output. induction dbBookings as [|b dbBookings IH]; intros output; simpl.
  - by rewrite app_nil_r.
  - rewrite IH. unfold dbStep. case_decide as Hin.
    + by rewrite bool_decide_eq_false_2 by (by intros ?).
    + rewrite bool_decide_eq_true_2 by done. by rewrite <-app_assoc.
Qed.

Lemma rows_unfold dbBookings csvRows :
  rows dbBookings csvRows
  = map (csvRowResult dbBookings) csvRows
    ++ map missingInCsvRow
         (List.filter (λ b, bool_decide (_id b ∉ usedDbIdsOf dbBookings csvRows))
            dbBookings).
Proof.
  unfold rows, usedDbIdsOf. rewrite dbStep_fold, csvStep_fold. reflexivity.
Qed.

Lemma matchedBySome_spec csvRows b :
  matchedBySome csvRows b = true ↔ ∃ csv, csv ∈ csvRows ∧ matches csv b = true.
Proof.
  unfold matchedBySome. rewrite existsb_exists.
  by setoid_rewrite list_elem_of_In.
Qed.

(** Identifiers tell stored bookings apart. *)
Lemma NoDup_ids_inj dbBookings b1 b2 :
  NoDup (map _id dbBookings) → b1 ∈ dbBookings → b2 ∈ dbBookings →
  _id b1 = _id b2 → b1 = b2.
Proof.
  induction dbBookings as [|b l IH]; simpl; intros Hnd H1 H2 Heq.
  - by apply elem_of_nil in H1.
  - apply NoDup_cons in Hnd as [Hb Hnd].
    assert (∀ x, x ∈ l → _id x ∈ map _id l) as Hmap.
    { intros x Hx. apply list_elem_of_In, in_map, list_elem_of_In, Hx. }
    apply elem_of_cons in H1 as [->|H1], H2 as [->|H2]; [done | | | by apply IH].
    + exfalso. apply Hb. rewrite Heq. by apply Hmap.
    + exfalso. apply Hb. rewrite <-Heq. by apply Hmap.
Qed.

(** With distinct identifiers, a booking's identifier is unused
    exactly when no ledger row matches the booking. *)
Lemma unused_filter dbBookings csvRows :
  NoDup (map _id dbBookings) →
  List.filter (λ b, bool_decide (_id b ∉ usedDbIdsOf dbBookings csvRows)) dbBookings
  = unmatched dbBookings csvRows.
Proof.
  intros Hnd. unfold unmatched. apply List.filter_ext_in.
  intros b Hb%list_elem_of_In.
  destruct (matchedBySome csvRows b) eqn:Hm; simpl.
  - apply bool_decide_eq_false_2. intros Hn. apply Hn.
    apply matchedBySome_spec in Hm as (csv & Hc & Hm).
    apply usedDbIdsOf_elem. by exists csv, b.
  - apply bool_decide_eq_true_2. intros (csv & b' & Hc & Hb' & Hm' & Hid)%usedDbIdsOf_elem.
    assert (b' = b) as -> by by eapply NoDup_ids_inj.
    assert (matchedBySome csvRows b = true) as Ht
      by (apply matchedBySome_spec; by exists csv).
    congruence.
Qed.

(** Keeping the Booking.com bookings keeps identifiers distinct. *)
Lemma dbBookingsOf_NoDup (allBookings : list Booking) :
  NoDup (map _id allBookings) → NoDup (map _id (dbBookingsOf allBookings)).
Proof.
  unfold dbBookingsOf. induction allBookings as [|b l IH]; simpl; [done|].
  intros [Hb Hnd]%NoDup_cons. case_bool_decide; simpl; [|by apply IH].
  apply NoDup_cons. split; [|by apply IH].
  intros Hin. apply Hb.
  apply list_elem_of_In, in_map_iff in Hin as (x & Hx & Hin).
  apply filter_In in Hin as [Hin _].
  rewrite <-Hx. by apply list_elem_of_In, in_map.
Qed.

End MatcherFacts.

(** ** The matching predicate *)

(** C4: a ledger row matches a stored booking exactly when the booking
    has a reservation reference and that reference contains the ledger
    reference as a substring; so an empty ledger reference matches every
    booking that has a reservation reference, a booking without one is
    matched by nothing, and the bookings the matcher pairs with a ledger
    row are the stored bookings it matches. *)
Theorem matches_iff_reference_contained :
  ∀ (csv : Csv.Row) (b : Matcher.Booking),
    (Matcher.matches csv b = true
     ↔ ∃ rid, Matcher.reservationId b = Some rid
              ∧ ∃ pre post, rid = pre +:+ Csv.reference csv +:+ post)
    ∧ (Csv.reference csv = "" →
       ∀ rid, Matcher.reservationId b = Some rid → Matcher.matches csv b = true)
    ∧ (Matcher.reservationId b = None → Matcher.matches csv b = false)
    ∧ (∀ dbBookings : list Matcher.Booking,
         b ∈ Matcher.matchedOf dbBookings csv
         ↔ b ∈ dbBookings ∧ Matcher.matches csv b = true).
Proof.
  intros csv b. unfold Matcher.matches. split_and!.
  - destruct (Matcher.reservationId b) as [rid|].
    + rewrite includes_spec. split.
      * intros Hin. by exists rid.
      * intros (rid' & [= <-] & Hin). done.
    + split; [done | by intros (rid & ? & _)].
  - intros Hempty rid ->. rewrite Hempty. apply includes_empty.
  - by intros ->.
  - intros dbBookings. apply elem_of_matchedOf.
Qed.

Lemma matches_iff_reference_contained_witness :
  Csv.reference (Csv.mkRow "" "Ann" 150%float) = ""
  ∧ Matcher.matches (Csv.mkRow "" "Ann" 150%float) Examples.b1001 = true.
Proof.
  split; [reflexivity|].
  apply (matches_iff_reference_contained (Csv.mkRow "" "Ann" 150%float) Examples.b1001)
    with (rid := "BDC-1001-A"); reflexivity.
Defined.

(** ** The shape of the matcher's output *)

(** C1: the output is one row per ledger row, in ledger order, followed
    by one row per stored booking matched by no ledger row; its length
    is the number of ledger rows plus the number of unmatched stored
    bookings.  Stored bookings are told apart by their identifier. *)
Theorem rows_one_per_ledger_row_and_unmatched_booking :
  ∀ (dbBookings : list Matcher.Booking) (csvRows : list Csv.Row),
    NoDup (map Matcher._id dbBookings) →
    Matcher.rows dbBookings csvRows
    = map (Matcher.csvRowResult dbBookings) csvRows
      ++ map Matcher.missingInCsvRow (unmatched dbBookings csvRows)
    ∧ length (Matcher.rows dbBookings csvRows)
      = (length csvRows + length (unmatched dbBookings csvRows))%nat.
Proof.
  intros dbBookings csvRows Hnd.
  assert (Matcher.rows dbBookings csvRows
          = map (Matcher.csvRowResult dbBookings) csvRows
            ++ map Matcher.missingInCsvRow (unmatched dbBookings csvRows)) as Heq
    by (by rewrite rows_unfold, unused_filter).
  split; [done|].
  by rewrite Heq, length_app, !length_map.
Qed.

Lemma rows_one_per_ledger_row_and_unmatched_booking_witness :
  NoDup (map Matcher._id Examples.dbBookings)
  ∧ length (Matcher.rows Examples.dbBookings Examples.csvRows) = 3%nat.
Proof.
  assert (NoDup (map Matcher._id Examples.dbBookings)) as Hnd.
  { apply (bool_decide_unpack _). vm_compute. exact I. }
  split; [exact Hnd|].
  destruct (rows_one_per_ledger_row_and_unmatched_booking
              Examples.dbBookings Examples.csvRows Hnd) as [_ ->].
  vm_compute. reflexivity.
Defined.

(** ** Calls that return *)

Section OutcomeFacts.

Context {A B : Type}.

Lemma filterM_Returns (p : A → Js.Outcome bool) (q : A → bool) (l : list A) :
  (∀ x, p x = Js.Returns (q x)) → Js.filterM p l = Js.Returns (List.filter q l).
Proof.
  intros Hp. induction l as [|x l IH]; [reflexivity|].
  cbn [Js.filterM List.filter]. rewrite Hp, IH. simpl. by destruct (q x).
Qed.

Lemma mapM_Returns (f : A → Js.Outcome B) (g : A → B) (l : list A) :
  (∀ x, f x = Js.Returns (g x)) → Js.mapM f l = Js.Returns (map g l).
Proof.
  intros Hf. induction l as [|x l IH]; [reflexivity|].
  cbn [Js.mapM map]. by rewrite Hf, IH.
Qed.

Lemma foldM_Returns (f : A → B → Js.Outcome A) (g : A → B → A) (l : list B) (a : A) :
  (∀ acc x, f acc x = Js.Returns (g acc x)) →
  Js.foldM f l a = Js.Returns (fold_left g l a).
Proof.
  intros Hf. revert a. induction l as [|x l IH]; intros a; [reflexivity|].
  cbn [Js.foldM fold_left]. rewrite Hf. simpl. apply IH.
Qed.

End OutcomeFacts.

Section MatcherReturns.

Import Matcher.

Lemma matchesJs_Returns (csv : Csv.Row) (b : Booking) :
  matchesJs csv b = Js.Returns (matches csv b).
Proof. unfold matchesJs, matches. by destruct (reservationId b). Qed.

Lemma propertyLabelJs_Returns (b : Booking) :
  propertyLabelJs b = Js.Returns (propertyLabel b).
Proof. reflexivity. Qed.

Lemma csvStepJs_Returns (dbBookings : list Booking)
    (st : list ReconciliationRow * gset string) (csv : Csv.Row) :
  csvStepJs dbBookings st csv = Js.Returns (csvStep dbBookings st csv).
Proof.
  unfold csvStepJs, csvStep, matchedOf.
  rewrite (filterM_Returns _ (matches csv)) by apply matchesJs_Returns.
  cbn [Js.bind]. destruct (List.filter (matches csv) dbBookings) as [|b l]; [done|].
  rewrite (mapM_Returns _ propertyLabel) by apply propertyLabelJs_Returns.
  reflexivity.
Qed.

Lemma dbStepJs_Returns (usedDbIds : gset string) (output : list ReconciliationRow)
    (b : Booking) :
  dbStepJs usedDbIds output b = Js.Returns (dbStep usedDbIds output b).
Proof. unfold dbStepJs, dbStep. by case_decide. Qed.

(** No access of the matcher raises. *)
Lemma rowsJs_Returns (dbBookings : list Booking) (csvRows : list Csv.Row) :
  rowsJs dbBookings csvRows = Js.Returns (rows dbBookings csvRows).
Proof.
  unfold rowsJs, rows.
  rewrite (foldM_Returns _ (csvStep dbBookings)) by apply csvStepJs_Returns.
  cbn [Js.bind]. apply foldM_Returns, dbStepJs_Returns.
Qed.

End MatcherReturns.

(** C6: the matcher never raises: run with every access that could
    raise spelt out, it returns, for every pair of inputs, the list
    [rows] computes.  That list holds the row of every ledger row and
    the row of every stored booking whose identifier no matched booking
    carries; every row of it is the row of a ledger row or of a stored
    booking, and its status is one of the six values of the vocabulary,
    none of which is an error. *)
Theorem rows_total_and_classified :
  ∀ (dbBookings : list Matcher.Booking) (csvRows : list Csv.Row),
    Matcher.rowsJs dbBookings csvRows
    = Js.Returns (Matcher.rows dbBookings csvRows)
    ∧ (∀ csv, csv ∈ csvRows →
              Matcher.csvRowResult dbBookings csv ∈ Matcher.rows dbBookings csvRows)
    ∧ (∀ b, b ∈ dbBookings →
            (∀ csv b', csv ∈ csvRows → b' ∈ dbBookings →
                       Matcher.matches csv b' = true →
                       Matcher._id b' ≠ Matcher._id b) →
            Matcher.missingInCsvRow b ∈ Matcher.rows dbBookings csvRows)
    ∧ ∀ r, r ∈ Matcher.rows dbBookings csvRows →
        Matcher.status r ∈ Matcher.vocabulary
        ∧ Matcher.status_tag (Matcher.status r)
          ∈ ["OK"; "MISSING_IN_DB"; "MISSING_IN_CSV"; "AMOUNT_MISMATCH";
             "DUPLICATE_DB_REFERENCE"; "MULTI_PROPERTY_REFERENCE"]
        ∧ ((∃ csv, csv ∈ csvRows ∧ r = Matcher.csvRowResult dbBookings csv)
           ∨ (∃ b, b ∈ dbBookings ∧ r = Matcher.missingInCsvRow b)).
Proof.
  intros dbBookings csvRows. split_and!.
  - apply rowsJs_Returns.
  - intros csv Hc. rewrite rows_unfold. apply elem_of_app. left.
    by apply list_elem_of_In, in_map, list_elem_of_In.
  - intros b Hb Hfree. rewrite rows_unfold. apply elem_of_app. right.
    apply list_elem_of_In, in_map, list_elem_of_In, elem_of_List_filter.
    split; [done|]. apply bool_decide_eq_true_2.
    intros (csv & b' & Hc & Hb' & Hm & Hid)%usedDbIdsOf_elem.
    by eapply Hfree.
  - intros r Hr. split_and!.
    + unfold Matcher.vocabulary. destruct (Matcher.status r);
        repeat first [apply list_elem_of_here | apply list_elem_of_further].
    + destruct (Matcher.status r); simpl;
        repeat first [apply list_elem_of_here | apply list_elem_of_further].
    + rewrite rows_unfold in Hr. apply elem_of_app in Hr as [Hr|Hr];
        apply list_elem_of_In, in_map_iff in Hr as (x & <- & Hx);
        apply list_elem_of_In in Hx.
      * left. by exists x.
      * right. apply elem_of_List_filter in Hx as [Hx _]. by exists x.
Qed.

(** ** Classification *)

Section ClassificationFacts.

Import Matcher.

Implicit Types (dbBookings matched : list Booking) (csvRows : list Csv.Row).
Implicit Types (b : Booking) (csv : Csv.Row).

Lemma lookup_map {A B : Type} (f : A → B) (l : list A) (i : nat) :
  map f l !! i = f <$> l !! i.
Proof.
  revert i. induction l as [|x l IH]; intros [|i]; simpl; done.
Qed.

(** The row at the position of a ledger row is that ledger row's. *)
Lemma rows_lookup_csv dbBookings csvRows (i : nat) csv :
  csvRows !! i = Some csv →
  rows dbBookings csvRows !! i = Some (csvRowResult dbBookings csv).
Proof.
  intros Hi. rewrite rows_unfold. apply lookup_app_l_Some.
  by rewrite lookup_map, Hi.
Qed.

Lemma status_no_match dbBookings csv :
  matchedOf dbBookings csv = [] →
  status (csvRowResult dbBookings csv) = MISSING_IN_DB.
Proof. unfold csvRowResult. by intros ->. Qed.

Lemma csvRowResult_matched dbBookings csv :
  matchedOf dbBookings csv ≠ [] →
  csvRowResult dbBookings csv = matchedRow csv (matchedOf dbBookings csv).
Proof. unfold csvRowResult. by destruct (matchedOf dbBookings csv). Qed.

Lemma new_Set_length (l : list string) :
  length (Js.new_Set l) = length (remove_dups l).
Proof.
  apply Permutation_length, NoDup_Permutation.
  - apply new_Set_NoDup.
  - apply NoDup_remove_dups.
  - intros x. by rewrite new_Set_elem, elem_of_remove_dups.
Qed.

(** The total of a row is the sum of the compared amounts of its
    matches, added up in order from [0]. *)
Lemma dbTotalOf_sum matched :
  dbTotalOf matched = Js.sum (map comparedAmount matched).
Proof. apply fold_left_sumFrom. Qed.

Lemma dbTotalOf_single b : dbTotalOf [b] = storedAmount b.
Proof. reflexivity. Qed.

(** The label the code computes is the display name of the property. *)
Lemma propertyLabel_displayName b : propertyLabel b = displayName b.
Proof. unfold propertyLabel, displayName. by destruct (propertyId b). Qed.

Lemma map_propertyLabel matched : map propertyLabel matched = map displayName matched.
Proof. apply map_ext, propertyLabel_displayName. Qed.

(** The code's chain of tests is the specification's case analysis. *)
Lemma status_matchedRow csv matched :
  matched ≠ [] → status (matchedRow csv matched) = specStatus matched (Csv.net csv).
Proof.
  intros Hne. destruct matched as [|b rest]; [done|].
  unfold matchedRow, matchedRowOf, classify, specStatus, distinctProperties.
  cbn [status]. rewrite new_Set_length, map_propertyLabel.
  destruct (decide (1 < length (remove_dups _))%nat); [done|].
  destruct rest as [|b' rest]; cbn [length].
  - rewrite decide_False by lia. reflexivity.
  - by rewrite decide_True by lia.
Qed.

Lemma csvRowResult_status dbBookings csv :
  status (csvRowResult dbBookings csv)
  = specStatus (matchedOf dbBookings csv) (Csv.net csv).
Proof.
  destruct (matchedOf dbBookings csv) as [|b rest] eqn:Hm.
  - by apply status_no_match.
  - rewrite csvRowResult_matched, Hm by (by rewrite Hm).
    by apply status_matchedRow.
Qed.

Lemma distinctProperties_gt1 matched :
  (1 < distinctProperties matched)%nat
  ↔ ∃ b1 b2, b1 ∈ matched ∧ b2 ∈ matched ∧ displayName b1 ≠ displayName b2.
Proof.
  unfold distinctProperties. rewrite <-new_Set_length, new_Set_size_gt1. split.
  - intros (x & y & Hx & Hy & Hne).
    apply list_elem_of_In, in_map_iff in Hx as (b1 & <- & H1).
    apply list_elem_of_In, in_map_iff in Hy as (b2 & <- & H2).
    exists b1, b2. by rewrite !list_elem_of_In.
  - intros (b1 & b2 & H1 & H2 & Hne).
    exists (displayName b1), (displayName b2).
    split_and!; [| |done]; by apply list_elem_of_In, in_map, list_elem_of_In.
Qed.

End ClassificationFacts.

(** C2, as the code has it: the status of the row of a ledger row
    follows the precedence order.  No match gives MISSING_IN_DB.
    Matches under more than one display name (the name of the property,
    "Unknown Property" without one) give MULTI_PROPERTY_REFERENCE
    whatever the amounts; several matches under one display name give
    DUPLICATE_DB_REFERENCE, also when they lie in different properties
    of that name.  With a single match, the amount compared is the
    expected payment if present, else the collected amount, and the
    test is the one of double arithmetic, [Math.abs(total - net) > 0.01]
    on the double nearest to 0.01: the row is AMOUNT_MISMATCH when the
    test holds and OK exactly when it does not, in particular whenever
    the ledger net is [NaN]. *)
Theorem classification_precedence :
  ∀ (dbBookings : list Matcher.Booking) (csvRows : list Csv.Row)
    (i : nat) (csv : Csv.Row),
    csvRows !! i = Some csv →
    ∃ r, Matcher.rows dbBookings csvRows !! i = Some r
      ∧ let matched := Matcher.matchedOf dbBookings csv in
        Matcher.status r = specStatus matched (Csv.net csv)
        ∧ (matched = [] → Matcher.status r = Matcher.MISSING_IN_DB)
        ∧ ((∃ b1 b2, b1 ∈ matched ∧ b2 ∈ matched
                     ∧ displayName b1 ≠ displayName b2) →
           Matcher.status r = Matcher.MULTI_PROPERTY_REFERENCE)
        ∧ ((1 < length matched)%nat →
           (∀ b1 b2, b1 ∈ matched → b2 ∈ matched →
                     displayName b1 = displayName b2) →
           Matcher.status r = Matcher.DUPLICATE_DB_REFERENCE)
        ∧ (∀ b, matched = [b] →
             (moreThanACentApart (storedAmount b) (Csv.net csv) = true →
              Matcher.status r = Matcher.AMOUNT_MISMATCH)
             ∧ (Matcher.status r = Matcher.OK
                ↔ moreThanACentApart (storedAmount b) (Csv.net csv) = false)
             ∧ (Csv.net csv = PrimFloat.nan → Matcher.status r = Matcher.OK)).
Proof.
  intros dbBookings csvRows i csv Hi.
  exists (Matcher.csvRowResult dbBookings csv).
  split; [by apply rows_lookup_csv|].
  intros matched. rewrite csvRowResult_status. fold matched.
  split_and!; [done | by intros -> | | |].
  - intros Hmulti.
    assert (1 < distinctProperties matched)%nat as Hgt
      by by apply distinctProperties_gt1.
    unfold specStatus. destruct matched as [|b rest].
    + destruct Hmulti as (b1 & _ & H1 & _). by apply elem_of_nil in H1.
    + by rewrite decide_True.
  - intros Hlen Hsame.
    assert (¬ (1 < distinctProperties matched)%nat) as Hle.
    { intros (b1 & b2 & H1 & H2 & Hne)%distinctProperties_gt1.
      by apply Hne, Hsame. }
    unfold specStatus. destruct matched as [|b [|b' rest]]; simpl in Hlen; [lia..|].
    by rewrite decide_False.
  - intros b ->.
    assert (¬ (1 < distinctProperties [b])%nat) as Hle
      by (unfold distinctProperties; simpl; lia).
    unfold specStatus. rewrite decide_False by done.
    split_and!.
    + by intros ->.
    + by destruct (moreThanACentApart (storedAmount b) (Csv.net csv)).
    + intros ->. change (moreThanACentApart (storedAmount b) PrimFloat.nan)
        with (Js.differs (storedAmount b) PrimFloat.nan).
      by rewrite differs_nan_r.
Qed.

Lemma classification_precedence_witness :
  [Examples.row1001low; Examples.row1001] !! 1%nat = Some Examples.row1001
  ∧ ∃ r, Matcher.rows Examples.dbBookings [Examples.row1001low; Examples.row1001]
           !! 1%nat = Some r
         ∧ Matcher.status r = Matcher.OK.
Proof.
  split; [reflexivity|].
  destruct (classification_precedence Examples.dbBookings
              [Examples.row1001low; Examples.row1001] 1 Examples.row1001 eq_refl)
    as (r & Hr & Hs & _).
  exists r. split; [exact Hr|]. rewrite Hs. vm_compute. reflexivity.
Defined.

(** C2 as stated fails.  Two matches in two properties (of
    different identifiers) that bear one name are a
    DUPLICATE_DB_REFERENCE, not a MULTI_PROPERTY_REFERENCE; a single
    match is OK when the ledger net is [NaN], whatever the stored
    amount; and a single match of 100.01 against a ledger net of 100,
    whose difference as decimal numbers is exactly 0.01, is an
    AMOUNT_MISMATCH, the doubles being more than the double 0.01
    apart. *)
Lemma classification_by_name_and_in_doubles :
  (Matcher.prop_id Examples.beachHouse ≠ Matcher.prop_id Examples.beachHouseAnnex
   ∧ Matcher.matchedOf [Examples.b1001; Examples.b1001annex] Examples.row1001
     = [Examples.b1001; Examples.b1001annex]
   ∧ Matcher.propertyId Examples.b1001 = Some Examples.beachHouse
   ∧ Matcher.propertyId Examples.b1001annex = Some Examples.beachHouseAnnex
   ∧ ∃ r, Matcher.rows [Examples.b1001; Examples.b1001annex] [Examples.row1001]
            !! 0%nat = Some r
          ∧ Matcher.status r = Matcher.DUPLICATE_DB_REFERENCE)
  ∧ (Matcher.matchedOf [Examples.b1001] Examples.row1001nan = [Examples.b1001]
     ∧ PrimFloat.is_nan (Csv.net Examples.row1001nan) = true
     ∧ ∃ r, Matcher.rows [Examples.b1001] [Examples.row1001nan] !! 0%nat = Some r
            ∧ Matcher.status r = Matcher.OK)
  ∧ (Matcher.matchedOf [Examples.b3003] Examples.row3003 = [Examples.b3003]
     ∧ Matcher.comparedAmount Examples.b3003 = (10001 / 100)%float
     ∧ Csv.net Examples.row3003 = 100%float
     ∧ Js.tolerance = (1 / 100)%float
     ∧ (Qcabs (Q2Qc (10001 # 100) - Q2Qc 100) ≤ Q2Qc (1 # 100))%Qc
     ∧ ∃ r, Matcher.rows [Examples.b3003] [Examples.row3003] !! 0%nat = Some r
            ∧ Matcher.status r = Matcher.AMOUNT_MISMATCH).
Proof.
  split_and!; try (vm_compute; reflexivity); try (by eexists; split; vm_compute).
  - vm_compute. discriminate.
  - vm_compute. discriminate.
Qed.

(** ** Stored bookings matched by several ledger rows *)

Section SharedMatchFacts.

Import Matcher.



End SharedMatchFacts.


(** ** The per-property aggregation *)

Section GroupingFacts.

Import Matcher.

Implicit Types (m : gmap string Group.t) (r : ReconciliationRow) (k : string).
Implicit Types (rs : list ReconciliationRow) (g : Group.t).

(** One iteration touches the group of its row only. *)
Lemma addToGroup_lookup m r k :
  addToGroup m r !! k
  = if decide (property r = k)
    then Some (addRow (default emptyGroup (m !! k)) r)
    else m !! k.
Proof.
  unfold addToGroup, addRow. destruct (decide (property r = k)) as [<-|Hk].
  - destruct (m !! property r) as [g|] eqn:Hg; simpl;
      destruct (decide (status r = OK));
      rewrite ?lookup_alter_eq, ?lookup_insert_eq, ?Hg; reflexivity.
  - destruct (m !! property r) as [g|] eqn:Hg;
      destruct (decide (status r = OK));
      rewrite ?lookup_alter_ne, ?lookup_insert_ne by done; reflexivity.
Qed.

Lemma rowsOf_cons k r rs :
  rowsOf k (r :: rs) = if decide (property r = k) then r :: rowsOf k rs else rowsOf k rs.
Proof.
  unfold rowsOf. simpl. case_bool_decide; [by rewrite decide_True | by rewrite decide_False].
Qed.

(** The group of [k] after the loop: the rows labelled [k] folded, in
    order, into what the dictionary held for [k]. *)
Lemma fold_addToGroup_lookup rs m k :
  fold_left addToGroup rs m !! k
  = match rowsOf k rs with
    | [] => m !! k
    | _ :: _ => Some (fold_left addRow (rowsOf k rs) (default emptyGroup (m !! k)))
    end.
Proof.
  revert m. induction rs as [|r rs IH]; intros m; [done|].
  cbn [fold_left]. rewrite IH, addToGroup_lookup, rowsOf_cons.
  case_decide as Hk; [|done].
  by destruct (rowsOf k rs).
Qed.

Lemma groupedOwn_lookup rs k :
  groupedOwn rs !! k
  = match rowsOf k rs with
    | [] => None
    | _ :: _ => Some (fold_left addRow (rowsOf k rs) emptyGroup)
    end.
Proof. unfold groupedOwn. by rewrite fold_addToGroup_lookup, lookup_empty. Qed.

Lemma addRow_rows g r : Group.rows (addRow g r) = Group.rows g ++ [r].
Proof. unfold addRow. by case_decide. Qed.

Lemma addRow_safeTotal g r :
  Group.safeTotal (addRow g r)
  = if isOK r then (Group.safeTotal g + csvNetOf r)%float else Group.safeTotal g.
Proof.
  unfold addRow, isOK, csvNetOf. case_decide as Hs; simpl.
  - by rewrite bool_decide_eq_true_2.
  - by rewrite bool_decide_eq_false_2.
Qed.

Lemma addRow_csvTotal g r :
  Group.csvTotal (addRow g r) = (Group.csvTotal g + csvNetOf r)%float.
Proof. unfold addRow, csvNetOf. by case_decide. Qed.

Lemma addRow_dbTotal g r :
  Group.dbTotal (addRow g r) = (Group.dbTotal g + storedTotalOf r)%float.
Proof. unfold addRow, storedTotalOf. by case_decide. Qed.

(** The totals of a group are added up row by row, in order. *)
Lemma fold_addRow rs g :
  Group.rows (fold_left addRow rs g) = Group.rows g ++ rs
  ∧ Group.safeTotal (fold_left addRow rs g)
    = Js.sumFrom (Group.safeTotal g) (map csvNetOf (List.filter isOK rs))
  ∧ Group.csvTotal (fold_left addRow rs g)
    = Js.sumFrom (Group.csvTotal g) (map csvNetOf rs)
  ∧ Group.dbTotal (fold_left addRow rs g)
    = Js.sumFrom (Group.dbTotal g) (map storedTotalOf rs).
Proof.
  revert g. induction rs as [|r rs IH]; intros g.
  - cbn. by rewrite app_nil_r.
  - cbn [fold_left]. destruct (IH (addRow g r)) as (-> & -> & -> & ->).
    rewrite addRow_rows, addRow_safeTotal, addRow_csvTotal, addRow_dbTotal.
    rewrite <-app_assoc. cbn [List.filter]. by destruct (isOK r).
Qed.

(** A group holds the rows with its label, in order, and its totals
    are sums over those rows, added up in order from [0]. *)
Lemma groupedOwn_Some rs k g :
  groupedOwn rs !! k = Some g →
  Group.rows g = rowsOf k rs
  ∧ Group.safeTotal g = Js.sum (map csvNetOf (List.filter isOK (rowsOf k rs)))
  ∧ Group.csvTotal g = Js.sum (map csvNetOf (rowsOf k rs))
  ∧ Group.dbTotal g = Js.sum (map storedTotalOf (rowsOf k rs)).
Proof.
  rewrite groupedOwn_lookup.
  destruct (rowsOf k rs) as [|r l] eqn:Hl; [done|].
  generalize (r :: l). intros rl [= <-].
  by destruct (fold_addRow rl emptyGroup) as (-> & -> & -> & ->).
Qed.

Lemma elem_of_rowsOf rs k r : r ∈ rowsOf k rs ↔ r ∈ rs ∧ property r = k.
Proof.
  unfold rowsOf. rewrite elem_of_List_filter.
  by rewrite bool_decide_eq_true.
Qed.

(** Every row lands in the group of its label. *)
Lemma groupedOwn_member rs r :
  r ∈ rs → ∃ g, groupedOwn rs !! property r = Some g ∧ r ∈ Group.rows g.
Proof.
  intros Hr.
  assert (r ∈ rowsOf (property r) rs) as Hin by by apply elem_of_rowsOf.
  destruct (groupedOwn rs !! property r) as [g|] eqn:Hg.
  - exists g. split; [done|].
    apply groupedOwn_Some in Hg as (-> & _). done.
  - rewrite groupedOwn_lookup in Hg.
    destruct (rowsOf (property r) rs); [by apply elem_of_nil in Hin | done].
Qed.

(** The loop raises at the first row whose label the dictionary
    inherits, and otherwise returns the own properties. *)
Lemma foldM_groupStep rs m :
  Js.foldM groupStep rs m
  = if decide (Exists (λ r, property r ∈ Js.objectPrototypeKeys) rs)
    then Js.Throws "TypeError"
    else Js.Returns (fold_left addToGroup rs m).
Proof.
  revert m. induction rs as [|r rs IH]; intros m.
  - rewrite decide_False; [done|]. by intros ?%Exists_nil.
  - cbn [Js.foldM fold_left]. unfold groupStep at 1.
    destruct (decide (property r ∈ Js.objectPrototypeKeys)) as [Hr|Hr].
    + rewrite decide_True; [done|]. by apply Exists_cons_hd.
    + cbn [Js.bind]. rewrite IH.
      destruct (decide (Exists _ rs)) as [He|He].
      * rewrite decide_True; [done|]. by apply Exists_cons_tl.
      * rewrite decide_False; [done|]. by intros [?|?]%Exists_cons.
Qed.

Lemma inheritedLabel_Exists rs :
  inheritedLabel rs ↔ Exists (λ r, property r ∈ Js.objectPrototypeKeys) rs.
Proof. unfold inheritedLabel. by rewrite Exists_exists. Qed.

Lemma grouped_Returns rs m :
  grouped rs = Js.Returns m ↔ ¬ inheritedLabel rs ∧ m = groupedOwn rs.
Proof.
  unfold grouped, groupedOwn. rewrite foldM_groupStep, inheritedLabel_Exists.
  case_decide; split; [done | by intros [? _] | by intros [= <-] | by intros [_ ->]].
Qed.

Lemma grouped_Throws rs :
  grouped rs = Js.Throws "TypeError" ↔ inheritedLabel rs.
Proof.
  unfold grouped. rewrite foldM_groupStep, inheritedLabel_Exists.
  by case_decide.
Qed.

End GroupingFacts.

(** ** Labels of the rows *)

Section LabelFacts.

Import Matcher.

Implicit Types (dbBookings matched : list Booking) (csvRows : list Csv.Row).
Implicit Types (b : Booking) (csv : Csv.Row) (r : ReconciliationRow).

(** Where a row of the output comes from. *)
Lemma rows_cases dbBookings csvRows r :
  r ∈ rows dbBookings csvRows →
  (∃ csv, csv ∈ csvRows ∧ matchedOf dbBookings csv = [] ∧ r = missingInDbRow csv)
  ∨ (∃ csv, csv ∈ csvRows ∧ matchedOf dbBookings csv ≠ []
            ∧ r = matchedRow csv (matchedOf dbBookings csv))
  ∨ (∃ b, b ∈ dbBookings ∧ r = missingInCsvRow b).
Proof.
  rewrite rows_unfold. intros Hr.
  apply elem_of_app in Hr as [Hr|Hr];
    apply list_elem_of_In, in_map_iff in Hr as (x & <- & Hx);
    apply list_elem_of_In in Hx.
  - destruct (matchedOf dbBookings x) as [|b m] eqn:Hm.
    + left. exists x. split_and!; [done..|]. unfold csvRowResult. by rewrite Hm.
    + right; left. exists x. rewrite Hm. split_and!; [done..|].
      unfold csvRowResult. by rewrite Hm.
  - right; right. apply elem_of_List_filter in Hx as [Hx _]. by exists x.
Qed.

(** The row of a matched ledger row is either a cross-property row
    under the cross-property label, or a row under the one display
    name all its matched bookings share. *)
Lemma matchedRow_label csv matched :
  matched ≠ [] →
  (status (matchedRow csv matched) = MULTI_PROPERTY_REFERENCE
   ∧ property (matchedRow csv matched) = CROSS_PROPERTY)
  ∨ (status (matchedRow csv matched) ≠ MULTI_PROPERTY_REFERENCE
     ∧ status (matchedRow csv matched) ≠ MISSING_IN_DB
     ∧ status (matchedRow csv matched) ≠ MISSING_IN_CSV
     ∧ ∀ b, b ∈ matched → property (matchedRow csv matched) = displayName b).
Proof.
  intros Hne. unfold matchedRow, matchedRowOf, classify. cbn [status property].
  assert (∀ b, b ∈ matched →
               displayName b ∈ Js.new_Set (map propertyLabel matched)) as Hin.
  { intros b Hb. rewrite <-propertyLabel_displayName.
    by apply new_Set_elem, list_elem_of_In, in_map, list_elem_of_In. }
  pose proof (new_Set_NoDup (map propertyLabel matched)) as Hnd.
  destruct (Js.new_Set (map propertyLabel matched)) as [|p [|q s]] eqn:Hs.
  - destruct matched as [|b m]; [done|].
    exfalso. eapply elem_of_nil, (Hin b). left.
  - right. rewrite decide_False by (simpl; lia).
    split_and!; [repeat case_match; done..|].
    intros b Hb. symmetry. by apply list_elem_of_singleton, Hin.
  - left. by rewrite decide_True by (simpl; lia).
Qed.

(** The label and the records of every row. *)
Lemma rows_labels dbBookings csvRows r :
  r ∈ rows dbBookings csvRows →
  (status r = MISSING_IN_DB → property r = UNMATCHED_CSV)
  ∧ (status r = MULTI_PROPERTY_REFERENCE → property r = CROSS_PROPERTY)
  ∧ (status r ≠ MISSING_IN_DB → status r ≠ MULTI_PROPERTY_REFERENCE →
     ∃ recs, dbRecords r = Some recs ∧ recs ≠ []
             ∧ ∀ b, b ∈ recs → b ∈ dbBookings ∧ property r = displayName b).
Proof.
  intros Hr.
  destruct (rows_cases _ _ _ Hr)
    as [(csv & Hc & Hm & ->)|[(csv & Hc & Hm & ->)|(b & Hb & ->)]].
  - split_and!; [done | discriminate | done].
  - destruct (matchedRow_label csv _ Hm) as [[Hs Hp]|(Hs1 & Hs2 & Hs3 & Hp)].
    + split_and!; [by rewrite Hs | done | done].
    + split_and!; [done | done |]. intros _ _.
      exists (matchedOf dbBookings csv). split_and!; [done..|].
      intros b Hb. split; [|by apply Hp].
      by apply elem_of_matchedOf in Hb as [Hb _].
  - split_and!; [discriminate | discriminate |]. intros _ _.
    exists [b]. split_and!; [done..|].
    intros b' ->%list_elem_of_singleton. split; [done|].
    apply propertyLabel_displayName.
Qed.

End LabelFacts.

(** C3, as the code has it: when the aggregation of a reconciliation
    output returns, each group holds the output rows carrying its
    label, and its safeTotal is the sum, added up in order from 0, of
    what [csvNet || 0] gives for exactly those of its rows whose status
    is OK; the other rows add nothing.  Each such row carries the net
    of a ledger row, which counts as it is unless it is [NaN] or a
    zero, and for 0 when it is [NaN]. *)
Theorem safeTotal_is_sum_over_ok_rows :
  ∀ (dbBookings : list Matcher.Booking) (csvRows : list Csv.Row)
    (m : gmap string Matcher.Group.t) (k : string) (g : Matcher.Group.t),
    Matcher.grouped (Matcher.rows dbBookings csvRows) = Js.Returns m →
    m !! k = Some g →
    Matcher.Group.rows g = rowsOf k (Matcher.rows dbBookings csvRows)
    ∧ Matcher.Group.safeTotal g
      = Js.sum (map csvNetOf (List.filter isOK (Matcher.Group.rows g)))
    ∧ (∀ r, r ∈ List.filter isOK (Matcher.Group.rows g) →
            Matcher.status r = Matcher.OK
            ∧ ∃ csv, csv ∈ csvRows ∧ Matcher.csvNet r = Some (Csv.net csv)
                     ∧ csvNetOf r
                       = (if PrimFloat.is_nan (Csv.net csv)
                             || PrimFloat.is_zero (Csv.net csv)
                          then 0%float else Csv.net csv)
                     ∧ (Csv.net csv = PrimFloat.nan → csvNetOf r = 0%float)).
Proof.
  intros dbBookings csvRows m k g [_ ->]%grouped_Returns Hg.
  apply groupedOwn_Some in Hg as (Hrows & Hsafe & _ & _).
  rewrite Hrows. split_and!; [done | exact Hsafe |].
  intros r [[Hr _]%elem_of_rowsOf Hok%bool_decide_eq_true]%elem_of_List_filter.
  split; [done|].
  apply rows_cases in Hr as [(csv & Hc & _ & ->)|[(csv & Hc & _ & ->)|(b & _ & ->)]];
    [discriminate | | discriminate].
  exists csv. split_and!; [done | done | done |].
  unfold csvNetOf. cbn [Matcher.matchedRow Matcher.matchedRowOf Matcher.csvNet].
  by intros ->.
Qed.

Lemma safeTotal_is_sum_over_ok_rows_witness :
  ∃ m g, Matcher.grouped (Matcher.rows Examples.dbBookings Examples.csvRows)
         = Js.Returns m
         ∧ m !! "Beach House" = Some g
         ∧ Matcher.Group.safeTotal g = 150%float.
Proof.
  eexists _, _. split; [vm_compute; reflexivity|].
  split; [vm_compute; reflexivity|].
  match goal with
  | |- Matcher.Group.safeTotal ?g = _ =>
    destruct (safeTotal_is_sum_over_ok_rows Examples.dbBookings Examples.csvRows
                _ "Beach House" g ltac:(vm_compute; reflexivity)
                ltac:(vm_compute; reflexivity)) as (_ & -> & _)
  end.
  vm_compute. reflexivity.
Defined.

(** C3 as stated fails: the single match of a ledger row whose
    net is [NaN] is an OK row; its group's safeTotal is 0, and the sum
    of csvNet over the OK rows of the group is [NaN]. *)
Lemma unreadable_net_counts_for_zero :
  ∃ m g r,
    Matcher.grouped (Matcher.rows [Examples.b1001] [Examples.row1001nan])
    = Js.Returns m
    ∧ m !! "Beach House" = Some g
    ∧ Matcher.Group.rows g = [r]
    ∧ Matcher.status r = Matcher.OK
    ∧ Matcher.csvNet r = Some PrimFloat.nan
    ∧ Matcher.Group.safeTotal g = 0%float
    ∧ okNetSum (Matcher.Group.rows g) = PrimFloat.nan
    ∧ Matcher.Group.safeTotal g ≠ okNetSum (Matcher.Group.rows g).
Proof.
  eexists _, _, _. split; [vm_compute; reflexivity|].
  split; [vm_compute; reflexivity|].
  split_and!; [vm_compute; reflexivity..|].
  intros H. apply (f_equal PrimFloat.is_nan) in H. vm_compute in H. discriminate.
Qed.

(** C5, as the code has it: a MISSING_IN_DB row is labelled
    "Unmatched CSV" and a MULTI_PROPERTY_REFERENCE row
    "⚠ Cross-Property Issue"; every other row is labelled with the
    display name (the name of the property, "Unknown Property" without
    one) that all the stored bookings it records share.  The
    aggregation raises exactly when some row carries a label every
    plain object inherits; when it returns, every row sits in the group
    of its label and in no other, so a group under any label other
    than the two sentinels holds no MISSING_IN_DB and no
    MULTI_PROPERTY_REFERENCE row, and the totals of a group are sums
    over its own rows only, added up in order from 0.  When no stored
    booking is displayed under a sentinel, the two sentinel groups hold
    no other kind of row. *)
Theorem rows_grouped_under_sentinel_or_property :
  ∀ (dbBookings : list Matcher.Booking) (csvRows : list Csv.Row)
    (r : Matcher.ReconciliationRow),
    r ∈ Matcher.rows dbBookings csvRows →
    (Matcher.status r = Matcher.MISSING_IN_DB →
     Matcher.property r = "Unmatched CSV")
    ∧ (Matcher.status r = Matcher.MULTI_PROPERTY_REFERENCE →
       Matcher.property r = "⚠ Cross-Property Issue")
    ∧ (Matcher.status r ≠ Matcher.MISSING_IN_DB →
       Matcher.status r ≠ Matcher.MULTI_PROPERTY_REFERENCE →
       ∃ recs, Matcher.dbRecords r = Some recs ∧ recs ≠ []
               ∧ ∀ b, b ∈ recs →
                   b ∈ dbBookings ∧ Matcher.property r = displayName b)
    ∧ (inheritedLabel (Matcher.rows dbBookings csvRows)
       ↔ Matcher.grouped (Matcher.rows dbBookings csvRows) = Js.Throws "TypeError")
    ∧ (¬ inheritedLabel (Matcher.rows dbBookings csvRows)
       ↔ ∃ m, Matcher.grouped (Matcher.rows dbBookings csvRows) = Js.Returns m)
    ∧ (∀ m, Matcher.grouped (Matcher.rows dbBookings csvRows) = Js.Returns m →
         (∃ g, m !! Matcher.property r = Some g ∧ r ∈ Matcher.Group.rows g)
         ∧ ∀ k g, m !! k = Some g →
             (r ∈ Matcher.Group.rows g ↔ Matcher.property r = k)
             ∧ (k ≠ "Unmatched CSV" → k ≠ "⚠ Cross-Property Issue" →
                r ∈ Matcher.Group.rows g →
                Matcher.status r ≠ Matcher.MISSING_IN_DB
                ∧ Matcher.status r ≠ Matcher.MULTI_PROPERTY_REFERENCE)
             ∧ Matcher.Group.rows g = rowsOf k (Matcher.rows dbBookings csvRows)
             ∧ Matcher.Group.csvTotal g
               = Js.sum (map csvNetOf (Matcher.Group.rows g))
             ∧ Matcher.Group.dbTotal g
               = Js.sum (map storedTotalOf (Matcher.Group.rows g))
             ∧ Matcher.Group.safeTotal g
               = Js.sum (map csvNetOf (List.filter isOK (Matcher.Group.rows g))))
    ∧ ((∀ b, b ∈ dbBookings →
             displayName b ≠ "Unmatched CSV"
             ∧ displayName b ≠ "⚠ Cross-Property Issue") →
       (Matcher.property r = "Unmatched CSV" →
        Matcher.status r = Matcher.MISSING_IN_DB)
       ∧ (Matcher.property r = "⚠ Cross-Property Issue" →
          Matcher.status r = Matcher.MULTI_PROPERTY_REFERENCE)).
Proof.
  intros dbBookings csvRows r Hr.
  destruct (rows_labels _ _ _ Hr) as (Hdb & Hmulti & Hother).
  split_and!; [done | done | done | | | |].
  - symmetry. apply grouped_Throws.
  - split.
    + intros Hno. exists (groupedOwn (Matcher.rows dbBookings csvRows)).
      by apply grouped_Returns.
    + by intros [m [Hno _]%grouped_Returns].
  - intros m [_ ->]%grouped_Returns. split; [by apply groupedOwn_member|].
    intros k g Hg.
    apply groupedOwn_Some in Hg as (Hrows & Hsafe & Hcsv & Hdbt).
    rewrite Hrows. split_and!; [| |done..].
    + rewrite elem_of_rowsOf. tauto.
    + intros Hk1 Hk2 [_ Hk]%elem_of_rowsOf.
      split; intros Hs; [apply Hk1 | apply Hk2]; rewrite <-Hk; auto.
  - intros Hreal.
    assert (Matcher.status r ≠ Matcher.MISSING_IN_DB →
            Matcher.status r ≠ Matcher.MULTI_PROPERTY_REFERENCE →
            Matcher.property r ≠ "Unmatched CSV"
            ∧ Matcher.property r ≠ "⚠ Cross-Property Issue") as Hlabel.
    { intros H1 H2. destruct (Hother H1 H2) as (recs & _ & Hne & Hrecs).
      destruct recs as [|b recs]; [done|].
      destruct (Hrecs b) as [Hb ->]; [left|]. by apply Hreal. }
    assert (Matcher.UNMATCHED_CSV ≠ Matcher.CROSS_PROPERTY) as Hsent by done.
    split; intros Hp.
    + destruct (decide (Matcher.status r = Matcher.MISSING_IN_DB)) as [|H1]; [done|].
      destruct (decide (Matcher.status r = Matcher.MULTI_PROPERTY_REFERENCE))
        as [H2|H2].
      * rewrite (Hmulti H2) in Hp. by destruct Hsent.
      * by destruct (Hlabel H1 H2).
    + destruct (decide (Matcher.status r = Matcher.MULTI_PROPERTY_REFERENCE))
        as [|H2]; [done|].
      destruct (decide (Matcher.status r = Matcher.MISSING_IN_DB)) as [H1|H1].
      * rewrite (Hdb H1) in Hp. by destruct Hsent.
      * by destruct (Hlabel H1 H2).
Qed.

Lemma rows_grouped_under_sentinel_or_property_witness :
  Matcher.missingInDbRow Examples.row9999
    ∈ Matcher.rows Examples.dbBookings Examples.csvRows
  ∧ Matcher.property (Matcher.missingInDbRow Examples.row9999) = "Unmatched CSV".
Proof.
  assert (Matcher.missingInDbRow Examples.row9999
            ∈ Matcher.rows Examples.dbBookings Examples.csvRows) as Hin.
  { vm_compute. apply list_elem_of_further, list_elem_of_here. }
  split; [exact Hin|].
  apply (rows_grouped_under_sentinel_or_property _ _ _ Hin). reflexivity.
Defined.

(** C5 as stated fails: a property may bear the name
    "Unmatched CSV".  The row of a stored booking in it then shares
    its group with the MISSING_IN_DB rows, and the ledger net of an
    unmatched row is added to the totals of the group that property's
    rows are in. *)
Lemma property_named_as_the_unmatched_label :
  Matcher.propertyId Examples.b4004 = Some Examples.unmatchedVilla
  ∧ Matcher.name Examples.unmatchedVilla = "Unmatched CSV"
  ∧ ∃ m g,
      Matcher.grouped (Matcher.rows [Examples.b4004] [Examples.row9999])
      = Js.Returns m
      ∧ m !! "Unmatched CSV" = Some g
      ∧ Matcher.Group.rows g
        = [Matcher.missingInDbRow Examples.row9999;
           Matcher.missingInCsvRow Examples.b4004]
      ∧ Matcher.status (Matcher.missingInDbRow Examples.row9999)
        = Matcher.MISSING_IN_DB
      ∧ Matcher.dbRecords (Matcher.missingInCsvRow Examples.b4004)
        = Some [Examples.b4004]
      ∧ Matcher.Group.csvTotal g = 10%float
      ∧ Matcher.Group.dbTotal g = 75%float.
Proof.
  split; [reflexivity|]. split; [reflexivity|].
  eexists _, _. split; [vm_compute; reflexivity|].
  split; [vm_compute; reflexivity|].
  split_and!; vm_compute; reflexivity.
Qed.

(** Two properties that bear one name share one group: the row of a
    ledger row matched in both is labelled with the name and records
    bookings of the two properties. *)
Example properties_of_one_name_share_a_group :
  Matcher.prop_id Examples.beachHouse ≠ Matcher.prop_id Examples.beachHouseAnnex
  ∧ ∃ r, Matcher.rows [Examples.b1001; Examples.b1001annex] [Examples.row1001] = [r]
         ∧ Matcher.property r = "Beach House"
         ∧ Matcher.dbRecords r = Some [Examples.b1001; Examples.b1001annex]
         ∧ Matcher.propertyId Examples.b1001 = Some Examples.beachHouse
         ∧ Matcher.propertyId Examples.b1001annex = Some Examples.beachHouseAnnex.
Proof.
  split; [vm_compute; discriminate|].
  eexists. split; [vm_compute; reflexivity|]. split_and!; reflexivity.
Qed.

(** ** The income totals *)

Section IncomeFacts.

Import Income.

Implicit Types (t : Totals) (b : Model.IBooking) (k : Bucket).
Implicit Types (records : list Model.IBooking).

(** One record adds its amount to [netTotal], and to the bucket it
    belongs to, if any. *)
Lemma addRecord_netTotal t b :
  netTotal (addRecord t b) = (netTotal t + amountOf b)%Qc.
Proof. unfold addRecord. platform_cases. Qed.

Lemma addRecord_bucket t b k :
  bucket k (addRecord t b)
  = (bucket k t + (if inBucket k b then amountOf b else 0))%Qc.
Proof. unfold addRecord. destruct k; platform_cases. Qed.

Lemma fold_addRecord_netTotal records t :
  netTotal (fold_left addRecord records t)
  = (netTotal t + sumQc (map amountOf records))%Qc.
Proof.
  revert t. induction records as [|b records IH]; intros t; simpl.
  - by rewrite Qcplus_0_r.
  - by rewrite IH, addRecord_netTotal, Qcplus_assoc.
Qed.

Lemma fold_addRecord_bucket records t k :
  bucket k (fold_left addRecord records t)
  = (bucket k t + sumOver (inBucket k) amountOf records)%Qc.
Proof.
  revert t. induction records as [|b records IH]; intros t.
  - unfold sumOver. simpl. by rewrite Qcplus_0_r.
  - cbn [fold_left]. by rewrite IH, addRecord_bucket, sumOver_cons, Qcplus_assoc.
Qed.

Lemma totals_bucket records k :
  bucket k (totals records) = sumOver (inBucket k) amountOf records.
Proof.
  unfold totals. rewrite fold_addRecord_bucket.
  destruct k; simpl; by rewrite Qcplus_0_l.
Qed.

Lemma totals_netTotal records :
  netTotal (totals records) = sumQc (map amountOf records).
Proof. unfold totals. by rewrite fold_addRecord_netTotal, Qcplus_0_l. Qed.


(** No record is in two buckets. *)
Lemma one_bucket_at_most b (k1 k2 : Bucket) :
  inBucket k1 b = true → inBucket k2 b = true → k1 = k2.
Proof. destruct k1, k2; try done; platform_cases. Qed.



End IncomeFacts.

Section IncomeClaims.

Import Income.




End IncomeClaims.

(** ** The booking handlers *)

Section BookingsApiFacts.

Import BookingsApi.

Implicit Types (store : gmap string Model.IBooking) (d data : Model.IBooking).

(** The duplicate check finds a document exactly when some stored
    booking that is not cancelled carries the reference. *)
Lemma findOneActive_spec store (rid : string) :
  findOneActive store rid = true
  ↔ ∃ id d, store !! id = Some d ∧ Model.reservationId d = Some rid
            ∧ Model.status d ≠ Some "cancel".
Proof.
  unfold findOneActive, hasReservation, active. rewrite existsb_exists. split.
  - intros ([id d] & Hin & Hp). simpl in Hp.
    apply andb_true_iff in Hp as [Hr Hs].
    apply bool_decide_eq_true in Hr. apply negb_true_iff, bool_decide_eq_false in Hs.
    exists id, d. split_and!; [|done..].
    by apply elem_of_map_to_list, list_elem_of_In.
  - intros (id & d & Hd & Hr & Hs). exists (id, d). split.
    + by apply list_elem_of_In, elem_of_map_to_list.
    + simpl. apply andb_true_iff. split.
      * by apply bool_decide_eq_true.
      * by apply negb_true_iff, bool_decide_eq_false.
Qed.

Lemma truthy_Some (id : string) : id ≠ "" → Js.truthy (Some id) = Some id.
Proof. intros Hne. unfold Js.truthy. by rewrite decide_False. Qed.

Lemma checked_values_undeclared :
  ("checked_in" ∉ Model.statusEnum) ∧ ("checked_out" ∉ Model.statusEnum).
Proof.
  unfold Model.statusEnum.
  split; intros Hin;
    repeat (apply elem_of_cons in Hin as [Heq|Hin]; [discriminate Heq|]);
    by apply elem_of_nil in Hin.
Qed.

Lemma setStatus_undeclared d (s : string) :
  s ∉ Model.statusEnum → ¬ Model.statusDeclared (setStatus s d).
Proof. intros Hs (s' & [= <-] & Hin). done. Qed.

End BookingsApiFacts.

Section BookingsApiClaims.

Import BookingsApi.

(** C8, as the code has it: the reference is the supplied one, or an
    auto-generated one when none is supplied; when a stored booking
    that is not cancelled carries it, the answer is HTTP 409 and the
    store is unchanged; otherwise the new document takes the supplied
    status or, by default, booked, and it is handed to the store: a
    document that satisfies the schema, whose reference no stored
    booking carries and whose identifier is fresh, is created and
    returned; a document that fails validation, among others one whose
    property or room is not the text of an object id, yields HTTP 500
    and the store is unchanged. *)
Theorem post_conflict_or_create :
  ∀ (store : gmap string Model.IBooking) (data : Model.IBooking)
    (now rnd : N) (oid : string),
    let rid := reservationIdFor data now rnd in
    let doc := newDocument data rid in
    (Model.reservationId data = None → rid = autoReservationId now rnd)
    ∧ (∀ s, Model.reservationId data = Some s → s ≠ "" → rid = s)
    ∧ Model.reservationId doc = Some rid
    ∧ Model.status doc = Some (Js.orString (Model.status data) "booked")
    ∧ (Model.status data = None → Model.status doc = Some "booked")
    ∧ ((∃ id d, store !! id = Some d ∧ Model.reservationId d = Some rid
                ∧ Model.status d ≠ Some "cancel") →
       POST store data now rnd oid
       = (json (ErrorBody "Reservation ID already exists") 409, store))
    ∧ (¬ (∃ id d, store !! id = Some d ∧ Model.reservationId d = Some rid
                  ∧ Model.status d ≠ Some "cancel") →
       (Model.validate doc = true → indexHas store (Some rid) = false →
        store !! oid = None →
        POST store data now rnd oid
        = (json (BookingBody oid doc) 200, <[oid := doc]> store))
       ∧ (Model.validate doc = false →
          POST store data now rnd oid
          = (json (ErrorBody "Failed to create booking") 500, store))
       ∧ (∀ p, (Model.propertyId data = Some p ∨ Model.roomId data = Some p) →
               Js.isObjectId p = false →
               POST store data now rnd oid
               = (json (ErrorBody "Failed to create booking") 500, store))).
Proof.
  intros store data now rnd oid rid doc.
  split_and!.
  - unfold rid, reservationIdFor. by intros ->.
  - unfold rid, reservationIdFor. intros s -> Hs. simpl. by rewrite decide_False.
  - reflexivity.
  - reflexivity.
  - intros Hs. unfold doc. simpl. by rewrite Hs.
  - intros Hex%findOneActive_spec. unfold POST. fold rid. by rewrite Hex.
  - intros Hno.
    assert (findOneActive store rid = false) as Hf.
    { destruct (findOneActive store rid) eqn:Hf; [|done].
      by apply findOneActive_spec in Hf. }
    unfold POST. fold rid. rewrite Hf. fold doc.
    unfold Booking_create. change (Model.applyDefaults doc) with doc. split_and!.
    + intros Hv Hi Ho. rewrite Hv. simpl. change (Model.reservationId doc) with (Some rid).
      by rewrite Hi, Ho.
    + intros Hv. by rewrite Hv.
    + intros p Hp Hc.
      assert (Model.validate doc = false) as ->; [|done].
      unfold Model.validate.
      change (Model.propertyId doc) with (Model.propertyId data).
      change (Model.roomId doc) with (Model.roomId data).
      destruct Hp as [-> | ->]; cbn [Js.castObjectId Model.required]; rewrite Hc.
      * by rewrite andb_false_r.
      * by rewrite andb_false_r.
Qed.

Lemma post_conflict_or_create_witness :
  Examples.store !! Examples.oid3 = None
  ∧ POST Examples.store Examples.newAgoda 1700000000000 7 Examples.oid3
    = (json (BookingBody Examples.oid3
               (newDocument Examples.newAgoda "AUTO-1700000000000-7")) 200,
       <[Examples.oid3 := newDocument Examples.newAgoda "AUTO-1700000000000-7"]>
         Examples.store).
Proof.
  split; [vm_compute; reflexivity|].
  destruct (post_conflict_or_create Examples.store Examples.newAgoda
              1700000000000 7 Examples.oid3) as (_ & _ & _ & _ & _ & _ & Hcreate).
  apply Hcreate.
  - intros (id & d & Hd & Hr & Hs).
    assert (findOneActive Examples.store
              (reservationIdFor Examples.newAgoda 1700000000000 7) = true) as Hf
      by (apply findOneActive_spec; by exists id, d).
    vm_compute in Hf. discriminate Hf.
  - vm_compute. reflexivity.
  - vm_compute. reflexivity.
  - vm_compute. reflexivity.
Defined.

(** C8 as stated fails: with no stored booking carrying the reference,
    a request body without a guest name is answered with HTTP 500 and
    nothing is created. *)
Lemma post_without_conflict_creates_nothing :
  reservationIdFor Examples.newAnonymous 1700000000000 7 = "AUTO-1700000000000-7"
  ∧ findOneActive Examples.store "AUTO-1700000000000-7" = false
  ∧ indexHas Examples.store (Some "AUTO-1700000000000-7") = false
  ∧ Examples.store !! Examples.oid3 = None
  ∧ Model.validate (newDocument Examples.newAnonymous "AUTO-1700000000000-7") = false
  ∧ POST Examples.store Examples.newAnonymous 1700000000000 7 Examples.oid3
    = (json (ErrorBody "Failed to create booking") 500, Examples.store).
Proof. split_and!; vm_compute; reflexivity. Qed.

(** C9: the schema declares the statuses booked, checkin, checkout and
    cancel; on a stored booking the check-in action writes checked_in
    and the check-out action writes checked_out, neither of which is
    declared; so a store in which every status is declared is turned
    into one in which that no longer holds. *)
Theorem patch_writes_undeclared_status :
  ∀ (store : gmap string Model.IBooking) (id : string) (d : Model.IBooking)
    (roomId : option string),
    statusInvariant store → store !! id = Some d → id ≠ "" →
    Model.statusEnum = ["booked"; "checkin"; "checkout"; "cancel"]
    ∧ ("checked_in" ∉ Model.statusEnum)
    ∧ ("checked_out" ∉ Model.statusEnum)
    ∧ (∃ d', (PATCH store (Some id) "checkin" roomId).2 !! id = Some d'
             ∧ Model.status d' = Some "checked_in")
    ∧ (∃ d', (PATCH store (Some id) "checkout" roomId).2 !! id = Some d'
             ∧ Model.status d' = Some "checked_out")
    ∧ ¬ statusInvariant (PATCH store (Some id) "checkin" roomId).2
    ∧ ¬ statusInvariant (PATCH store (Some id) "checkout" roomId).2.
Proof.
  intros store id d roomId _ Hd Hid.
  destruct checked_values_undeclared as [Hin Hout].
  assert ((PATCH store (Some id) "checkin" roomId).2
          = <[id := setStatus "checked_in" d]> store) as Hci.
  { unfold PATCH. rewrite truthy_Some by done. simpl.
    unfold findByIdAndUpdate. by rewrite Hd. }
  assert ((PATCH store (Some id) "checkout" roomId).2
          = <[id := setStatus "checked_out" d]> store) as Hco.
  { unfold PATCH. rewrite truthy_Some by done. simpl.
    unfold findByIdAndUpdate. by rewrite Hd. }
  rewrite Hci, Hco.
  split_and!; [done | done | done | | | |].
  - eexists. by rewrite lookup_insert_eq.
  - eexists. by rewrite lookup_insert_eq.
  - intros Hinv. eapply (setStatus_undeclared d), Hinv, lookup_insert_eq. done.
  - intros Hinv. eapply (setStatus_undeclared d), Hinv, lookup_insert_eq. done.
Qed.

Lemma patch_writes_undeclared_status_witness :
  statusInvariant Examples.store
  ∧ Examples.store !! Examples.oid1 = Some Examples.directBankDoc
  ∧ ¬ statusInvariant (PATCH Examples.store (Some Examples.oid1) "checkin" None).2.
Proof.
  assert (statusInvariant Examples.store) as Hinv.
  { intros id d Hd. unfold Examples.store in Hd.
    apply lookup_insert_Some in Hd as [[_ <-]|[_ Hd]].
    - exists "booked". split; [reflexivity|]. apply list_elem_of_here.
    - apply lookup_singleton_Some in Hd as [_ <-].
      exists "booked". split; [reflexivity|]. apply list_elem_of_here. }
  assert (Examples.store !! Examples.oid1 = Some Examples.directBankDoc) as Hd
    by (vm_compute; reflexivity).
  split_and!; [exact Hinv | exact Hd |].
  apply (patch_writes_undeclared_status Examples.store Examples.oid1
           Examples.directBankDoc None Hinv Hd).
  discriminate.
Defined.

End BookingsApiClaims.

(** ** Worked examples *)

(** One stored booking, referenced by containment, amounts agree. *)
Example single_match_ok :
  map Matcher.status (Matcher.rows [Examples.b1001] [Examples.row1001])
  = [Matcher.OK]
  ∧ ∃ m, Matcher.grouped (Matcher.rows [Examples.b1001] [Examples.row1001])
         = Js.Returns m
         ∧ Matcher.Group.safeTotal <$> m !! "Beach House" = Some 150%float.
Proof. split; [|eexists; split]; vm_compute; reflexivity. Qed.

(** The same booking against a ledger net of 140. *)
Example single_match_mismatch :
  map Matcher.status (Matcher.rows [Examples.b1001] [Examples.row1001low])
  = [Matcher.AMOUNT_MISMATCH]
  ∧ ∃ m, Matcher.grouped (Matcher.rows [Examples.b1001] [Examples.row1001low])
         = Js.Returns m
         ∧ Matcher.Group.safeTotal <$> m !! "Beach House" = Some 0%float.
Proof. split; [|eexists; split]; vm_compute; reflexivity. Qed.

(** Two stored bookings in different properties under one reference:
    one cross-property row, and no group for either property. *)
Example cross_property_match :
  map (λ r, (Matcher.property r, Matcher.status r))
    (Matcher.rows [Examples.b1001; Examples.b1001loft] [Examples.row1001])
  = [(Matcher.CROSS_PROPERTY, Matcher.MULTI_PROPERTY_REFERENCE)]
  ∧ ∃ m, Matcher.grouped
           (Matcher.rows [Examples.b1001; Examples.b1001loft] [Examples.row1001])
         = Js.Returns m
         ∧ Matcher.Group.safeTotal <$> m !! Matcher.CROSS_PROPERTY = Some 0%float
         ∧ m !! "Beach House" = None
         ∧ m !! "City Loft" = None.
Proof. split; [|eexists; split_and!]; vm_compute; reflexivity. Qed.

(** A stored booking the ledger never mentions. *)
Example stored_only :
  map (λ r, (Matcher.status r, Matcher.dbTotal r, Matcher.csvNet r))
    (Matcher.rows [Examples.b2002] [])
  = [(Matcher.MISSING_IN_CSV, Some 90%float, None)].
Proof. vm_compute. reflexivity. Qed.

(** A stored booking in a property named as a key every plain object
    inherits: the aggregation raises. *)
Example inherited_label_raises :
  map Matcher.property (Matcher.rows [Examples.b5005] []) = ["constructor"]
  ∧ Matcher.grouped (Matcher.rows [Examples.b5005] []) = Js.Throws "TypeError".
Proof. split; vm_compute; reflexivity. Qed.

(** * Further properties of the sources *)

(** ** The rows the matcher builds *)

Section RowFacts.
Import Matcher.

Lemma usedDbIdsOf_nil (dbBookings : list Booking) : usedDbIdsOf dbBookings [] = ∅.
Proof. reflexivity. Qed.

Lemma filter_all {A : Type} (p : A → bool) (l : list A) :
  (∀ x, x ∈ l → p x = true) → List.filter p l = l.
Proof.
  induction l as [|x l IH]; intros Hall; simpl; [done|].
  rewrite (Hall x) by left. f_equal. apply IH. intros y Hy. apply Hall. by right.
Qed.

Lemma elem_of_map_1 {A B : Type} (f : A → B) (l : list A) (y : B) :
  y ∈ map f l ↔ ∃ x, x ∈ l ∧ y = f x.
Proof.
  rewrite list_elem_of_In, in_map_iff. split.
  - intros (x & <- & Hx). exists x. by rewrite list_elem_of_In.
  - intros (x & Hx & ->). exists x. by rewrite <-list_elem_of_In.
Qed.

(** A row with status [OK] is the row of a ledger row with exactly one
    match, whose compared amount does not test as more than 0.01 away
    from the net. *)
Lemma ok_row_shape (dbBookings : list Booking) (csvRows : list Csv.Row)
    (r : ReconciliationRow) :
  r ∈ rows dbBookings csvRows →
  status r = OK →
  ∃ csv b,
    csv ∈ csvRows ∧ b ∈ dbBookings
    ∧ matchedOf dbBookings csv = [b]
    ∧ r = matchedRow csv [b]
    ∧ moreThanACentApart (storedAmount b) (Csv.net csv) = false.
Proof.
  intros Hr Hok.
  destruct (rows_cases _ _ _ Hr)
    as [(csv & Hc & Hm & ->)|[(csv & Hc & Hm & ->)|(b & Hb & ->)]];
    [discriminate | | discriminate].
  rewrite status_matchedRow in Hok by done.
  destruct (matchedOf dbBookings csv) as [|b [|b' rest]] eqn:Hmatched; [done | |].
  - exists csv, b.
    assert (b ∈ dbBookings) as Hb.
    { assert (b ∈ matchedOf dbBookings csv) as Hin by (rewrite Hmatched; left).
      by apply elem_of_matchedOf in Hin as [Hin _]. }
    unfold specStatus in Hok.
    destruct (decide (1 < distinctProperties [b])%nat); [discriminate|].
    destruct (moreThanACentApart (storedAmount b) (Csv.net csv)); [discriminate|].
    by split_and!.
  - unfold specStatus in Hok. repeat case_decide; discriminate.
Qed.

Lemma matchedRow_single (csv : Csv.Row) (b : Booking) :
  property (matchedRow csv [b]) = displayName b
  ∧ dbTotal (matchedRow csv [b]) = Some (storedAmount b)
  ∧ csvNet (matchedRow csv [b]) = Some (Csv.net csv)
  ∧ dbRecords (matchedRow csv [b]) = Some [b]
  ∧ dbCount (matchedRow csv [b]) = 1%nat.
Proof.
  split_and!; [|done..]. rewrite <-propertyLabel_displayName. reflexivity.
Qed.

End RowFacts.

(** X1: with no ledger uploaded the matcher reports every stored
    booking, in order, as missing from the ledger; with no stored
    booking it reports every ledger row, in order, as missing from the
    store. *)
Theorem rows_on_empty_inputs :
  (∀ dbBookings : list Matcher.Booking,
     Matcher.rows dbBookings [] = map Matcher.missingInCsvRow dbBookings)
  ∧ (∀ csvRows : list Csv.Row,
       Matcher.rows [] csvRows = map Matcher.missingInDbRow csvRows).
Proof.
  split.
  - intros dbBookings. rewrite rows_unfold. simpl. f_equal.
    apply filter_all. intros b _. apply bool_decide_eq_true_2.
    rewrite usedDbIdsOf_nil. apply not_elem_of_empty.
  - intros csvRows. rewrite rows_unfold. simpl. rewrite app_nil_r. reflexivity.
Qed.

(** X2: the fields of every output row agree with one another:
    [dbCount] is the number of guests listed; when [dbRecords] is
    present it is a non-empty list of stored bookings handed to the
    matcher, [dbGuests] lists their guest names in the same order,
    [dbCount] is their number and [dbTotal] the sum of their compared
    amounts: added up in order from 0 on the row of a ledger row, and
    the compared amount of its one booking, as it is, on a
    MISSING_IN_CSV row; [dbRecords] is absent only on MISSING_IN_DB
    rows, which carry no [dbTotal] and count no booking; and [csvNet]
    is absent exactly on MISSING_IN_CSV rows. *)
Theorem row_fields_agree_with_records :
  ∀ (dbBookings : list Matcher.Booking) (csvRows : list Csv.Row)
    (r : Matcher.ReconciliationRow),
    r ∈ Matcher.rows dbBookings csvRows →
    Matcher.dbCount r = length (Matcher.dbGuests r)
    ∧ (∀ recs, Matcher.dbRecords r = Some recs →
         recs ≠ []
         ∧ (∀ b, b ∈ recs → b ∈ dbBookings)
         ∧ Matcher.dbGuests r = map Matcher.guestName recs
         ∧ Matcher.dbCount r = length recs
         ∧ (Matcher.status r ≠ Matcher.MISSING_IN_CSV →
            Matcher.dbTotal r = Some (Js.sum (map Matcher.comparedAmount recs)))
         ∧ (Matcher.status r = Matcher.MISSING_IN_CSV →
            ∃ b, recs = [b] ∧ Matcher.dbTotal r = Some (Matcher.comparedAmount b)))
    ∧ (Matcher.dbRecords r = None →
       Matcher.status r = Matcher.MISSING_IN_DB ∧ Matcher.dbTotal r = None
       ∧ Matcher.dbCount r = 0%nat)
    ∧ (Matcher.csvNet r = None ↔ Matcher.status r = Matcher.MISSING_IN_CSV).
Proof.
  intros dbBookings csvRows r Hr.
  destruct (rows_cases _ _ _ Hr)
    as [(csv & Hc & Hm & ->)|[(csv & Hc & Hm & ->)|(b & Hb & ->)]].
  - split_and!; [done | done | done |]. split; discriminate.
  - assert (Matcher.status (Matcher.matchedRow csv (Matcher.matchedOf dbBookings csv))
            ≠ Matcher.MISSING_IN_CSV) as Hs.
    { destruct (matchedRow_label csv _ Hm) as [[Hs' _]|(_ & _ & Hs' & _)]; congruence. }
    split_and!.
    + simpl. by rewrite length_map.
    + intros recs [= <-]. split_and!; [done | | done | done | |].
      * intros b Hb. by apply elem_of_matchedOf in Hb as [Hb _].
      * intros _. simpl. by rewrite dbTotalOf_sum.
      * done.
    + discriminate.
    + split; [discriminate | done].
  - split_and!; [done | | discriminate | done].
    intros recs [= <-]. split_and!; [done | | done | done | done |].
    + by intros b' ->%list_elem_of_singleton.
    + intros _. by exists b.
Qed.

Lemma row_fields_agree_with_records_witness :
  Matcher.missingInCsvRow Examples.b2002
    ∈ Matcher.rows Examples.dbBookings Examples.csvRows
  ∧ Matcher.dbCount (Matcher.missingInCsvRow Examples.b2002)
    = length (Matcher.dbGuests (Matcher.missingInCsvRow Examples.b2002)).
Proof.
  assert (Matcher.missingInCsvRow Examples.b2002
            ∈ Matcher.rows Examples.dbBookings Examples.csvRows) as Hin.
  { vm_compute. do 2 apply list_elem_of_further. apply list_elem_of_here. }
  split; [exact Hin|].
  apply (row_fields_agree_with_records _ _ _ Hin).
Defined.

(** X3: the page hands the matcher only the loaded bookings whose
    platform is Booking.com: every stored booking recorded in a row of
    the page is one of the loaded bookings and is a Booking.com
    booking, whatever the ledger says. *)
Theorem only_booking_com_bookings_are_reconciled :
  ∀ (allBookings : list Matcher.Booking) (csvRows : list Csv.Row)
    (r : Matcher.ReconciliationRow) (recs : list Matcher.Booking) (b : Matcher.Booking),
    r ∈ Upload.pageRows allBookings csvRows →
    Matcher.dbRecords r = Some recs → b ∈ recs →
    b ∈ allBookings ∧ Matcher.platform b = "Booking.com".
Proof.
  intros allBookings csvRows r recs b Hr Hrecs Hb. unfold Upload.pageRows in Hr.
  assert (b ∈ Matcher.dbBookingsOf allBookings) as Hin.
  { destruct (rows_cases _ _ _ Hr)
      as [(csv & Hc & Hm & ->)|[(csv & Hc & Hm & ->)|(b' & Hb' & ->)]].
    - discriminate.
    - injection Hrecs as <-. by apply elem_of_matchedOf in Hb as [Hb _].
    - injection Hrecs as <-. by apply list_elem_of_singleton in Hb as ->. }
  unfold Matcher.dbBookingsOf in Hin.
  apply elem_of_List_filter in Hin as [Hin Hp].
  by apply bool_decide_eq_true in Hp.
Qed.

Lemma only_booking_com_bookings_are_reconciled_witness :
  Matcher.missingInCsvRow Examples.b2002
    ∈ Upload.pageRows (Examples.b1001loft :: Examples.dbBookings) [Examples.rowBDC1001]
  ∧ Matcher.dbRecords (Matcher.missingInCsvRow Examples.b2002) = Some [Examples.b2002]
  ∧ Examples.b2002 ∈ [Examples.b2002]
  ∧ Examples.b2002 ∈ Examples.b1001loft :: Examples.dbBookings
  ∧ Matcher.platform Examples.b2002 = "Booking.com".
Proof.
  assert (Matcher.missingInCsvRow Examples.b2002
            ∈ Upload.pageRows (Examples.b1001loft :: Examples.dbBookings)
                [Examples.rowBDC1001]) as Hin.
  { vm_compute. do 2 apply list_elem_of_further. apply list_elem_of_here. }
  assert (Examples.b2002 ∈ [Examples.b2002]) as Hb by apply list_elem_of_here.
  split_and!; [exact Hin | reflexivity | exact Hb | |];
    apply (only_booking_com_bookings_are_reconciled _ _ _ _ _ Hin eq_refl Hb).
Defined.

(** X4: a row with status OK is the row of a ledger row that matches
    exactly one stored booking: it records that booking alone, is
    labelled with the display name of its property, carries the ledger
    net and, as its stored total, the booking's compared amount added
    to 0; and the test of the two amounts in double arithmetic,
    [Math.abs(total - net) > 0.01], does not hold, as it does not
    whenever the net is [NaN]. *)
Theorem ok_row_has_one_record_within_tolerance :
  ∀ (dbBookings : list Matcher.Booking) (csvRows : list Csv.Row)
    (r : Matcher.ReconciliationRow),
    r ∈ Matcher.rows dbBookings csvRows →
    Matcher.status r = Matcher.OK →
    ∃ csv b,
      csv ∈ csvRows ∧ b ∈ dbBookings
      ∧ Matcher.matchedOf dbBookings csv = [b]
      ∧ Matcher.dbRecords r = Some [b]
      ∧ Matcher.dbCount r = 1%nat
      ∧ Matcher.property r = displayName b
      ∧ Matcher.csvNet r = Some (Csv.net csv)
      ∧ Matcher.dbTotal r = Some (storedAmount b)
      ∧ moreThanACentApart (storedAmount b) (Csv.net csv) = false.
Proof.
  intros dbBookings csvRows r Hr Hok.
  destruct (ok_row_shape _ _ _ Hr Hok) as (csv & b & Hc & Hb & Hm & -> & Hle).
  destruct (matchedRow_single csv b) as (Hp & Ht & Hn & Hrecs & Hcount).
  exists csv, b. by split_and!.
Qed.

Lemma ok_row_has_one_record_within_tolerance_witness :
  Matcher.matchedRow Examples.row1001 [Examples.b1001]
    ∈ Matcher.rows Examples.dbBookings Examples.csvRows
  ∧ Matcher.status (Matcher.matchedRow Examples.row1001 [Examples.b1001]) = Matcher.OK
  ∧ ∃ csv b,
      csv ∈ Examples.csvRows ∧ b ∈ Examples.dbBookings
      ∧ Matcher.matchedOf Examples.dbBookings csv = [b]
      ∧ Matcher.dbRecords (Matcher.matchedRow Examples.row1001 [Examples.b1001])
        = Some [b]
      ∧ Matcher.dbCount (Matcher.matchedRow Examples.row1001 [Examples.b1001]) = 1%nat
      ∧ Matcher.property (Matcher.matchedRow Examples.row1001 [Examples.b1001])
        = displayName b
      ∧ Matcher.csvNet (Matcher.matchedRow Examples.row1001 [Examples.b1001])
        = Some (Csv.net csv)
      ∧ Matcher.dbTotal (Matcher.matchedRow Examples.row1001 [Examples.b1001])
        = Some (storedAmount b)
      ∧ moreThanACentApart (storedAmount b) (Csv.net csv) = false.
Proof.
  assert (Matcher.matchedRow Examples.row1001 [Examples.b1001]
            ∈ Matcher.rows Examples.dbBookings Examples.csvRows) as Hin.
  { vm_compute. apply list_elem_of_here. }
  assert (Matcher.status (Matcher.matchedRow Examples.row1001 [Examples.b1001])
          = Matcher.OK) as Hok by (vm_compute; reflexivity).
  split_and!; [exact Hin | exact Hok |].
  exact (ok_row_has_one_record_within_tolerance _ _ _ Hin Hok).
Defined.

(** ** The groups of the dictionary *)

(** X6: the aggregation raises exactly when some row carries a label
    every plain object inherits, and otherwise returns the dictionary;
    the dictionary then has a group under a label exactly when some row
    carries the label; a group is never empty and holds exactly the
    rows carrying its label. *)
Theorem groups_are_the_labels_in_use :
  ∀ (rs : list Matcher.ReconciliationRow),
    (inheritedLabel rs ↔ Matcher.grouped rs = Js.Throws "TypeError")
    ∧ (¬ inheritedLabel rs ↔ ∃ m, Matcher.grouped rs = Js.Returns m)
    ∧ ∀ m, Matcher.grouped rs = Js.Returns m →
        ∀ k, (m !! k = None ↔ ∀ r, r ∈ rs → Matcher.property r ≠ k)
             ∧ (k ∈ Js.objectPrototypeKeys → m !! k = None)
             ∧ (∀ g, m !! k = Some g →
                  Matcher.Group.rows g ≠ []
                  ∧ ∀ r, r ∈ Matcher.Group.rows g ↔ r ∈ rs ∧ Matcher.property r = k).
Proof.
  intros rs. split_and!.
  - symmetry. apply grouped_Throws.
  - split.
    + intros Hno. exists (groupedOwn rs). by apply grouped_Returns.
    + by intros [m [Hno _]%grouped_Returns].
  - intros m [Hno ->]%grouped_Returns k.
    assert (groupedOwn rs !! k = None ↔ ∀ r, r ∈ rs → Matcher.property r ≠ k) as Hnone.
    { rewrite groupedOwn_lookup. destruct (rowsOf k rs) as [|r l] eqn:Hl.
      - split; [|done]. intros _ r Hr Hk.
        assert (r ∈ rowsOf k rs) as Hin by by apply elem_of_rowsOf.
        rewrite Hl in Hin. by apply elem_of_nil in Hin.
      - split; [done|]. intros Hnone. exfalso.
        assert (r ∈ rowsOf k rs) as Hin by (rewrite Hl; left).
        apply elem_of_rowsOf in Hin as [Hin Hk]. by apply (Hnone r). }
    split_and!; [exact Hnone | |].
    + intros Hk. apply Hnone. intros r Hr Hp. apply Hno. exists r. by rewrite Hp.
    + intros g Hg. pose proof Hg as Hg'. rewrite groupedOwn_lookup in Hg'.
      apply groupedOwn_Some in Hg as (Hrows & _). rewrite Hrows.
      split; [|intros r; apply elem_of_rowsOf].
      by destruct (rowsOf k rs).
Qed.

(** ** The ledger upload *)

Section UploadFacts.
Import Upload.

Context (trim : string → string) (Number : option string → float).

Lemma step_fold (data : list RawRow) (acc : list Csv.Row) :
  fold_left (step trim Number) data acc
  = acc ++ omap (λ r, uploadedRow trim Number r <$> Js.truthy (referenceNumber r)) data.
Proof.
  revert acc. induction data as [|r data IH]; intros acc; cbn [fold_left].
  - simpl. by rewrite app_nil_r.
  - rewrite IH. unfold step. simpl.
    destruct (Js.truthy (referenceNumber r)) as [ref|]; simpl; [|done].
    by rewrite <-app_assoc.
Qed.

Lemma handleCsvUpload_omap (data : list RawRow) :
  handleCsvUpload trim Number data
  = omap (λ r, uploadedRow trim Number r <$> Js.truthy (referenceNumber r)) data.
Proof. unfold handleCsvUpload. by rewrite step_fold. Qed.

Lemma truthy_Some_iff (x : option string) (s : string) :
  Js.truthy x = Some s ↔ x = Some s ∧ s ≠ "".
Proof.
  unfold Js.truthy. destruct x as [t|]; [|split; [done|by intros [? _]]].
  destruct (decide (t = "")) as [->|Hne]; split.
  - done.
  - by intros [[= <-] ?].
  - by intros [= <-].
  - by intros [[= <-] _].
Qed.

Lemma elem_of_handleCsvUpload (data : list RawRow) (csv : Csv.Row) :
  csv ∈ handleCsvUpload trim Number data
  ↔ ∃ raw ref, raw ∈ data ∧ referenceNumber raw = Some ref ∧ ref ≠ ""
               ∧ csv = uploadedRow trim Number raw ref.
Proof.
  rewrite handleCsvUpload_omap, list_elem_of_omap. split.
  - intros (raw & Hraw & Hcsv).
    destruct (Js.truthy (referenceNumber raw)) as [ref|] eqn:Href; [|done].
    apply truthy_Some_iff in Href as [Href Hne]. injection Hcsv as <-.
    by exists raw, ref.
  - intros (raw & ref & Hraw & Href & Hne & ->). exists raw. split; [done|].
    assert (Js.truthy (referenceNumber raw) = Some ref) as ->
      by by apply truthy_Some_iff.
    done.
Qed.

Lemma net_handleCsvUpload (data : list RawRow) :
  map Csv.net (handleCsvUpload trim Number data)
  = map (λ r, Number (Net r)) (List.filter referenced data).
Proof.
  rewrite handleCsvUpload_omap.
  induction data as [|r data IH]; [done|]. simpl in *.
  unfold referenced at 1.
  destruct (Js.truthy (referenceNumber r)) as [ref|]; simpl; [f_equal|]; exact IH.
Qed.

(** The ledger nets carried by the output are those of the ledger, in
    order. *)
Lemma csvNet_rows (dbBookings : list Matcher.Booking) (csvRows : list Csv.Row) :
  omap Matcher.csvNet (Matcher.rows dbBookings csvRows) = map Csv.net csvRows.
Proof.
  rewrite rows_unfold, omap_app.
  assert (∀ l : list Matcher.Booking,
            omap Matcher.csvNet (map Matcher.missingInCsvRow l) = []) as ->.
  { induction l as [|b l IH]; [done|]. exact IH. }
  rewrite app_nil_r. induction csvRows as [|csv csvRows IH]; [done|].
  cbn [map]. rewrite <-IH. unfold Matcher.csvRowResult at 1.
  by destruct (Matcher.matchedOf dbBookings csv).
Qed.

End UploadFacts.

(** X8: the upload keeps exactly the lines that have a non-empty
    reference number, in order, and builds the row of each from the
    trimmed reference, the first non-empty guest column and the
    converted Net column, [NaN] when it cannot be read; so the ledger
    nets on the rows the page then shows are, in order, the converted
    Net column of the lines with a reference number, whatever bookings
    were loaded. *)
Theorem uploaded_rows_are_the_referenced_lines :
  ∀ (trim : string → string) (Number : option string → float)
    (data : list Upload.RawRow),
    (∀ csv, csv ∈ Upload.handleCsvUpload trim Number data
            ↔ ∃ raw ref, raw ∈ data ∧ Upload.referenceNumber raw = Some ref
                         ∧ ref ≠ "" ∧ csv = uploadedRow trim Number raw ref)
    ∧ map Csv.net (Upload.handleCsvUpload trim Number data)
      = map (λ r, Number (Upload.Net r)) (List.filter referenced data)
    ∧ ∀ allBookings : list Matcher.Booking,
        omap Matcher.csvNet
          (Upload.pageRows allBookings (Upload.handleCsvUpload trim Number data))
        = map (λ r, Number (Upload.Net r)) (List.filter referenced data).
Proof.
  intros trim Number data. split_and!.
  - apply elem_of_handleCsvUpload.
  - apply net_handleCsvUpload.
  - intros allBookings. unfold Upload.pageRows.
    by rewrite csvNet_rows, net_handleCsvUpload.
Qed.

(** X9: a line whose reference number is not empty but trims to the
    empty string is kept by the upload with the empty reference, and
    the matcher then matches it with every stored booking that has a
    reservation identifier. *)
Theorem blank_reference_matches_every_referenced_booking :
  ∀ (trim : string → string) (Number : option string → float)
    (data : list Upload.RawRow) (raw : Upload.RawRow) (ref : string),
    raw ∈ data → Upload.referenceNumber raw = Some ref → ref ≠ "" → trim ref = "" →
    uploadedRow trim Number raw ref ∈ Upload.handleCsvUpload trim Number data
    ∧ Csv.reference (uploadedRow trim Number raw ref) = ""
    ∧ ∀ dbBookings : list Matcher.Booking,
        Matcher.matchedOf dbBookings (uploadedRow trim Number raw ref)
        = List.filter (λ b, bool_decide (is_Some (Matcher.reservationId b))) dbBookings.
Proof.
  intros trim Number data raw ref Hraw Href Hne Hblank. split_and!.
  - apply elem_of_handleCsvUpload. by exists raw, ref.
  - exact Hblank.
  - intros dbBookings. unfold Matcher.matchedOf.
    induction dbBookings as [|b l IH]; [done|]. cbn [List.filter].
    rewrite IH. unfold Matcher.matches at 1. cbn [Csv.reference uploadedRow].
    rewrite Hblank. destruct (Matcher.reservationId b) as [rid|]; simpl.
    + by rewrite includes_empty.
    + done.
Qed.

Lemma blank_reference_matches_every_referenced_booking_witness :
  Upload.mkRawRow (Some " ") None (Some "Zed") (Some "10") ∈ Samples.rawRows
  ∧ " " ≠ "" ∧ Samples.trimBlank " " = ""
  ∧ Matcher.matchedOf Examples.dbBookings
      (uploadedRow Samples.trimBlank (λ _, 0%float)
         (Upload.mkRawRow (Some " ") None (Some "Zed") (Some "10")) " ")
    = Examples.dbBookings.
Proof.
  assert (Upload.mkRawRow (Some " ") None (Some "Zed") (Some "10") ∈ Samples.rawRows)
    as Hin by (do 2 apply list_elem_of_further; apply list_elem_of_here).
  assert (" " ≠ "") as Hne by discriminate.
  split_and!; [exact Hin | exact Hne | reflexivity |].
  destruct (blank_reference_matches_every_referenced_booking
              Samples.trimBlank (λ _, 0%float) Samples.rawRows _ " " Hin eq_refl Hne eq_refl)
    as (_ & _ & ->).
  vm_compute. reflexivity.
Defined.

(** ** The query of the income summary *)

Section IncomeQueryFacts.
Import Income IncomeQuery.

Lemma given_Some (trim : string → string) (s : string) :
  s ≠ "" → trim s ≠ "" → given trim (Some s) = Some s.
Proof.
  intros Hs Ht. unfold given. rewrite truthy_Some by done.
  by rewrite decide_False.
Qed.

Lemma pathIs_Some (w : string) (actual : option string) :
  pathIs (Some w) actual = true ↔ actual = Some w.
Proof. apply bool_decide_eq_true. Qed.

Lemma selects_inv (q : Query) (d : Model.IBooking) :
  selects q d = true →
  BookingsApi.active d = true
  ∧ pathIs (propertyId q) (Model.propertyId d) = true
  ∧ pathIs (platform q) (Model.platform d) = true
  ∧ pathIs (paymentMethod q) (Model.paymentMethod d) = true
  ∧ within (paymentDate q) (Model.paymentDate d) = true.
Proof.
  unfold selects. rewrite !andb_true_iff. tauto.
Qed.

(** Under the parameter of a bucket the query selects records of that
    bucket only. *)
Lemma selected_inBucket (trim : string → string) (pid : option string)
    (window : option (Z * Z)) (k : Bucket) (d : Model.IBooking) :
  trim (platformParamOf k) ≠ "" →
  selects (query trim pid (Some (platformParamOf k)) window) d = true →
  inBucket k d = true.
Proof.
  intros Ht Hsel. apply selects_inv in Hsel as (_ & _ & Hp & Hm & _).
  unfold query in Hp, Hm. rewrite given_Some in Hp, Hm by (done || by destruct k).
  destruct k; simpl in Hp, Hm; apply pathIs_Some in Hp;
    try apply pathIs_Some in Hm; unfold inBucket, platformIs, methodIs;
    rewrite ?Hp, ?Hm; reflexivity.
Qed.

Lemma sumOver_all {A : Type} (p : A → bool) (f : A → Qc) (l : list A) :
  (∀ x, x ∈ l → p x = true) → sumOver p f l = sumQc (map f l).
Proof. intros Hall. unfold sumOver. by rewrite filter_all. Qed.

Lemma sumOver_none {A : Type} (p : A → bool) (f : A → Qc) (l : list A) :
  (∀ x, x ∈ l → p x = false) → sumOver p f l = 0%Qc.
Proof.
  intros Hnone. unfold sumOver.
  induction l as [|x l IH]; [done|]. simpl.
  rewrite (Hnone x) by left. apply IH. intros y Hy. apply Hnone. by right.
Qed.

End IncomeQueryFacts.

(** X10: when the summary is asked for one bucket ([platform] set to
    Booking.com, Agoda, Airbnb, Expedia, directBank or directCash, and
    not blank under [trim]), whatever the property and the dates, the
    totals of the selected records put everything in that bucket: the
    bucket equals [netTotal] and each of the other five is zero. *)
Theorem platform_filter_fills_one_bucket :
  ∀ (trim : string → string) (propertyIdParam : option string)
    (window : option (Z * Z)) (k : Income.Bucket) (records : list Model.IBooking),
    trim (platformParamOf k) ≠ "" →
    (∀ d, d ∈ records →
          IncomeQuery.selects
            (IncomeQuery.query trim propertyIdParam (Some (platformParamOf k)) window) d
          = true) →
    Income.bucket k (Income.totals records) = Income.netTotal (Income.totals records)
    ∧ ∀ k', k' ≠ k → Income.bucket k' (Income.totals records) = 0%Qc.
Proof.
  intros trim pid window k records Ht Hsel.
  assert (∀ d, d ∈ records → Income.inBucket k d = true) as Hin.
  { intros d Hd. eapply selected_inBucket; [done|]. by apply Hsel. }
  split.
  - rewrite totals_bucket, totals_netTotal. by apply sumOver_all.
  - intros k' Hk'. rewrite totals_bucket. apply sumOver_none.
    intros d Hd. destruct (Income.inBucket k' d) eqn:Hk; [|done].
    destruct Hk'. eapply one_bucket_at_most; [done|]. by apply Hin.
Qed.

Lemma platform_filter_fills_one_bucket_witness :
  Samples.trimBlank (platformParamOf Income.DirectBank) ≠ ""
  ∧ (∀ d, d ∈ [Examples.directBankDoc] →
          IncomeQuery.selects
            (IncomeQuery.query Samples.trimBlank (Some Examples.p1)
               (Some (platformParamOf Income.DirectBank))
               (Some (Samples.startOfDay, Samples.endOfDay))) d
          = true)
  ∧ Income.directBank (Income.totals [Examples.directBankDoc]) = Q2Qc 80
  ∧ Income.netTotal (Income.totals [Examples.directBankDoc]) = Q2Qc 80.
Proof.
  assert (Samples.trimBlank (platformParamOf Income.DirectBank) ≠ "") as Ht
    by (vm_compute; discriminate).
  assert (∀ d, d ∈ [Examples.directBankDoc] →
               IncomeQuery.selects
                 (IncomeQuery.query Samples.trimBlank (Some Examples.p1)
                    (Some (platformParamOf Income.DirectBank))
                    (Some (Samples.startOfDay, Samples.endOfDay))) d
               = true) as Hsel.
  { intros d ->%list_elem_of_singleton. vm_compute. reflexivity. }
  split_and!; [exact Ht | exact Hsel | vm_compute; reflexivity |].
  destruct (platform_filter_fills_one_bucket Samples.trimBlank (Some Examples.p1)
              (Some (Samples.startOfDay, Samples.endOfDay)) Income.DirectBank
              [Examples.directBankDoc] Ht Hsel) as [<- _].
  vm_compute. reflexivity.
Defined.

(** ** The booking handlers on the store *)

Section RouteFacts.
Import BookingsApi BookingsRoute.

Implicit Types (store : gmap string Model.IBooking) (d data : Model.IBooking).
Implicit Types (id : string).

Lemma indexHas_spec store (rid : option string) :
  indexHas store rid = true
  ↔ ∃ id d, store !! id = Some d ∧ Model.reservationId d = rid.
Proof.
  unfold indexHas. rewrite existsb_exists. split.
  - intros ([id d] & Hin & Hp). simpl in Hp. apply bool_decide_eq_true in Hp.
    exists id, d. split; [|done]. by apply elem_of_map_to_list, list_elem_of_In.
  - intros (id & d & Hd & Hr). exists (id, d). split.
    + by apply list_elem_of_In, elem_of_map_to_list.
    + simpl. by apply bool_decide_eq_true.
Qed.


Lemma findByIdAndUpdate_Some store id d (update : Model.IBooking → Model.IBooking) :
  store !! id = Some d →
  findByIdAndUpdate store id true update
  = Js.Returns (BookingBody id (update d), <[id := update d]> store).
Proof. intros Hd. unfold findByIdAndUpdate. by rewrite Hd. Qed.

(** What an update leaves in the store, document by document: a call
    that raises leaves the store as it was. *)
Lemma answer_lookup store id (castable : bool)
    (update : Model.IBooking → Model.IBooking) (failure : string) id' :
  (answer (findByIdAndUpdate store id castable update) store failure).2 !! id'
  = if decide (Some id = Some id')
    then (λ d, if castable then update d else d) <$> store !! id'
    else store !! id'.
Proof.
  unfold findByIdAndUpdate.
  destruct (decide (Some id = Some id')) as [[= <-]|Hne].
  - destruct (store !! id) as [d|] eqn:Hd.
    + destruct castable; cbn [answer snd]; [by rewrite lookup_insert_eq | by rewrite Hd].
    + destruct (Js.isObjectId id && castable); cbn [answer snd]; by rewrite Hd.
  - destruct (store !! id) as [d|] eqn:Hd.
    + destruct castable; cbn [answer snd]; [|done].
      rewrite lookup_insert_ne; [done|]. by intros ->.
    + by destruct (Js.isObjectId id && castable).
Qed.

(** What [PATCH] leaves in the store, document by document. *)
Lemma PATCH_lookup store (bookingId : option string) (action : string)
    (roomId : option string) id :
  (PATCH store bookingId action roomId).2 !! id
  = if decide (Js.truthy bookingId = Some id)
    then patched action roomId <$> store !! id
    else store !! id.
Proof.
  unfold PATCH, patched.
  destruct (Js.truthy bookingId) as [id0|]; [|by rewrite decide_False].
  destruct (decide (action = "assign")); [apply answer_lookup|].
  destruct (decide (action = "checkin")); [apply answer_lookup|].
  destruct (decide (action = "checkout")); [apply answer_lookup|].
  cbn [answer snd]. case_decide; [|done]. by destruct (store !! id).
Qed.

Lemma withRoomAndStatus_same d : withRoomAndStatus d (Model.roomId d) (Model.status d) = d.
Proof. by destruct d. Qed.

Lemma patched_shape (action : string) (roomId : option string) d :
  ∃ r s, patched action roomId d = withRoomAndStatus d r s.
Proof.
  unfold patched. repeat case_decide.
  - destruct (Js.castObjectId roomId).
    + by exists (match roomId with Some _ => roomId | None => Model.roomId d end),
        (Model.status d).
    + exists (Model.roomId d), (Model.status d). by rewrite withRoomAndStatus_same.
  - by exists (Model.roomId d), (Some "checked_in").
  - by exists (Model.roomId d), (Some "checked_out").
  - exists (Model.roomId d), (Model.status d). by rewrite withRoomAndStatus_same.
Qed.

End RouteFacts.



Section HandlerFacts.
Import BookingsApi BookingsRoute.

Implicit Types (store : gmap string Model.IBooking) (d data : Model.IBooking).
Implicit Types (id oid : string).

Lemma statusInvariant_insert store id d :
  statusInvariant store → Model.statusDeclared d → statusInvariant (<[id := d]> store).
Proof.
  intros Hinv Hd id' d' Hl. destruct (decide (id = id')) as [<-|Hne].
  - rewrite lookup_insert_eq in Hl. by injection Hl as <-.
  - rewrite lookup_insert_ne in Hl by done. by eapply Hinv.
Qed.

Lemma inEnum_Some (l : list string) (s : string) :
  Model.inEnum l (Some s) = true ↔ s ∈ l.
Proof. apply bool_decide_eq_true. Qed.

Lemma validate_status d : Model.validate d = true → Model.inEnum Model.statusEnum (Model.status d) = true.
Proof. unfold Model.validate. rewrite !andb_true_iff. tauto. Qed.

(** The three outcomes of [POST]. *)
Lemma POST_cases store data (now rnd : N) oid :
  let rid := reservationIdFor data now rnd in
  let doc := newDocument data rid in
  (POST store data now rnd oid
   = (json (ErrorBody "Reservation ID already exists") 409, store)
   ∧ findOneActive store rid = true)
  ∨ (POST store data now rnd oid
     = (json (ErrorBody "Failed to create booking") 500, store)
     ∧ findOneActive store rid = false
     ∧ (Model.validate doc = false ∨ indexHas store (Some rid) = true
        ∨ is_Some (store !! oid)))
  ∨ (POST store data now rnd oid = (json (BookingBody oid doc) 200, <[oid := doc]> store)
     ∧ findOneActive store rid = false
     ∧ Model.validate doc = true ∧ indexHas store (Some rid) = false
     ∧ store !! oid = None).
Proof.
  intros rid doc. unfold POST. fold rid. fold doc.
  destruct (findOneActive store rid) eqn:Hf; [by left|]. right.
  unfold Booking_create. change (Model.applyDefaults doc) with doc.
  change (Model.reservationId doc) with (Some rid).
  destruct (Model.validate doc) eqn:Hv; simpl; [|left; by eauto].
  destruct (indexHas store (Some rid)) eqn:Hi; [left; by eauto|].
  destruct (store !! oid) eqn:Ho; [left; by eauto 10|].
  right. done.
Qed.

(** What [DELETE] leaves in the store, document by document. *)
Lemma DELETE_lookup store (permanent : bool) (bookingId : option string) id :
  (DELETE store permanent bookingId).2 !! id
  = if decide (Js.truthy bookingId = Some id)
    then (if permanent then None else setStatus "cancel" <$> store !! id)
    else store !! id.
Proof.
  unfold DELETE.
  destruct (Js.truthy bookingId) as [id0|]; [|by rewrite decide_False].
  destruct permanent.
  - destruct (decide (Some id0 = Some id)) as [[= ->]|Hne].
    + destruct (store !! id) eqn:Hd; cbn [snd]; [by rewrite lookup_delete_eq|].
      by destruct (Js.isObjectId id).
    + destruct (store !! id0) eqn:Hd; cbn [snd]; [|by destruct (Js.isObjectId id0)].
      rewrite lookup_delete_ne; [done|]. by intros ->.
  - pose proof (answer_lookup store id0 true (setStatus "cancel")
                  "Failed to delete booking" id) as Hl.
    destruct (answer _ store "Failed to delete booking") as [b s].
    cbn [snd] in *. rewrite Hl. by case_decide.
Qed.

End HandlerFacts.

(** X13: assigning a room, given as the text of an object id, to a
    stored booking answers with the booking carrying the room and the
    status it had; the status invariant of the store is kept; the
    booking is on no day's list of unassigned guests afterwards, and
    the range and single-date listings select it exactly as before.  A
    room that is not the text of an object id, the empty one included,
    is answered with HTTP 500, and the store is unchanged. *)
Theorem assign_sets_room_only :
  ∀ (store : gmap string Model.IBooking) (id : string) (d : Model.IBooking)
    (r : string),
    id ≠ "" → store !! id = Some d → Js.isObjectId r = true →
    BookingsApi.PATCH store (Some id) "assign" (Some r)
    = (BookingsApi.json
         (BookingsApi.BookingBody id (withRoomAndStatus d (Some r) (Model.status d))) 200,
       <[id := withRoomAndStatus d (Some r) (Model.status d)]> store)
    ∧ (BookingsApi.statusInvariant store →
       BookingsApi.statusInvariant
         (BookingsApi.PATCH store (Some id) "assign" (Some r)).2)
    ∧ (∀ (lo hi : Z) (propertyId : option string),
        BookingsRoute.unassignedQuery lo hi
          (withRoomAndStatus d (Some r) (Model.status d)) = false
        ∧ BookingsRoute.rangeQuery lo hi propertyId
            (withRoomAndStatus d (Some r) (Model.status d))
          = BookingsRoute.rangeQuery lo hi propertyId d
        ∧ BookingsRoute.dateQuery lo hi propertyId
            (withRoomAndStatus d (Some r) (Model.status d))
          = BookingsRoute.dateQuery lo hi propertyId d)
    ∧ (∀ r', Js.isObjectId r' = false →
         BookingsApi.PATCH store (Some id) "assign" (Some r')
         = (BookingsApi.json (BookingsApi.ErrorBody "Failed to update booking") 500,
            store)).
Proof.
  intros store id d r Hid Hd Hr.
  assert (BookingsApi.PATCH store (Some id) "assign" (Some r)
          = (BookingsApi.json
               (BookingsApi.BookingBody id
                  (withRoomAndStatus d (Some r) (Model.status d))) 200,
             <[id := withRoomAndStatus d (Some r) (Model.status d)]> store)) as Heq.
  { unfold BookingsApi.PATCH. rewrite truthy_Some by done.
    rewrite decide_True by done. cbn [Js.castObjectId]. rewrite Hr.
    by rewrite (findByIdAndUpdate_Some _ _ _ _ Hd). }
  split_and!.
  - exact Heq.
  - intros Hinv. rewrite Heq. apply statusInvariant_insert; [done|].
    destruct (Hinv id d Hd) as (s & Hs & Hin). by exists s.
  - intros lo hi propertyId. split_and!; reflexivity.
  - intros r' Hr'. unfold BookingsApi.PATCH. rewrite truthy_Some by done.
    rewrite decide_True by done. unfold BookingsApi.findByIdAndUpdate.
    rewrite Hd. cbn [Js.castObjectId]. by rewrite Hr'.
Qed.

Lemma assign_sets_room_only_witness :
  Examples.oid1 ≠ "" ∧ Examples.store !! Examples.oid1 = Some Examples.directBankDoc
  ∧ Js.isObjectId Examples.room7 = true
  ∧ (BookingsApi.PATCH Examples.store (Some Examples.oid1) "assign" (Some Examples.room7)).1
    = BookingsApi.json
        (BookingsApi.BookingBody Examples.oid1
           (withRoomAndStatus Examples.directBankDoc (Some Examples.room7) (Some "booked"))) 200.
Proof.
  assert (Examples.oid1 ≠ "") as Hid by discriminate.
  assert (Examples.store !! Examples.oid1 = Some Examples.directBankDoc) as Hd
    by (vm_compute; reflexivity).
  assert (Js.isObjectId Examples.room7 = true) as Hr by (vm_compute; reflexivity).
  split_and!; [exact Hid | exact Hd | exact Hr |].
  destruct (assign_sets_room_only Examples.store Examples.oid1 Examples.directBankDoc
              Examples.room7 Hid Hd Hr) as [-> _].
  reflexivity.
Defined.

(** X14: a soft delete of a stored booking answers with the booking
    under status cancel and keeps the document; the status invariant
    of the store is kept; afterwards none of the listings (unassigned
    guests, check-in range, single date, occupancy, checkout range)
    and no income query selects the booking, while the unique index
    still holds its reference. *)
Theorem soft_delete_hides_booking :
  ∀ (store : gmap string Model.IBooking) (id : string) (d : Model.IBooking),
    id ≠ "" → store !! id = Some d →
    BookingsRoute.DELETE store false (Some id)
    = (BookingsRoute.Plain
         (BookingsApi.json
            (BookingsApi.BookingBody id (withRoomAndStatus d (Model.roomId d) (Some "cancel")))
            200),
       <[id := withRoomAndStatus d (Model.roomId d) (Some "cancel")]> store)
    ∧ (BookingsApi.statusInvariant store →
       BookingsApi.statusInvariant (BookingsRoute.DELETE store false (Some id)).2)
    ∧ (∀ (lo hi : Z) (propertyId : option string) (q : IncomeQuery.Query),
         BookingsRoute.unassignedQuery lo hi
           (withRoomAndStatus d (Model.roomId d) (Some "cancel")) = false
         ∧ BookingsRoute.rangeQuery lo hi propertyId
             (withRoomAndStatus d (Model.roomId d) (Some "cancel")) = false
         ∧ BookingsRoute.dateQuery lo hi propertyId
             (withRoomAndStatus d (Model.roomId d) (Some "cancel")) = false
         ∧ BookingsRoute.occupancyQuery lo hi
             (withRoomAndStatus d (Model.roomId d) (Some "cancel")) = false
         ∧ checkoutRangeQuery lo hi
             (withRoomAndStatus d (Model.roomId d) (Some "cancel")) = false
         ∧ IncomeQuery.selects q
             (withRoomAndStatus d (Model.roomId d) (Some "cancel")) = false)
    ∧ BookingsApi.indexHas (BookingsRoute.DELETE store false (Some id)).2
        (Model.reservationId d) = true.
Proof.
  intros store id d Hid Hd.
  assert (BookingsRoute.DELETE store false (Some id)
          = (BookingsRoute.Plain
               (BookingsApi.json
                  (BookingsApi.BookingBody id
                     (withRoomAndStatus d (Model.roomId d) (Some "cancel"))) 200),
             <[id := withRoomAndStatus d (Model.roomId d) (Some "cancel")]> store))
    as Heq.
  { unfold BookingsRoute.DELETE. rewrite truthy_Some by done.
    by rewrite (findByIdAndUpdate_Some _ _ _ _ Hd). }
  split_and!.
  - exact Heq.
  - intros Hinv. rewrite Heq. apply statusInvariant_insert; [done|].
    exists "cancel". split; [done|]. unfold Model.statusEnum.
    do 3 apply list_elem_of_further. apply list_elem_of_here.
  - intros lo hi propertyId q. split_and!; try reflexivity.
    unfold BookingsRoute.unassignedQuery.
    by rewrite andb_false_r.
  - rewrite Heq. apply indexHas_spec.
    exists id, (withRoomAndStatus d (Model.roomId d) (Some "cancel")).
    split; [apply lookup_insert_eq|done].
Qed.

Lemma soft_delete_hides_booking_witness :
  Examples.oid2 ≠ "" ∧ Examples.store !! Examples.oid2 = Some Examples.agodaDoc
  ∧ (BookingsRoute.DELETE Examples.store false (Some Examples.oid2)).2 !! Examples.oid2
    = Some (withRoomAndStatus Examples.agodaDoc None (Some "cancel")).
Proof.
  assert (Examples.oid2 ≠ "") as Hid by discriminate.
  assert (Examples.store !! Examples.oid2 = Some Examples.agodaDoc) as Hd
    by (vm_compute; reflexivity).
  split_and!; [exact Hid | exact Hd |].
  destruct (soft_delete_hides_booking Examples.store Examples.oid2 Examples.agodaDoc Hid Hd)
    as [-> _].
  apply lookup_insert_eq.
Defined.


(** X16: a permanent delete of the booking a successful [POST] has
    just created answers with success and gives back the store as it
    was before the [POST]. *)
Theorem permanent_delete_undoes_create :
  ∀ (store store' : gmap string Model.IBooking) (data d : Model.IBooking)
    (now rnd : N) (oid : string),
    oid ≠ "" →
    BookingsApi.POST store data now rnd oid
    = (BookingsApi.json (BookingsApi.BookingBody oid d) 200, store') →
    store' !! oid = Some d
    ∧ BookingsRoute.DELETE store' true (Some oid)
      = (BookingsRoute.Success "Booking permanently deleted", store).
Proof.
  intros store store' data d now rnd oid Hoid Hpost.
  destruct (POST_cases store data now rnd oid)
    as [[Heq _]|[[Heq _]|(Heq & _ & _ & _ & Hfresh)]];
    rewrite Heq in Hpost; [discriminate.. |].
  injection Hpost as <- <-. split; [apply lookup_insert_eq|].
  unfold BookingsRoute.DELETE. rewrite truthy_Some by done.
  rewrite lookup_insert_eq. by rewrite delete_insert_id.
Qed.

Lemma permanent_delete_undoes_create_witness :
  Examples.oid9 ≠ ""
  ∧ BookingsRoute.DELETE
      (BookingsApi.POST Examples.store Examples.newAgoda 1700000000000 7 Examples.oid9).2
      true (Some Examples.oid9)
    = (BookingsRoute.Success "Booking permanently deleted", Examples.store).
Proof.
  assert (Examples.oid9 ≠ "") as Hoid by discriminate.
  split; [exact Hoid|].
  assert (BookingsApi.POST Examples.store Examples.newAgoda 1700000000000 7 Examples.oid9
          = (BookingsApi.json
               (BookingsApi.BookingBody Examples.oid9
                  (BookingsApi.newDocument Examples.newAgoda
                     (BookingsApi.reservationIdFor Examples.newAgoda 1700000000000 7)))
               200,
             <[Examples.oid9 := BookingsApi.newDocument Examples.newAgoda
                           (BookingsApi.reservationIdFor Examples.newAgoda
                              1700000000000 7)]> Examples.store)) as Hpost
    by (vm_compute; reflexivity).
  rewrite Hpost.
  exact (proj2 (permanent_delete_undoes_create _ _ _ _ _ _ _ Hoid Hpost)).
Defined.

(** X17: when some stored booking, cancelled or not, carries the
    reference of the request, [POST] creates nothing: it answers HTTP
    409 when a holder is not cancelled and HTTP 500 when every holder
    is cancelled (the unique index of the schema rejects the
    insertion). *)
Theorem post_with_stored_reference_creates_nothing :
  ∀ (store : gmap string Model.IBooking) (data : Model.IBooking) (now rnd : N)
    (oid id : string) (d : Model.IBooking),
    store !! id = Some d →
    Model.reservationId d = Some (BookingsApi.reservationIdFor data now rnd) →
    (BookingsApi.POST store data now rnd oid).2 = store
    ∧ (Model.status d ≠ Some "cancel" →
       BookingsApi.POST store data now rnd oid
       = (BookingsApi.json (BookingsApi.ErrorBody "Reservation ID already exists") 409,
          store))
    ∧ ((∀ id' d', store !! id' = Some d' →
          Model.reservationId d' = Some (BookingsApi.reservationIdFor data now rnd) →
          Model.status d' = Some "cancel") →
       BookingsApi.POST store data now rnd oid
       = (BookingsApi.json (BookingsApi.ErrorBody "Failed to create booking") 500,
          store)).
Proof.
  intros store data now rnd oid id d Hd Hr.
  assert (BookingsApi.indexHas store
            (Some (BookingsApi.reservationIdFor data now rnd)) = true) as Hi
    by (apply indexHas_spec; by exists id, d).
  destruct (POST_cases store data now rnd oid)
    as [[Heq Hf]|[(Heq & Hf & _)|(Heq & _ & _ & Hi' & _)]];
    [| |congruence]; rewrite Heq.
  - split_and!; [done | done |].
    intros Hall. apply findOneActive_spec in Hf as (id' & d' & Hd' & Hr' & Hs').
    destruct Hs'. by eapply Hall.
  - split_and!; [done | | done].
    intros Hs.
    assert (BookingsApi.findOneActive store
              (BookingsApi.reservationIdFor data now rnd) = true) as Hf'
      by (apply findOneActive_spec; by exists id, d).
    congruence.
Qed.

Lemma post_with_stored_reference_creates_nothing_witness :
  (<[Examples.oid3 := Samples.cancelled]> Examples.store) !! Examples.oid3 = Some Samples.cancelled
  ∧ Model.reservationId Samples.cancelled
    = Some (BookingsApi.reservationIdFor Samples.cancelled 1700000000000 7)
  ∧ (BookingsApi.POST (<[Examples.oid3 := Samples.cancelled]> Examples.store)
       Samples.cancelled 1700000000000 7 Examples.oid9).2
    = <[Examples.oid3 := Samples.cancelled]> Examples.store.
Proof.
  assert ((<[Examples.oid3 := Samples.cancelled]> Examples.store) !! Examples.oid3
          = Some Samples.cancelled) as Hd by apply lookup_insert_eq.
  assert (Model.reservationId Samples.cancelled
          = Some (BookingsApi.reservationIdFor Samples.cancelled 1700000000000 7))
    as Hr by reflexivity.
  split_and!; [exact Hd | exact Hr |].
  exact (proj1 (post_with_stored_reference_creates_nothing _ _ _ _ Examples.oid9 _ _ Hd Hr)).
Defined.

(** X18: a cancelled booking can be checked in: after a soft delete,
    [PATCH] with action checkin answers with the booking under status
    checked_in, which the queries of the listings treat as not
    cancelled again. *)
Theorem check_in_revives_cancelled_booking :
  ∀ (store : gmap string Model.IBooking) (id : string) (d : Model.IBooking)
    (roomId : option string),
    id ≠ "" → store !! id = Some d →
    BookingsApi.PATCH (BookingsRoute.DELETE store false (Some id)).2 (Some id)
      "checkin" roomId
    = (BookingsApi.json
         (BookingsApi.BookingBody id
            (withRoomAndStatus d (Model.roomId d) (Some "checked_in"))) 200,
       <[id := withRoomAndStatus d (Model.roomId d) (Some "checked_in")]> store)
    ∧ BookingsApi.active (withRoomAndStatus d (Model.roomId d) (Some "cancel")) = false
    ∧ BookingsApi.active (withRoomAndStatus d (Model.roomId d) (Some "checked_in"))
      = true.
Proof.
  intros store id d roomId Hid Hd. split_and!; [|reflexivity..].
  unfold BookingsRoute.DELETE. rewrite truthy_Some by done.
  rewrite (findByIdAndUpdate_Some _ _ _ _ Hd). cbn [BookingsApi.answer snd].
  unfold BookingsApi.PATCH. rewrite truthy_Some by done.
  rewrite decide_False by discriminate. rewrite decide_True by done.
  rewrite (findByIdAndUpdate_Some _ _ (BookingsApi.setStatus "cancel" d))
    by apply lookup_insert_eq.
  cbn [BookingsApi.answer]. by rewrite insert_insert_eq.
Qed.

Lemma check_in_revives_cancelled_booking_witness :
  Examples.oid1 ≠ "" ∧ Examples.store !! Examples.oid1 = Some Examples.directBankDoc
  ∧ (BookingsApi.PATCH (BookingsRoute.DELETE Examples.store false (Some Examples.oid1)).2
       (Some Examples.oid1) "checkin" None).2 !! Examples.oid1
    = Some (withRoomAndStatus Examples.directBankDoc None (Some "checked_in")).
Proof.
  assert (Examples.oid1 ≠ "") as Hid by discriminate.
  assert (Examples.store !! Examples.oid1 = Some Examples.directBankDoc) as Hd
    by (vm_compute; reflexivity).
  split_and!; [exact Hid | exact Hd |].
  destruct (check_in_revives_cancelled_booking Examples.store Examples.oid1
              Examples.directBankDoc None Hid Hd) as [-> _].
  apply lookup_insert_eq.
Defined.

(** X19: no handler makes two stored bookings share a reservation
    identifier: if the identifiers of the stored bookings are pairwise
    distinct, they still are after [POST], [PATCH] and [DELETE]. *)
Theorem handlers_keep_references_unique :
  ∀ store : gmap string Model.IBooking,
    uniqueReferences store →
    (∀ (data : Model.IBooking) (now rnd : N) (oid : string),
       uniqueReferences (BookingsApi.POST store data now rnd oid).2)
    ∧ (∀ (bookingId : option string) (action : string) (roomId : option string),
         uniqueReferences (BookingsApi.PATCH store bookingId action roomId).2)
    ∧ (∀ (permanent : bool) (bookingId : option string),
         uniqueReferences (BookingsRoute.DELETE store permanent bookingId).2).
Proof.
  intros store Huniq. split_and!.
  - intros data now rnd oid.
    destruct (POST_cases store data now rnd oid)
      as [[-> _]|[[-> _]|(-> & _ & _ & Hi & Hfresh)]]; [done..|].
    cbn [snd]. intros id1 id2 d1 d2 H1 H2 Hr.
    assert (∀ i e, store !! i = Some e →
                   Model.reservationId e
                   ≠ Some (BookingsApi.reservationIdFor data now rnd)) as Hother.
    { intros i e He Hre.
      assert (BookingsApi.indexHas store
                (Some (BookingsApi.reservationIdFor data now rnd)) = true) as Hi'
        by (apply indexHas_spec; by exists i, e).
      congruence. }
    apply lookup_insert_Some in H1 as [[<- <-]|[Hn1 H1]];
      apply lookup_insert_Some in H2 as [[<- <-]|[Hn2 H2]].
    + done.
    + destruct (Hother id2 d2 H2). by rewrite <-Hr.
    + destruct (Hother id1 d1 H1). by rewrite Hr.
    + by apply (Huniq id1 id2 d1 d2).
  - intros bookingId action roomId id1 id2 d1 d2. rewrite !PATCH_lookup.
    intros H1 H2 Hr.
    assert (∀ i d', (if decide (Js.truthy bookingId = Some i)
                     then patched action roomId <$> store !! i else store !! i)
                    = Some d' →
                    ∃ d0, store !! i = Some d0
                          ∧ Model.reservationId d' = Model.reservationId d0) as Hback.
    { intros i d' Hl. case_decide; [|by exists d'].
      destruct (store !! i) as [d0|]; [|done]. injection Hl as <-. exists d0.
      split; [done|]. by destruct (patched_shape action roomId d0) as (r & s & ->). }
    apply Hback in H1 as (e1 & H1 & Hr1). apply Hback in H2 as (e2 & H2 & Hr2).
    apply (Huniq id1 id2 e1 e2 H1 H2). congruence.
  - intros permanent bookingId id1 id2 d1 d2. rewrite !DELETE_lookup.
    intros H1 H2 Hr.
    assert (∀ i d', (if decide (Js.truthy bookingId = Some i)
                     then (if permanent then None
                           else BookingsApi.setStatus "cancel" <$> store !! i)
                     else store !! i)
                    = Some d' →
                    ∃ d0, store !! i = Some d0
                          ∧ Model.reservationId d' = Model.reservationId d0) as Hback.
    { intros i d' Hl. case_decide; [|by exists d'].
      destruct permanent; [done|].
      destruct (store !! i) as [d0|]; [|done]. injection Hl as <-. by exists d0. }
    apply Hback in H1 as (e1 & H1 & Hr1). apply Hback in H2 as (e2 & H2 & Hr2).
    apply (Huniq id1 id2 e1 e2 H1 H2). congruence.
Qed.

Lemma handlers_keep_references_unique_witness :
  uniqueReferences Examples.store
  ∧ uniqueReferences
      (BookingsApi.POST Examples.store Examples.newAgoda 1700000000000 7 Examples.oid9).2.
Proof.
  assert (uniqueReferences Examples.store) as Huniq.
  { intros id1 id2 d1 d2 H1 H2 Hr. unfold Examples.store in H1, H2.
    apply lookup_insert_Some in H1 as [[<- <-]|[Hn1 H1]];
      apply lookup_insert_Some in H2 as [[<- <-]|[Hn2 H2]].
    - done.
    - apply lookup_singleton_Some in H2 as [<- <-]. discriminate Hr.
    - apply lookup_singleton_Some in H1 as [<- <-]. discriminate Hr.
    - apply lookup_singleton_Some in H1 as [<- <-].
      by apply lookup_singleton_Some in H2 as [<- <-]. }
  split; [exact Huniq|].
  apply (handlers_keep_references_unique Examples.store Huniq).
Defined.

(** X20: [POST] changes no stored booking and removes none, writes at
    most the document under the fresh identifier, and keeps the status
    invariant of the store: a body whose status is not of the declared
    enumeration is not stored. *)
Theorem post_keeps_store_and_status_invariant :
  ∀ (store : gmap string Model.IBooking) (data : Model.IBooking) (now rnd : N)
    (oid : string),
    (∀ id d, store !! id = Some d →
             (BookingsApi.POST store data now rnd oid).2 !! id = Some d)
    ∧ (∀ id, id ≠ oid →
             (BookingsApi.POST store data now rnd oid).2 !! id = store !! id)
    ∧ (BookingsApi.statusInvariant store →
       BookingsApi.statusInvariant (BookingsApi.POST store data now rnd oid).2)
    ∧ (∀ s, Model.status data = Some s → s ≠ "" → s ∉ Model.statusEnum →
         (BookingsApi.POST store data now rnd oid).2 = store
         ∧ BookingsApi.code (BookingsApi.POST store data now rnd oid).1 ≠ 200%nat).
Proof.
  intros store data now rnd oid.
  destruct (POST_cases store data now rnd oid)
    as [[-> _]|[[-> _]|(-> & _ & Hv & _ & Hfresh)]].
  - split_and!; done.
  - split_and!; done.
  - cbn [fst snd]. split_and!.
    + intros id d Hd. rewrite lookup_insert_ne; [done|]. intros <-. congruence.
    + intros id Hne. by rewrite lookup_insert_ne.
    + intros Hinv. apply statusInvariant_insert; [done|].
      apply validate_status in Hv.
      eexists. split; [reflexivity|]. by apply inEnum_Some in Hv.
    + intros s Hs Hne Hnot. exfalso. apply validate_status in Hv.
      cbn [Model.status BookingsApi.newDocument] in Hv. rewrite Hs in Hv.
      simpl in Hv. rewrite decide_False in Hv by done.
      by apply inEnum_Some in Hv.
Qed.

(** ** The single-date listing *)

Section DateFacts.
Import BookingsRoute.

Lemma leb_cases (a b : Z) : ((a <=? b)%Z = true ∧ (a ≤ b)%Z) ∨ ((a <=? b)%Z = false ∧ (b < a)%Z).
Proof. destruct (Z.leb_spec a b); [left|right]; done. Qed.

End DateFacts.

(** X21: for a booking that does not check out before it checks in,
    the three clauses of the single-date query come to the third one:
    the booking is selected exactly when it is not cancelled, checks in
    by the end of the day, checks out at or after its start, and is of
    the property asked for; so the occupancy query selects the bookings
    the single-date query selects that have a room. *)
Theorem date_query_is_overlap :
  ∀ (lo hi : Z) (propertyId : option string) (d : Model.IBooking) (ci co : Z),
    Model.checkInDate d = Some ci → Model.checkOutDate d = Some co →
    (ci ≤ co)%Z →
    BookingsRoute.dateQuery lo hi propertyId d
    = BookingsApi.active d && ((ci <=? hi)%Z && (lo <=? co)%Z)
      && BookingsRoute.ofProperty propertyId d
    ∧ BookingsRoute.occupancyQuery lo hi d
      = BookingsRoute.dateQuery lo hi None d
        && negb (bool_decide (Model.roomId d = None)).
Proof.
  intros lo hi propertyId d ci co Hci Hco Hle.
  assert (∀ p, BookingsRoute.dateQuery lo hi p d
               = BookingsApi.active d && ((ci <=? hi)%Z && (lo <=? co)%Z)
                 && BookingsRoute.ofProperty p d) as Hq.
  { intros p. unfold BookingsRoute.dateQuery, BookingsRoute.inDay,
      BookingsRoute.atMost, BookingsRoute.atLeast. rewrite Hci, Hco.
    f_equal. f_equal.
    destruct (leb_cases lo ci) as [[-> ?]|[-> ?]],
             (leb_cases ci hi) as [[-> ?]|[-> ?]],
             (leb_cases lo co) as [[-> ?]|[-> ?]],
             (leb_cases co hi) as [[-> ?]|[-> ?]]; simpl; try reflexivity; lia. }
  split; [apply Hq|].
  rewrite Hq. unfold BookingsRoute.occupancyQuery, BookingsRoute.atMost,
    BookingsRoute.atLeast, BookingsRoute.ofProperty. rewrite Hci, Hco. simpl.
  by rewrite andb_true_r, andb_assoc.
Qed.

Lemma date_query_is_overlap_witness :
  Model.checkInDate Examples.directBankDoc = Some 1700000000000%Z
  ∧ Model.checkOutDate Examples.directBankDoc = Some 1700086400000%Z
  ∧ (1700000000000 ≤ 1700086400000)%Z
  ∧ BookingsRoute.occupancyQuery Utc.startOfDay Utc.endOfDay Examples.directBankDoc
    = false.
Proof.
  assert (1700000000000 ≤ 1700086400000)%Z as Hle by lia.
  split_and!; [reflexivity | reflexivity | exact Hle |].
  destruct (date_query_is_overlap Utc.startOfDay Utc.endOfDay None
              Examples.directBankDoc _ _ eq_refl eq_refl Hle) as [_ ->].
  vm_compute. reflexivity.
Defined.

(** X22: the [type] tag of a booking the single-date query selects,
    when [setHours(0, 0, 0, 0)] sends exactly the instants of the
    selected day to its midnight: the tag is checkin exactly when the
    check-in falls on the day, checkout exactly when the check-out does
    and the check-in does not, and stay exactly when the booking began
    before the day and ends after it. *)
Theorem type_tag_of_selected_booking :
  ∀ (setHours0 : Z → Z) (lo hi : Z) (propertyId : option string)
    (d : Model.IBooking) (ci co : Z),
    Model.checkInDate d = Some ci → Model.checkOutDate d = Some co →
    (setHours0 ci = lo ↔ (lo ≤ ci ≤ hi)%Z) →
    (setHours0 co = lo ↔ (lo ≤ co ≤ hi)%Z) →
    BookingsRoute.dateQuery lo hi propertyId d = true →
    (BookingsRoute.typeOf setHours0 lo ci co = BookingsRoute.checkin
     ↔ (lo ≤ ci ≤ hi)%Z)
    ∧ (BookingsRoute.typeOf setHours0 lo ci co = BookingsRoute.checkout
       ↔ ¬ (lo ≤ ci ≤ hi)%Z ∧ (lo ≤ co ≤ hi)%Z)
    ∧ (BookingsRoute.typeOf setHours0 lo ci co = BookingsRoute.stay
       ↔ (ci < lo)%Z ∧ (hi < co)%Z).
Proof.
  intros setHours0 lo hi propertyId d ci co Hci Hco Hin Hout Hsel.
  assert ((lo ≤ ci ≤ hi)%Z ∨ (lo ≤ co ≤ hi)%Z ∨ (ci ≤ hi ∧ lo ≤ co)%Z) as Hor.
  { unfold BookingsRoute.dateQuery, BookingsRoute.inDay, BookingsRoute.atMost,
      BookingsRoute.atLeast in Hsel. rewrite Hci, Hco in Hsel.
    apply andb_true_iff in Hsel as [Hsel _].
    apply andb_true_iff in Hsel as [_ Hsel].
    apply orb_true_iff in Hsel as [Hsel|Hsel];
      [apply orb_true_iff in Hsel as [Hsel|Hsel]|];
      apply andb_true_iff in Hsel as [H1 H2];
      apply Z.leb_le in H1; apply Z.leb_le in H2; lia. }
  unfold BookingsRoute.typeOf.
  destruct (decide (setHours0 ci = lo)) as [Hi|Hi];
    [|destruct (decide (setHours0 co = lo)) as [Ho|Ho]].
  - pose proof (proj1 Hin Hi). split_and!; split; try done; intros; lia.
  - pose proof (proj1 Hout Ho).
    assert (¬ (lo ≤ ci ≤ hi)%Z) by (intros ?; apply Hi; by apply Hin).
    split_and!; split; try done; intros; lia.
  - assert (¬ (lo ≤ ci ≤ hi)%Z) by (intros ?; apply Hi; by apply Hin).
    assert (¬ (lo ≤ co ≤ hi)%Z) by (intros ?; apply Ho; by apply Hout).
    split_and!; split; try done; intros; lia.
Qed.

Lemma type_tag_of_selected_booking_witness :
  Model.checkInDate Examples.directBankDoc = Some 1700000000000%Z
  ∧ Model.checkOutDate Examples.directBankDoc = Some 1700086400000%Z
  ∧ BookingsRoute.dateQuery Utc.startOfDay Utc.endOfDay None Examples.directBankDoc
    = true
  ∧ BookingsRoute.typeOf Utc.setHours0 Utc.startOfDay 1700000000000 1700086400000
    = BookingsRoute.checkin.
Proof.
  assert (Utc.setHours0 1700000000000 = Utc.startOfDay
          ↔ (Utc.startOfDay ≤ 1700000000000 ≤ Utc.endOfDay)%Z) as Hin.
  { split; [intros _; unfold Utc.startOfDay, Utc.endOfDay; lia|].
    intros _. vm_compute. reflexivity. }
  assert (Utc.setHours0 1700086400000 = Utc.startOfDay
          ↔ (Utc.startOfDay ≤ 1700086400000 ≤ Utc.endOfDay)%Z) as Hout.
  { split; [intros Heq; vm_compute in Heq; discriminate Heq|].
    unfold Utc.startOfDay, Utc.endOfDay. lia. }
  assert (BookingsRoute.dateQuery Utc.startOfDay Utc.endOfDay None
            Examples.directBankDoc = true) as Hsel by (vm_compute; reflexivity).
  split_and!; [reflexivity | reflexivity | exact Hsel |].
  apply (type_tag_of_selected_booking Utc.setHours0 Utc.startOfDay Utc.endOfDay None
           Examples.directBankDoc _ _ eq_refl eq_refl Hin Hout Hsel).
  unfold Utc.startOfDay, Utc.endOfDay. lia.
Defined.

(** ** The income-by-platform page *)

Section JsMapFacts.

Context {V : Type}.
Implicit Types (m : list (string * V)) (k : string) (v : V).

Lemma JsMap_elem_of_set m k v (kv : string * V) :
  kv ∈ JsMap.set m k v → kv = (k, v) ∨ kv ∈ m.
Proof.
  induction m as [|[k' v'] m IH]; simpl.
  - intros ->%list_elem_of_singleton. by left.
  - case_decide as Hk.
    + intros [->|Hin]%elem_of_cons; [left; by rewrite Hk|].
      right. by right.
    + intros [->|Hin]%elem_of_cons; [right; left|].
      destruct (IH Hin) as [->|Hm]; [by left|]. right. by right.
Qed.

Lemma JsMap_keys_set m k v (k0 : string) :
  k0 ∈ map fst (JsMap.set m k v) ↔ k0 = k ∨ k0 ∈ map fst m.
Proof.
  induction m as [|[k' v'] m IH]; simpl.
  - rewrite list_elem_of_singleton. split; [by left|]. intros [?|Hin]; [done|].
    by apply elem_of_nil in Hin.
  - case_decide as Hk; simpl; rewrite !elem_of_cons.
    + subst k'. tauto.
    + rewrite IH. tauto.
Qed.

Lemma JsMap_NoDup_set m k v :
  NoDup (map fst m) → NoDup (map fst (JsMap.set m k v)).
Proof.
  induction m as [|[k' v'] m IH]; simpl.
  - intros _. apply NoDup_singleton.
  - rewrite NoDup_cons. intros [Hnot Hnd]. case_decide as Hk; simpl.
    + by apply NoDup_cons.
    + apply NoDup_cons. split; [|by apply IH].
      rewrite JsMap_keys_set. intros [?|?]; [by subst|done].
Qed.

Lemma JsMap_get_set m k v (k0 : string) :
  JsMap.get (JsMap.set m k v) k0 = if decide (k = k0) then Some v else JsMap.get m k0.
Proof.
  induction m as [|[k' v'] m IH]; simpl.
  - done.
  - destruct (decide (k' = k)) as [->|Hk]; simpl.
    + by destruct (decide (k = k0)).
    + rewrite IH. destruct (decide (k' = k0)) as [->|Hk0]; [|done].
      by rewrite decide_False by (by intros ->).
Qed.

End JsMapFacts.

Section MergeFacts.
Import PlatformPage.

Implicit Types (m : list (string * Booking)) (b : Booking) (l : list Booking).


Lemma addDirect_setWhen m b :
  addDirect m b = setWhen (λ b, bool_decide (platform b = "Direct")) m b.
Proof.
  unfold addDirect, setWhen.
  case_bool_decide; [by rewrite decide_True|by rewrite decide_False].
Qed.

Lemma addOta_setWhen m b :
  addOta m b = setWhen (λ b, bool_decide (platform b ∈ OTA_PLATFORMS)) m b.
Proof.
  unfold addOta, setWhen.
  case_bool_decide; [by rewrite decide_True|by rewrite decide_False].
Qed.

Lemma fold_setWhen_inv (p : Booking → bool) l m :
  NoDup (map fst m) → keyed m →
  NoDup (map fst (fold_left (setWhen p) l m)) ∧ keyed (fold_left (setWhen p) l m).
Proof.
  revert m. induction l as [|b l IH]; intros m Hnd Hkey; [done|].
  cbn [fold_left]. apply IH; unfold setWhen; destruct (p b); try done.
  - by apply JsMap_NoDup_set.
  - intros k b' [[= -> ->]|Hin]%JsMap_elem_of_set; [done|by apply Hkey].
Qed.

Lemma fold_setWhen_elem (p : Booking → bool) l m (kv : string * Booking) :
  kv ∈ fold_left (setWhen p) l m → kv ∈ m ∨ (kv.2 ∈ l ∧ p kv.2 = true).
Proof.
  revert m. induction l as [|b l IH]; intros m; cbn [fold_left]; [by left|].
  intros Hin. destruct (IH _ Hin) as [Hm|[Hl Hp]].
  - unfold setWhen in Hm. destruct (p b) eqn:Hpb.
    + apply JsMap_elem_of_set in Hm as [->|Hm]; [|by left].
      right. split; [left|done].
    + by left.
  - right. split; [by right|done].
Qed.

Lemma fold_setWhen_keys (p : Booking → bool) l m (k : string) :
  k ∈ map fst m ∨ (∃ b, b ∈ l ∧ p b = true ∧ _id b = k) →
  k ∈ map fst (fold_left (setWhen p) l m).
Proof.
  revert m. induction l as [|b l IH]; intros m; cbn [fold_left].
  - intros [?|(b & Hb & _)]; [done|by apply elem_of_nil in Hb].
  - intros Hk. apply IH.
    destruct Hk as [Hk|(b' & [->|Hb']%elem_of_cons & Hp & Hid)].
    + left. unfold setWhen. destruct (p b); [|done].
      apply JsMap_keys_set. by right.
    + left. unfold setWhen. rewrite Hp. apply JsMap_keys_set. by left.
    + right. by exists b'.
Qed.

Lemma fold_ext {A B : Type} (f g : A → B → A) (xs : list B) (acc : A) :
  (∀ acc x, f acc x = g acc x) → fold_left f xs acc = fold_left g xs acc.
Proof.
  intros Hfg. revert acc. induction xs as [|x xs IH]; intros acc; simpl; [done|].
  by rewrite Hfg, IH.
Qed.

(** The [bookings] memo as two passes of [setWhen]. *)
Lemma bookings_setWhen (directBookings otaBookings : list Booking) :
  bookings directBookings otaBookings
  = JsMap.values
      (fold_left (setWhen (λ b, bool_decide (platform b ∈ OTA_PLATFORMS))) otaBookings
         (fold_left (setWhen (λ b, bool_decide (platform b = "Direct")))
            directBookings [])).
Proof.
  unfold bookings.
  rewrite (fold_ext addDirect _ _ _ addDirect_setWhen).
  by rewrite (fold_ext addOta _ _ _ addOta_setWhen).
Qed.

Lemma keyed_ids m : keyed m → map _id (JsMap.values m) = map fst m.
Proof.
  intros Hkey. unfold JsMap.values.
  induction m as [|[k b] m IH]; simpl; [done|].
  rewrite IH by (intros k' b' Hin; apply Hkey; by right).
  f_equal. symmetry. apply Hkey. left.
Qed.

(** One iteration of the grouping touches the list of its platform
    only. *)
Lemma platform_groupStep_lookup (g : gmap string (list Booking)) b (k : string) :
  default [] (groupStep g b !! k)
  = if decide (platform b = k) then default [] (g !! k) ++ [b]
    else default [] (g !! k).
Proof.
  unfold groupStep. destruct (decide (platform b = k)) as [<-|Hne].
  - rewrite lookup_alter_eq. destruct (g !! platform b) as [l|] eqn:Hg.
    + by rewrite Hg.
    + by rewrite lookup_insert_eq.
  - rewrite lookup_alter_ne by done.
    destruct (g !! platform b); [done|]. by rewrite lookup_insert_ne.
Qed.

Lemma fold_platform_groupStep (bs : list Booking) (g : gmap string (list Booking))
    (k : string) :
  default [] (fold_left groupStep bs g !! k)
  = default [] (g !! k) ++ List.filter (λ b, bool_decide (platform b = k)) bs.
Proof.
  revert g. induction bs as [|b bs IH]; intros g; cbn [fold_left List.filter].
  - by rewrite app_nil_r.
  - rewrite IH, platform_groupStep_lookup.
    destruct (decide (platform b = k)) as [Hk|Hk].
    + rewrite bool_decide_eq_true_2 by done. by rewrite <-app_assoc.
    + by rewrite bool_decide_eq_false_2 by done.
Qed.


End MergeFacts.

(** X23: the merged list of the income-by-platform page holds no
    identifier twice; each of its bookings is a Direct booking of the
    payment-range list or a booking of one of the four OTA platforms of
    the checkout-range list; and every such booking is represented
    under its identifier.  So a Direct booking that only the
    checkout-range list returns, and an OTA booking that only the
    payment-range list returns, are left out. *)
Theorem merged_bookings_are_deduplicated :
  ∀ directBookings otaBookings : list PlatformPage.Booking,
    NoDup (map PlatformPage._id (PlatformPage.bookings directBookings otaBookings))
    ∧ (∀ b, b ∈ PlatformPage.bookings directBookings otaBookings →
         (b ∈ directBookings ∧ PlatformPage.platform b = "Direct")
         ∨ (b ∈ otaBookings ∧ PlatformPage.platform b ∈ PlatformPage.OTA_PLATFORMS))
    ∧ (∀ b, (b ∈ directBookings ∧ PlatformPage.platform b = "Direct")
            ∨ (b ∈ otaBookings ∧ PlatformPage.platform b ∈ PlatformPage.OTA_PLATFORMS) →
         PlatformPage._id b
         ∈ map PlatformPage._id (PlatformPage.bookings directBookings otaBookings)).
Proof.
  intros directBookings otaBookings. rewrite bookings_setWhen.
  set (pd := λ b, bool_decide (PlatformPage.platform b = "Direct")).
  set (po := λ b, bool_decide (PlatformPage.platform b ∈ PlatformPage.OTA_PLATFORMS)).
  destruct (fold_setWhen_inv pd directBookings [])
    as [Hnd1 Hkey1]; [apply NoDup_nil_2 | by intros k b Hin%elem_of_nil |].
  destruct (fold_setWhen_inv po otaBookings _ Hnd1 Hkey1) as [Hnd2 Hkey2].
  split_and!.
  - by rewrite keyed_ids.
  - intros b Hb. unfold JsMap.values in Hb.
    apply elem_of_map_1 in Hb as ([k b'] & Hin & ->). simpl.
    apply fold_setWhen_elem in Hin as [Hin|[Hin Hp]].
    + apply fold_setWhen_elem in Hin as [Hin|[Hin Hp]];
        [by apply elem_of_nil in Hin|].
      left. split; [done|]. by apply bool_decide_eq_true in Hp.
    + right. split; [done|]. by apply bool_decide_eq_true in Hp.
  - intros b Hb. rewrite keyed_ids by done. apply fold_setWhen_keys.
    destruct Hb as [[Hin Hp]|[Hin Hp]].
    + left. apply fold_setWhen_keys. right. exists b.
      split_and!; [done | by apply bool_decide_eq_true | done].
    + right. exists b. split_and!; [done | by apply bool_decide_eq_true | done].
Qed.

(** X24: the section of a platform is given the bookings of that
    platform, in the order of the list; so a booking appears in the
    section of its own platform and in no other, and a booking whose
    platform is none of the five displayed is in no section. *)
Theorem section_holds_bookings_of_its_platform :
  ∀ (bs : list PlatformPage.Booking) (key : string),
    PlatformPage.sectionBookings bs key
    = List.filter (λ b, bool_decide (PlatformPage.platform b = key)) bs
    ∧ ∀ b, (∃ k, k ∈ PlatformPage.PLATFORMS ∧ b ∈ PlatformPage.sectionBookings bs k)
           ↔ b ∈ bs ∧ PlatformPage.platform b ∈ PlatformPage.PLATFORMS.
Proof.
  intros bs key.
  assert (∀ k, PlatformPage.sectionBookings bs k
               = List.filter (λ b, bool_decide (PlatformPage.platform b = k)) bs) as Hs.
  { intros k. unfold PlatformPage.sectionBookings, PlatformPage.bookingsByPlatform.
    by rewrite fold_platform_groupStep, lookup_empty. }
  split; [apply Hs|]. intros b. split.
  - intros (k & Hk & Hin). rewrite Hs in Hin.
    apply elem_of_List_filter in Hin as [Hin Hp].
    apply bool_decide_eq_true in Hp. by rewrite Hp.
  - intros [Hin Hp]. exists (PlatformPage.platform b). split; [done|].
    rewrite Hs. apply elem_of_List_filter. split; [done|].
    by apply bool_decide_eq_true.
Qed.


(** A cash booking of 30 and an online booking of 50: the Total card
    shows 30. *)
Example direct_total_sample :
  PlatformPage.directTotal [Samples.cashBooking; Samples.onlineBooking] = Q2Qc 30
  ∧ sumQc (map PlatformPage.amount [Samples.cashBooking; Samples.onlineBooking])
    = Q2Qc 80.
Proof. split; vm_compute; reflexivity. Qed.

(** ** The bulk import page *)

Section BulkImportFacts.
Import BulkImport.

Implicit Types (r : ImportedBooking) (rows : list ImportedBooking).

Lemma last_cons_match {A : Type} (x : A) (xs : list A) :
  last (x :: xs) = match last xs with Some y => Some y | None => Some x end.
Proof.
  destruct xs as [|y xs]; [done|]. rewrite last_cons_cons.
  destruct (last (y :: xs)) eqn:Hl; [done|].
  by apply last_None in Hl.
Qed.

Lemma get_fold_set (trim : string → string) (bookings : list Booking)
    (m : list (string * Booking)) (rid : string) :
  JsMap.get
    (fold_left (λ m kv, JsMap.set m kv.1 kv.2)
       (map (λ b, (importKey trim b, b)) bookings) m) rid
  = match lastMatch trim bookings rid with
    | Some b => Some b
    | None => JsMap.get m rid
    end.
Proof.
  unfold lastMatch. revert m.
  induction bookings as [|b bookings IH]; intros m; [done|].
  cbn [map fold_left List.filter fst snd]. rewrite IH, JsMap_get_set.
  destruct (decide (importKey trim b = rid)) as [Hk|Hk].
  - rewrite bool_decide_eq_true_2 by done. rewrite last_cons_match.
    by destruct (last _).
  - by rewrite bool_decide_eq_false_2 by done.
Qed.

Lemma filter_map_fix {A : Type} (p : A → bool) (g : A → A) (xs : list A) :
  (∀ x, p (g x) = p x) → (∀ x, p x = true → g x = x) →
  List.filter p (map g xs) = List.filter p xs.
Proof.
  intros Hp Hfix. induction xs as [|x xs IH]; [done|]. simpl.
  rewrite Hp, IH. destruct (p x) eqn:Hx; [|done]. by rewrite Hfix.
Qed.

Lemma withProperty_twice r (p q : string) :
  withProperty (withProperty r p) q = withProperty r q.
Proof. reflexivity. Qed.

Lemma addRecord_zero (t : Income.Totals) (d : Model.IBooking) :
  Model.amount d = Some 0%Qc → Income.addRecord t d = t.
Proof.
  intros Ha. unfold Income.addRecord, Income.amountOf. rewrite Ha. simpl.
  destruct t. simpl.
  repeat match goal with
         | |- context [if ?c then _ else _] => destruct c
         end; simpl; by rewrite ?Qcplus_0_r.
Qed.

End BulkImportFacts.

(** X26: the check against the loaded bookings marks a row as existing
    exactly when some loaded booking is filed under the row's
    reservation identifier (the booking's identifier as a string,
    trimmed, compared for equality), whatever the row's status was; the
    identifier recorded is that of the last such booking, and nothing
    else in the row changes.  A loaded booking without a reservation
    identifier is filed under the trimmed string undefined. *)
Theorem existing_rows_are_marked_by_last_match :
  ∀ (trim : string → string) (bookings : list BulkImport.Booking)
    (rows : list BulkImport.ImportedBooking),
    BulkImport.checkExistingRecords trim bookings rows
    = map (λ r, match lastMatch trim bookings (BulkImport.reservationId r) with
                | Some b => BulkImport.markExisting r (BulkImport._id b)
                | None => r
                end) rows
    ∧ (∀ b, BulkImport.bookingReservationId b = None →
            importKey trim b = trim "undefined").
Proof.
  intros trim bookings rows. split.
  - unfold BulkImport.checkExistingRecords, JsMap.ofEntries.
    apply map_ext. intros r.
    pose proof (get_fold_set trim bookings [] (BulkImport.reservationId r)) as Hg.
    cbv beta delta [importKey] in Hg. rewrite Hg.
    by destruct (lastMatch trim bookings (BulkImport.reservationId r)).
  - intros b Hb. unfold importKey. by rewrite Hb.
Qed.

(** X27: applying a property to all rows touches the pending rows
    only and changes nothing but their property: the statuses are as
    before, the rows that are not pending are as before, and with a
    property chosen every pending row carries it afterwards; a second
    application with another property overrides the first. *)
Theorem bulk_property_reaches_pending_rows_only :
  ∀ (p : string) (rows : list BulkImport.ImportedBooking),
    map BulkImport.status (BulkImport.applyPropertyToAll p rows)
    = map BulkImport.status rows
    ∧ List.filter settled (BulkImport.applyPropertyToAll p rows)
      = List.filter settled rows
    ∧ (p ≠ "" →
       ∀ r, r ∈ BulkImport.applyPropertyToAll p rows →
            BulkImport.status r = BulkImport.pending → BulkImport.propertyId r = p)
    ∧ (∀ q, q ≠ "" →
         BulkImport.applyPropertyToAll q (BulkImport.applyPropertyToAll p rows)
         = BulkImport.applyPropertyToAll q rows).
Proof.
  intros p rows. unfold BulkImport.applyPropertyToAll.
  destruct (decide (p = "")) as [Hp|Hp].
  - split_and!; done.
  - split_and!.
    + induction rows as [|r rows IH]; [done|]. simpl. rewrite IH. f_equal.
      by case_decide.
    + apply filter_map_fix.
      * intros r. by case_decide.
      * intros r Hr. apply negb_true_iff, bool_decide_eq_false in Hr.
        by rewrite decide_False.
    + intros _ r Hr Hs. apply elem_of_map_1 in Hr as (r0 & Hr0 & ->).
      destruct (decide (BulkImport.status r0 = BulkImport.pending)); done.
    + intros q Hq. rewrite !decide_False by done. rewrite map_map.
      apply map_ext. intros r.
      destruct (decide (BulkImport.status r = BulkImport.pending)) as [Hs|Hs].
      * simpl. by rewrite decide_True by done.
      * by rewrite decide_False by done.
Qed.

(** X28: a booking the bulk import saves is stored, when [POST]
    accepts it, with amount 0, status booked, no payment date and no
    room, and with the row's expected payment: it changes none of the
    income totals, no income query with a date window selects it, and
    it shows among the unassigned guests of its check-in day. *)
Theorem imported_booking_carries_no_income :
  ∀ (store store' : gmap string Model.IBooking) (row : BulkImport.ImportedBooking)
    (now rnd : N) (oid : string) (d : Model.IBooking),
    BookingsApi.POST store (BulkImport.saveBody row) now rnd oid
    = (BookingsApi.json (BookingsApi.BookingBody oid d) 200, store') →
    Model.amount d = Some 0%Qc
    ∧ Model.expectedPayment d = Some (BulkImport.expectedPayment row)
    ∧ Model.status d = Some "booked"
    ∧ (∀ records, Income.totals (records ++ [d]) = Income.totals records)
    ∧ (∀ trim propertyIdParam platformParam window,
         IncomeQuery.selects
           (IncomeQuery.query trim propertyIdParam platformParam (Some window)) d
         = false)
    ∧ (∀ lo hi, BookingsRoute.unassignedQuery lo hi d
                = BookingsRoute.inDay lo hi (BulkImport.checkInDate row)).
Proof.
  intros store store' row now rnd oid d Hpost.
  destruct (POST_cases store (BulkImport.saveBody row) now rnd oid)
    as [[Heq _]|[[Heq _]|(Heq & _)]];
    rewrite Heq in Hpost; [discriminate.. |].
  injection Hpost as <- <-. split_and!; try reflexivity.
  - intros records. unfold Income.totals. rewrite fold_left_app. simpl.
    by apply addRecord_zero.
  - intros trim pid plat [lo hi]. unfold IncomeQuery.selects.
    cbn [IncomeQuery.paymentDate IncomeQuery.query Model.paymentDate
         BookingsApi.newDocument BulkImport.saveBody IncomeQuery.within].
    by rewrite andb_false_r.
Qed.

Lemma imported_booking_carries_no_income_witness :
  Model.amount
    (BookingsApi.newDocument (BulkImport.saveBody Samples.importedRow) "V-77")
  = Some 0%Qc
  ∧ Income.totals
      (Examples.records
       ++ [BookingsApi.newDocument (BulkImport.saveBody Samples.importedRow) "V-77"])
    = Income.totals Examples.records.
Proof.
  assert (BookingsApi.POST Examples.store (BulkImport.saveBody Samples.importedRow)
            1700000000000 7 Examples.oid9
          = (BookingsApi.json
               (BookingsApi.BookingBody Examples.oid9
                  (BookingsApi.newDocument (BulkImport.saveBody Samples.importedRow)
                     "V-77")) 200,
             <[Examples.oid9 := BookingsApi.newDocument
                           (BulkImport.saveBody Samples.importedRow) "V-77"]>
               Examples.store)) as Hpost by (vm_compute; reflexivity).
  destruct (imported_booking_carries_no_income _ _ _ _ _ _ _ Hpost)
    as (Ha & _ & _ & Ht & _).
  split; [exact Ha | apply Ht].
Defined.
